(** * Humanizer API: shallow embedding and verified properties

    The development follows the Python sources of the repository:

    - [api_external.py]: the remote inference client [call_hf_api] and the
      steps built on it ([paraphrase_text], [rewrite_text],
      [detect_ai_text], [is_ai_generated]);
    - [api/index.py]: the text normalizer [clean_final_text], the
      orchestrator [HumanizerService.humanize_text] and the HTTP [handler];
    - [netlify/functions/api.py]: the wrapper [lambda_handler] of the
      handler.

    Modelling conventions.

    - A Python [str] is a list of Unicode code points ([PyStr.str]), so that
      [len], [replace] and [strip] count and compare characters the way
      Python does.  ASCII literals are written [py "..."].
    - A Python object that travels through JSON is a [value].  An [int] is
      an unbounded integer.  A [float] is an IEEE 754 binary64 number, NaN
      and the infinities included; its arithmetic is the one that the
      standard library specifies for binary64 ([SpecFloat]), rounding to
      nearest, ties to even.  An [int] that meets a [float] in an
      operation is converted first, which raises [OverflowError] when it
      is too large; a comparison of the two is exact.
    - An exception is a subclass of [Exception] with its message; what
      [except Exception] does not catch is outside the model.
    - Effects are a state-and-exception monad [M]: the state survives a
      raised exception, as a mutated Python object does.
    - The modules [paraphraser], [rewriter] and [detector] that [index.py]
      imports are parameters of the orchestrator and of the handler. *)

From Equations Require Import Equations.
From Stdlib Require Import List ZArith NArith QArith Qabs Bool String Ascii Lia Lqa.
From Stdlib Require Import Qpower SpecFloat.
Import ListNotations.

Set Implicit Arguments.

(* ===================================================================== *)
(** ** Python strings *)
(* ===================================================================== *)

Module PyStr.

(** A [str] is a sequence of code points. *)
Definition str := list N.

(** ASCII literal to [str]. *)
Definition py (s : string) : str :=
  map N_of_ascii (list_ascii_of_string s).

Definition EM_DASH : N := 8212.   (* U+2014 *)
Definition SPACE   : N := 32.
Definition COMMA   : N := 44.
Definition PERIOD  : N := 46.
Definition SLASH   : N := 47.

Fixpoint eqb (a b : str) : bool :=
  match a, b with
  | [], [] => true
  | x :: a', y :: b' => N.eqb x y && eqb a' b'
  | _, _ => false
  end.

(** [len(s)] *)
Definition len (s : str) : Z := Z.of_nat (List.length s).

(** [s.replace(old, new)] for a one-character [old]. *)
Definition replace_char (old : N) (new : str) (s : str) : str :=
  flat_map (fun c => if N.eqb c old then new else [c]) s.

(** [s.startswith(p)] *)
Fixpoint startswith (p s : str) : bool :=
  match p, s with
  | [], _ => true
  | x :: p', y :: s' => N.eqb x y && startswith p' s'
  | _ :: _, [] => false
  end.

(** The characters for which [str.isspace] holds; [strip()] removes them. *)
Definition isspace (c : N) : bool :=
  ((9 <=? c) && (c <=? 13) || (28 <=? c) && (c <=? 32)
   || (c =? 133) || (c =? 160) || (c =? 5760)
   || (8192 <=? c) && (c <=? 8202)
   || (c =? 8232) || (c =? 8233) || (c =? 8239) || (c =? 8287)
   || (c =? 12288))%N.

Fixpoint lstrip_by (f : N -> bool) (s : str) : str :=
  match s with
  | c :: r => if f c then lstrip_by f r else s
  | [] => []
  end.

Definition rstrip_by (f : N -> bool) (s : str) : str :=
  rev (lstrip_by f (rev s)).

(** [s.strip()] *)
Definition strip (s : str) : str := rstrip_by isspace (lstrip_by isspace s).

(** [s.rstrip('/')] *)
Definition rstrip_slash (s : str) : str := rstrip_by (N.eqb SLASH) s.

End PyStr.
Import PyStr.

(* ===================================================================== *)
(** ** Python floats *)
(* ===================================================================== *)

Module PyFloat.

(** A [float] is a binary64 number. *)
Definition float : Type := spec_float.

Definition prec : Z := 53.
Definition emax : Z := 1024.

Definition fsub : float -> float -> float := SFsub prec emax.
Definition fadd : float -> float -> float := SFadd prec emax.
Definition fmul : float -> float -> float := SFmul prec emax.
Definition fdiv : float -> float -> float := SFdiv prec emax.
Definition fabs : float -> float := SFabs.

(** An integer as the operand of a rounding operation: the mantissa is
    the integer itself, whatever its size. *)
Definition exact (z : Z) : float :=
  match z with
  | Z0 => S754_zero false
  | Zpos m => S754_finite false m 0
  | Zneg m => S754_finite true m 0
  end.

Definition is_infinite (f : float) : bool :=
  match f with
  | S754_infinity _ => true
  | _ => false
  end.

(** [float(z)]: the nearest float, [None] when [z] is too large
    ([OverflowError]). *)
Definition of_int (z : Z) : option float :=
  let f := binary_normalize prec emax z 0 false in
  if is_infinite f then None else Some f.

(** [n / d] for two ints, [d] not zero: the float nearest to the quotient,
    [None] when it is too large ([OverflowError]).  It is also the float
    that the decimal literal [n / 10^k] denotes, for [d = 10^k]. *)
Definition int_div (n d : Z) : option float :=
  let f := fdiv (exact n) (exact d) in
  if is_infinite f then None else Some f.

(** [f == 0.0]: both zeros. *)
Definition is_zero (f : float) : bool :=
  match f with
  | S754_zero _ => true
  | _ => false
  end.

(** The float that a decimal literal denotes: [digits / 10^places],
    rounded once. *)
Definition decimal (digits places : Z) : float :=
  fdiv (exact digits) (exact (10 ^ places)).

(** The floats of the program text. *)
Definition zero : float := S754_zero false.                            (* 0.0 *)
Definition half : float := S754_finite false 4503599627370496 (-53).  (* 0.5 *)
Definition seven_tenths : float :=
  S754_finite false 6305039478318694 (-53).                            (* 0.7 *)
Definition one : float := S754_finite false 4503599627370496 (-52).   (* 1.0 *)
Definition two : float := S754_finite false 4503599627370496 (-51).   (* 2.0 *)

(** The floats of the format: a finite one has a mantissa of at most 53
    bits and the exponent that goes with it. *)
Definition is_binary64 (f : float) : bool := valid_binary prec emax f.

(** What a number is worth: a rational, an infinity, or nothing (NaN). *)
Inductive extended : Type :=
| NotANumber
| MinusInfinity
| Finite (q : Q)
| PlusInfinity.

Definition worth (f : float) : extended :=
  match f with
  | S754_nan => NotANumber
  | S754_infinity s => if s then MinusInfinity else PlusInfinity
  | S754_zero _ => Finite 0
  | S754_finite s m e => Finite (inject_Z (cond_Zopp s (Zpos m)) * Qpower 2 e)
  end.

(** [a > b] on what two numbers are worth: NaN is above nothing and
    nothing is above it. *)
Definition above (a b : extended) : bool :=
  match a, b with
  | NotANumber, _ | _, NotANumber => false
  | MinusInfinity, _ => false
  | _, PlusInfinity => false
  | PlusInfinity, _ => true
  | Finite _, MinusInfinity => true
  | Finite x, Finite y => negb (Qle_bool x y)
  end.

(** [a == b] on what two numbers are worth. *)
Definition same (a b : extended) : bool :=
  match a, b with
  | NotANumber, _ | _, NotANumber => false
  | MinusInfinity, MinusInfinity => true
  | PlusInfinity, PlusInfinity => true
  | Finite x, Finite y => Qeq_bool x y
  | _, _ => false
  end.

End PyFloat.
Import PyFloat.

(* ===================================================================== *)
(** ** Python values, exceptions and effects *)
(* ===================================================================== *)

Module Py.

#[local] Set Warnings "-register-all".

(** The objects that [json.loads] produces and [json.dumps] accepts. *)
Inductive value : Type :=
| VNone
| VBool (b : bool)
| VInt (z : Z)
| VFloat (f : float)
| VStr (s : str)
| VList (l : list value)
| VDict (d : list (str * value)).

Definition dict := list (str * value).

(** [d.get(k)] on the entries of a dict. *)
Fixpoint dict_get (k : str) (d : dict) : option value :=
  match d with
  | [] => None
  | (k', v) :: d' => if PyStr.eqb k k' then Some v else dict_get k d'
  end.

(** [d[k] = v]: an existing key keeps its position, a new key goes last. *)
Fixpoint dict_set (k : str) (v : value) (d : dict) : dict :=
  match d with
  | [] => [(k, v)]
  | (k', v') :: d' =>
      if PyStr.eqb k k' then (k', v) :: d' else (k', v') :: dict_set k v d'
  end.

(** [bool(v)] *)
Definition truthy (v : value) : bool :=
  match v with
  | VNone => false
  | VBool b => b
  | VInt z => negb (Z.eqb z 0)
  | VFloat f => negb (is_zero f)
  | VStr [] => false
  | VStr (_ :: _) => true
  | VList [] => false
  | VList (_ :: _) => true
  | VDict [] => false
  | VDict (_ :: _) => true
  end.

(** [type(v).__name__] *)
Definition type_name (v : value) : string :=
  match v with
  | VNone => "NoneType"
  | VBool _ => "bool"
  | VInt _ => "int"
  | VFloat _ => "float"
  | VStr _ => "str"
  | VList _ => "list"
  | VDict _ => "dict"
  end.

(** [v == s] for a string literal [s]. *)
Definition eq_str (v : value) (s : str) : bool :=
  match v with
  | VStr s' => PyStr.eqb s' s
  | _ => false
  end.

(** An exception: its class and [str(e)]. *)
Record exn : Type := mk_exn { exn_class : string; exn_msg : str }.

Definition Exception (msg : string) : exn := mk_exn "Exception" (py msg).

Definition AttributeError (v : value) (attr : string) : exn :=
  mk_exn "AttributeError"
    (py ("'" ++ type_name v ++ "' object has no attribute '" ++ attr ++ "'")).

Definition TypeError (msg : string) : exn := mk_exn "TypeError" (py msg).

Definition KeyError (k : string) : exn := mk_exn "KeyError" (py ("'" ++ k ++ "'")).

Inductive result (A : Type) : Type :=
| Ok (a : A)
| Raise (e : exn).
Arguments Ok {A} a.
Arguments Raise {A} e.

(** *** Numbers: [bool] and [int] are integers *)

Inductive num : Type :=
| NumInt (z : Z)
| NumFloat (f : float).

Definition as_num (v : value) : option num :=
  match v with
  | VBool b => Some (NumInt (if b then 1 else 0))
  | VInt z => Some (NumInt z)
  | VFloat f => Some (NumFloat f)
  | _ => None
  end.

(** What a number is worth, exactly. *)
Definition num_worth (n : num) : extended :=
  match n with
  | NumInt z => Finite (inject_Z z)
  | NumFloat f => worth f
  end.

Definition OverflowError (msg : string) : exn := mk_exn "OverflowError" (py msg).

Definition ZeroDivisionError (msg : string) : exn :=
  mk_exn "ZeroDivisionError" (py msg).

(** An operand of a float operation. *)
Definition to_float (n : num) : result float :=
  match n with
  | NumFloat f => Ok f
  | NumInt z =>
      match of_int z with
      | Some f => Ok f
      | None => Raise (OverflowError "int too large to convert to float")
      end
  end.

(** An operation on two numbers of which one is a float. *)
Definition float_op (op : float -> float -> float) (x y : num) : result value :=
  match to_float x with
  | Raise e => Raise e
  | Ok fx =>
      match to_float y with
      | Raise e => Raise e
      | Ok fy => Ok (VFloat (op fx fy))
      end
  end.

Definition binop_error (op : string) (a b : value) : exn :=
  TypeError ("unsupported operand type(s) for " ++ op ++ ": '"
             ++ type_name a ++ "' and '" ++ type_name b ++ "'").

(** [a - b] *)
Definition py_sub (a b : value) : result value :=
  match as_num a, as_num b with
  | Some (NumInt x), Some (NumInt y) => Ok (VInt (x - y))
  | Some x, Some y => float_op fsub x y
  | _, _ => Raise (binop_error "-" a b)
  end.

(** [a + b] on numbers. *)
Definition py_add (a b : value) : result value :=
  match as_num a, as_num b with
  | Some (NumInt x), Some (NumInt y) => Ok (VInt (x + y))
  | Some x, Some y => float_op fadd x y
  | _, _ => Raise (binop_error "+" a b)
  end.

(** [a * b] on numbers (the uses multiply a number by an int). *)
Definition py_mul (a b : value) : result value :=
  match as_num a, as_num b with
  | Some (NumInt x), Some (NumInt y) => Ok (VInt (x * y))
  | Some x, Some y => float_op fmul x y
  | _, _ => Raise (binop_error "*" a b)
  end.

(** [abs(a)] *)
Definition py_abs (a : value) : result value :=
  match as_num a with
  | Some (NumInt x) => Ok (VInt (Z.abs x))
  | Some (NumFloat f) => Ok (VFloat (fabs f))
  | None => Raise (TypeError ("bad operand type for abs(): '" ++ type_name a ++ "'"))
  end.

(** [a > b] with a number on the left, the only use: a number is ordered
    against numbers only, and exactly, whatever their types. *)
Definition py_gt (a b : value) : result bool :=
  match as_num a, as_num b with
  | Some x, Some y => Ok (above (num_worth x) (num_worth y))
  | _, _ =>
      Raise (TypeError ("'>' not supported between instances of '"
                        ++ type_name a ++ "' and '" ++ type_name b ++ "'"))
  end.

(** [len(v)] *)
Definition py_len (v : value) : result Z :=
  match v with
  | VStr s => Ok (len s)
  | VList l => Ok (Z.of_nat (List.length l))
  | VDict d => Ok (Z.of_nat (List.length d))
  | _ => Raise (TypeError ("object of type '" ++ type_name v ++ "' has no len()"))
  end.

(** [v.get(k, default)]: only a dict has the method. *)
Definition method_get (v : value) (k : str) (default : value) : result value :=
  match v with
  | VDict d =>
      Ok (match dict_get k d with Some x => x | None => default end)
  | _ => Raise (AttributeError v "get")
  end.

(** Looking up a [str] method [attr] on [v]: the receiver, when it is a str. *)
Definition str_method (attr : string) (v : value) : result str :=
  match v with
  | VStr s => Ok s
  | _ => Raise (AttributeError v attr)
  end.

(** *** The effect monad

    [M S A] is a computation over a state [S] that returns an [A] or raises.
    The state reached when an exception is raised is kept: this is what an
    [except] clause sees of the objects mutated inside its [try]. *)

Definition M (S A : Type) : Type := S -> S * result A.

Definition ret {S A} (a : A) : M S A := fun s => (s, Ok a).

Definition raise {S A} (e : exn) : M S A := fun s => (s, Raise e).

Definition bind {S A B} (m : M S A) (k : A -> M S B) : M S B :=
  fun s =>
    match m s with
    | (s', Ok a) => k a s'
    | (s', Raise e) => (s', Raise e)
    end.

(** [try: m  except Exception as e: h e] *)
Definition try_except {S A} (m : M S A) (h : exn -> M S A) : M S A :=
  fun s =>
    match m s with
    | (s', Ok a) => (s', Ok a)
    | (s', Raise e) => h e s'
    end.

(** A pure operation that may raise. *)
Definition lift_result {S A} (r : result A) : M S A := fun s => (s, r).

End Py.
Import Py.

Declare Scope py_scope.
Delimit Scope py_scope with py.
Notation "x <- m ;; k" := (bind m (fun x => k))
  (at level 61, m at next level, right associativity) : py_scope.
Notation "' pat <- m ;; k" := (bind m (fun x => match x with pat => k end))
  (at level 61, pat pattern, m at next level, right associativity) : py_scope.
Notation "m ;; k" := (bind m (fun _ => k))
  (at level 61, right associativity) : py_scope.
Open Scope py_scope.

(* ===================================================================== *)
(** ** The regular expression [' +([,.])'] and [re.sub] with ['\1'] *)
(* ===================================================================== *)

Module Regex.

Definition is_punct (c : N) : bool := N.eqb c COMMA || N.eqb c PERIOD.

(** After at least one space has been consumed: more spaces (greedy), then
    the group [([,.])].  Giving back spaces cannot help, the next character
    would be a space, so the greedy attempt decides the match. *)
Fixpoint spaces_then_punct (s : str) : option (N * str) :=
  match s with
  | c :: r =>
      if N.eqb c SPACE then spaces_then_punct r
      else if is_punct c then Some (c, r) else None
  | [] => None
  end.

(** A match of [' +([,.])'] anchored at the head of [s]: the character
    captured by group 1 and the input left after the match. *)
Definition match_at (s : str) : option (N * str) :=
  match s with
  | c :: r => if N.eqb c SPACE then spaces_then_punct r else None
  | [] => None
  end.

Definition inspect {A} (a : A) : {b : A | a = b} := exist _ a eq_refl.

(** [re.sub(r' +([,.])', r'\1', s)]: scan from the left; at a match emit
    group 1 and continue after the match, otherwise copy one character. *)
Equations? re_sub (s : str) : str by wf (List.length s) lt :=
  re_sub [] := [];
  re_sub (c :: r) with inspect (match_at (c :: r)) := {
    | exist _ (Some (p, rest)) _ := p :: re_sub rest;
    | exist _ None _ := c :: re_sub r }.
Proof.
  assert (shorter : forall s q tl,
             spaces_then_punct s = Some (q, tl) ->
             (List.length tl < S (List.length s))%nat).
  { induction s as [|d s' IH]; simpl; [discriminate|]; intros q tl.
    destruct (N.eqb d SPACE).
    - intros E; apply IH in E; lia.
    - destruct (is_punct d); [|discriminate].
      intros E; injection E as _ <-; lia. }
  match goal with
  | E : match_at _ = Some _ |- _ =>
      simpl in E; destruct (N.eqb c SPACE); [|discriminate];
      apply shorter in E; simpl; lia
  end.
Qed.

End Regex.
Import Regex.

(* ===================================================================== *)
(** ** [api_external.py] *)
(* ===================================================================== *)

Module ApiExternal.

(** What [requests.post] is asked to send. *)
Record request : Type := mk_request {
  req_url_base : str;          (* API_URL = f"{API_URL_BASE}/{model_id}" *)
  req_model_id : value;
  req_authorization : str;     (* headers["Authorization"] *)
  req_inputs : str;            (* payload["inputs"] *)
  req_parameters : value       (* payload["parameters"] *)
}.

(** The network as the program sees it: the requests issued so far, the
    most recent first. *)
Definition world := list request.

Definition API_URL_BASE : str := py "https://api-inference.huggingface.co/models".

Definition fallback_detection (prediction : string) : dict :=
  [ (py "ensemble_ai_probability", VFloat half);
    (py "ensemble_human_probability", VFloat half);
    (py "prediction", VStr (py prediction));
    (py "confidence", VFloat zero);
    (py "models_used", VList []) ].

Section WithEnvironment.

(** [HF_API_TOKEN = os.getenv('HF_API_TOKEN', '')] *)
Variable HF_API_TOKEN : str.

(** The remote service: what [requests.post(...)], [raise_for_status()] and
    [response.json()] end in for a request, given the requests before it;
    either the parsed JSON or the exception of the transport. *)
Variable remote : world -> request -> result value.

Definition requests_post (r : request) : M world value :=
  fun w => (r :: w, remote w r).

(** [call_hf_api(model_id, inputs, parameters=None)] *)
Definition call_hf_api (model_id : value) (inputs : str) (parameters : value)
  : M world value :=
  if negb (truthy (VStr HF_API_TOKEN)) then
    raise (Exception "HF_API_TOKEN environment variable not set")
  else
    let headers := py "Bearer " ++ HF_API_TOKEN in
    let payload_parameters :=                       (* parameters or {} *)
      if truthy parameters then parameters else VDict [] in
    try_except
      (requests_post (mk_request API_URL_BASE model_id headers inputs
                                 payload_parameters))
      (fun e => (* logger.error(...) *) raise e).

(** [paraphrase_text(text, model_name=None)] *)
Definition paraphrase_text (text : str) (model_name : value)
  : M world (value * value) :=
  try_except
    (let model_name :=
       if negb (truthy model_name)
       then VStr (py "humarin/chatgpt_paraphraser_on_T5_base")
       else model_name in
     let formatted_input := py "paraphrase: " ++ text in
     result <- call_hf_api model_name formatted_input
                 (VDict [ (py "max_length", VInt (len text * 2));
                          (py "min_length", VInt (len text / 2)) ]) ;;
     match result with
     | VList (first :: _) =>       (* isinstance(result, list) and len(result) > 0 *)
         paraphrased <- lift_result
                          (method_get first (py "generated_text") (VStr text)) ;;
         ret (paraphrased, VStr (py ""))
     | _ => ret (VStr text, VStr (py "API returned unexpected format"))
     end)
    (fun e => (* logger.error(...) *) ret (VStr text, VStr (exn_msg e))).

(** [rewrite_text(text, enhanced=False)] *)
Definition rewrite_text (text : str) (enhanced : value)
  : M world (value * value) :=
  try_except
    (let model := VStr (py "google/flan-t5-base") in
     let prompt :=
       py "Rewrite this text to make it more human-like and natural: " ++ text in
     let prompt :=
       if truthy enhanced
       then py "Significantly rewrite and humanize this text to make it appear completely human-written: " ++ text
       else prompt in
     result <- call_hf_api model prompt
                 (VDict [ (py "max_length", VInt (len text * 3));
                          (py "min_length", VInt (len text)) ]) ;;
     match result with
     | VList (first :: _) =>
         rewritten <- lift_result
                        (method_get first (py "generated_text") (VStr text)) ;;
         ret (rewritten, VStr (py ""))
     | _ => ret (VStr text, VStr (py "API returned unexpected format"))
     end)
    (fun e => (* logger.error(...) *) ret (VStr text, VStr (exn_msg e))).

Definition DETECTOR_MODEL : str := py "roberta-base-openai-detector".

(** The per-model score of [detect_ai_text]:
    [score if label == 'AI' else 1 - score], with [0.5] for a missing score
    and for a prediction that is not an object. *)
Definition ai_score_of (prediction : value) : result value :=
  match prediction with
  | VDict d =>
      let label := match dict_get (py "label") d with Some l => l | None => VNone end in
      let score := match dict_get (py "score") d with Some x => x | None => VFloat half end in
      if eq_str label (py "AI") then Ok score else py_sub (VInt 1) score
  | _ => Ok (VFloat half)          (* Default if format unknown *)
  end.

(** [detect_ai_text(text, method="ensemble")] *)
Definition detect_ai_text (text : str) (method : str) : M world value :=
  try_except
    (let model := DETECTOR_MODEL in
     result <- call_hf_api (VStr model) text VNone ;;
     match result with
     | VList (prediction :: _) =>
         ai_score <- lift_result (ai_score_of prediction) ;;
         human <- lift_result (py_sub (VInt 1) ai_score) ;;
         is_ai <- lift_result (py_gt ai_score (VFloat half)) ;;
         distance <- lift_result (py_sub ai_score (VFloat half)) ;;
         magnitude <- lift_result (py_abs distance) ;;
         confidence <- lift_result (py_mul magnitude (VInt 2)) ;;
         ret (VDict
                [ (py "ensemble_ai_probability", ai_score);
                  (py "ensemble_human_probability", human);
                  (py "prediction",
                   VStr (if is_ai then py "AI-generated" else py "Human-written"));
                  (py "confidence", confidence);
                  (py "models_used", VList [VStr model]) ])
     | _ =>
         (* Default response if API fails *)
         ret (VDict (fallback_detection "Uncertain"))
     end)
    (fun e =>
       (* Return neutral result on failure *)
       ret (VDict (fallback_detection "Detection failed"
                   ++ [ (py "error", VStr (exn_msg e)) ]))).

(** [result[k]] on the dict a detection returns. *)
Definition getitem (v : value) (k : string) : result value :=
  match v with
  | VDict d =>
      match dict_get (py k) d with
      | Some x => Ok x
      | None => Raise (KeyError k)
      end
  | _ => Raise (TypeError ("'" ++ type_name v ++ "' object is not subscriptable"))
  end.

(** [is_ai_generated(text, threshold=0.7)] *)
Definition is_ai_generated (text : str) (threshold : value)
  : M world (bool * value) :=
  result <- detect_ai_text text (py "ensemble") ;;
  ai_prob <- lift_result (getitem result "ensemble_ai_probability") ;;
  confidence <- lift_result (getitem result "confidence") ;;
  above <- lift_result (py_gt ai_prob threshold) ;;
  ret (above, confidence).

End WithEnvironment.

End ApiExternal.

(* ===================================================================== *)
(** ** [api/index.py]: the text normalizer *)
(* ===================================================================== *)

(** [clean_final_text(text: str) -> str] *)
Definition clean_final_text (text : str) : str :=
  match text with
  | [] => text                                     (* if not text *)
  | _ =>
      let cleaned_text := replace_char EM_DASH (py ", ") text in
      let cleaned_text := re_sub cleaned_text in
      cleaned_text
  end.

(* ===================================================================== *)
(** ** [api/index.py]: the orchestrator and the HTTP handler *)
(* ===================================================================== *)

Module Index.

Import ApiExternal.

(** [clean_final_text] as the pipeline calls it, on whatever object the
    rewrite step handed back: a falsy object is returned as it is, a str is
    cleaned, anything else has no [replace] method. *)
Definition call_clean_final_text (v : value) : result value :=
  match v with
  | VStr s => Ok (VStr (clean_final_text s))
  | _ => if truthy v then Raise (AttributeError v "replace") else Ok v
  end.

(** The state of one pipeline run: the [stats] dict, which the [except]
    clause reads after a failure, and the network. *)
Record pstate : Type := mk_pstate { stats : dict; net : world }.

Definition lift_net {A} (m : M world A) : M pstate A :=
  fun s => let (w', r) := m (net s) in (mk_pstate (stats s) w', r).

(** [stats[k] = v] *)
Definition set_stat (k : string) (v : value) : M pstate unit :=
  fun s => (mk_pstate (dict_set (py k) v (stats s)) (net s), Ok tt).

(** [stats[k]] *)
Definition get_stat (k : string) : M pstate value :=
  fun s =>
    (s, match dict_get (py k) (stats s) with
        | Some v => Ok v
        | None => Raise (KeyError k)
        end).

(** [stats["processing_steps"].append(tag)] *)
Definition append_step (tag : string) : M pstate unit :=
  steps <- get_stat "processing_steps" ;;
  match steps with
  | VList l => set_stat "processing_steps" (VList (l ++ [VStr (py tag)]))
  | _ => raise (AttributeError steps "append")
  end.

Definition initial_stats (text : str) (use_enhanced_rewriting : value) : dict :=
  [ (py "original_length", VInt (len text));
    (py "paraphrasing_used", VBool false);
    (py "enhanced_rewriting_used", use_enhanced_rewriting);
    (py "model_used", VNone);
    (py "processing_steps", VList []) ].

(** The [except] clause of [humanize_text]:
    [{**stats, "error": str(e), "processing_steps": stats["processing_steps"] + ["error"]}] *)
Definition error_stats (st : dict) (e : exn) : result value :=
  match dict_get (py "processing_steps") st with
  | Some (VList l) =>
      Ok (VDict (dict_set (py "processing_steps") (VList (l ++ [VStr (py "error")]))
                   (dict_set (py "error") (VStr (exn_msg e)) st)))
  | Some other =>
      Raise (TypeError ("unsupported operand type(s) for +: '"
                        ++ type_name other ++ "' and 'list'"))
  | None => Raise (KeyError "processing_steps")
  end.

Section WithModules.

(** [IMPORTS_AVAILABLE]: whether [paraphraser], [rewriter] and [detector]
    could be imported. *)
Variable IMPORTS_AVAILABLE : bool.

(** The imported functions the orchestrator calls.  Each may raise. *)
Variable paraphrase_text : str -> value -> M world (value * value).
Variable rewrite_text : str -> value -> M world (value * value).
Variable get_current_model : M world value.

(** Step 1 of the pipeline, run when paraphrasing is enabled; the result is
    the new [current_text]. *)
Definition paraphrasing_step (current_text : str) (paraphrase_model : value)
  : M pstate str :=
  '(paraphrased, err) <- lift_net (paraphrase_text current_text paraphrase_model) ;;
  (* if not err and paraphrased and paraphrased.strip(): *)
  usable <- (if negb (truthy err) && truthy paraphrased
             then s <- lift_result (str_method "strip" paraphrased) ;;
                  ret (truthy (VStr (strip s)))
             else ret false) ;;
  if usable : bool then
    (* [paraphrased] is a str here, [strip] has just been called on it *)
    new_text <- lift_result (str_method "startswith" paraphrased) ;;
    set_stat "paraphrasing_used" (VBool true) ;;
    model <- lift_net get_current_model ;;
    set_stat "model_used" model ;;
    append_step "paraphrasing" ;;
    ret (if startswith (py ": ") new_text then skipn 2 new_text else new_text)
  else
    append_step "paraphrasing_failed" ;;
    ret current_text.

(** The body of the [try] in [humanize_text]; the value is [final_text]. *)
Definition humanize_body (text : str)
    (use_paraphrasing use_enhanced_rewriting paraphrase_model : value)
  : M pstate value :=
  let current_text := text in
  (* Step 1: Paraphrasing (if enabled) *)
  current_text <- (if truthy use_paraphrasing
                   then paraphrasing_step current_text paraphrase_model
                   else ret current_text) ;;
  (* Step 2: Rewriting and refinement *)
  '(final_text, err) <- lift_net (rewrite_text current_text use_enhanced_rewriting) ;;
  final_text <- (if truthy err
                 then append_step "rewriting_failed" ;; ret (VStr current_text)
                 else append_step "rewriting" ;; ret final_text) ;;
  (* Step 3: Clean the final text *)
  final_text <- lift_result (call_clean_final_text final_text) ;;
  append_step "text_cleaning" ;;
  final_length <- lift_result (py_len final_text) ;;
  set_stat "final_length" (VInt final_length) ;;
  final_length <- get_stat "final_length" ;;
  original_length <- get_stat "original_length" ;;
  length_change <- lift_result (py_sub final_length original_length) ;;
  set_stat "length_change" length_change ;;
  ret final_text.

(** [HumanizerService.humanize_text(text, use_paraphrasing=True,
    use_enhanced_rewriting=False, paraphrase_model=None)] *)
Definition humanize_text (text : str)
    (use_paraphrasing use_enhanced_rewriting paraphrase_model : value)
  : M world (value * value) :=
  if negb IMPORTS_AVAILABLE then
    ret (VStr text,
         VDict [ (py "error", VStr (py "Required modules not available"));
                 (py "success", VBool false) ])
  else
    fun w =>
      let start := mk_pstate (initial_stats text use_enhanced_rewriting) w in
      match humanize_body text use_paraphrasing use_enhanced_rewriting
                          paraphrase_model start with
      | (s, Ok final_text) => (net s, Ok (final_text, VDict (stats s)))
      | (s, Raise e) =>
          (* except Exception as e: *)
          match error_stats (stats s) e with
          | Ok st => (net s, Ok (VStr text, st))
          | Raise e' => (net s, Raise e')
          end
      end.

End WithModules.

(** *** The handler *)

(** The event: what [event.get] finds under the three keys that the handler
    reads.  A key may be absent, and what is under it need not be a str. *)
Record event : Type := mk_event {
  ev_httpMethod : option value;
  ev_path : option value;
  ev_body : value                 (* [VNone] when the key is absent *)
}.

(** The [body] of a response: a literal string or [json.dumps] of an object. *)
Inductive payload : Type :=
| Literal (s : str)
| JsonDumps (v : value).

Record response : Type := mk_response {
  statusCode : Z;
  headers : list (str * str);
  body : payload
}.

Definition cors_headers : list (str * str) :=
  [ (py "Access-Control-Allow-Origin", py "*");
    (py "Access-Control-Allow-Headers", py "Content-Type");
    (py "Access-Control-Allow-Methods", py "GET, POST, OPTIONS");
    (py "Content-Type", py "application/json") ].

Definition respond (code : Z) (v : dict) : response :=
  mk_response code cors_headers (JsonDumps (VDict v)).

Definition error_body (msg : string) : dict := [ (py "error", VStr (py msg)) ].

Definition modules_unavailable : dict :=
  [ (py "error", VStr (py "Required modules not available"));
    (py "success", VBool false) ].

(** [sub in s] for two strs. *)
Fixpoint contains (sub s : str) : bool :=
  startswith sub s ||
  match s with
  | _ :: r => contains sub r
  | [] => false
  end.

(** ["text" in body] *)
Definition py_in (k : str) (container : value) : result bool :=
  match container with
  | VDict d => Ok (match dict_get k d with Some _ => true | None => false end)
  | VList l => Ok (existsb (fun x => eq_str x k) l)
  | VStr s => Ok (contains k s)
  | _ => Raise (TypeError ("argument of type '" ++ type_name container
                           ++ "' is not iterable"))
  end.

Definition is_none (v : value) : bool :=
  match v with VNone => true | _ => false end.

Section WithServices.

Variable IMPORTS_AVAILABLE : bool.
Variable paraphrase_text : str -> value -> M world (value * value).
Variable rewrite_text : str -> value -> M world (value * value).
Variable get_current_model : M world value.
Variable get_available_models : M world value.
Variable get_device_info : M world value.
Variable time_time : M world value.

(** [json.loads]: the parsed object, or the decoder's exception. *)
Variable json_loads : str -> result value.

(** The bodies of the [/detect] and [/humanize_and_check] routes
    (they start with the same [IMPORTS_AVAILABLE] test), as functions of the
    parsed request body; they may raise. *)
Variable route_detect : value -> M world response.
Variable route_humanize_and_check : value -> M world response.

(** "Parse the request": anything that goes wrong leaves an empty object. *)
Definition parse_body (ev : event) : value :=
  let parsed :=
    if truthy (ev_body ev) then
      match ev_body ev with
      | VStr s => json_loads s
      | b => Ok b
      end
    else Ok (VDict []) in
  match parsed with
  | Ok b => b
  | Raise _ => VDict []             (* except: body = {} *)
  end.

(** The [/humanize] route, lines 257-321. *)
Definition route_humanize (body : value) : M world response :=
  if negb IMPORTS_AVAILABLE then ret (respond 500 modules_unavailable)
  else
    has_text <- lift_result (py_in (py "text") body) ;;
    if negb has_text then ret (respond 400 (error_body "Text field is required"))
    else
      raw <- lift_result (method_get body (py "text") (VStr (py ""))) ;;
      raw <- lift_result (str_method "strip" raw) ;;
      let text := strip raw in
      if negb (truthy (VStr text)) then
        ret (respond 400 (error_body "Text cannot be empty"))
      else if (len text <? 10)%Z then
        ret (respond 400 (error_body "Text must be at least 10 characters long"))
      else if (len text >? 50000)%Z then
        ret (respond 400 (error_body "Text must be less than 50000 characters"))
      else
        use_paraphrasing <- lift_result (method_get body (py "paraphrasing") (VBool true)) ;;
        use_enhanced <- lift_result (method_get body (py "enhanced") (VBool true)) ;;
        paraphrase_model <- lift_result (method_get body (py "model") VNone) ;;
        '(humanized_text, stats) <-
           humanize_text IMPORTS_AVAILABLE paraphrase_text rewrite_text
                         get_current_model
                         text use_paraphrasing use_enhanced paraphrase_model ;;
        (* if not humanized_text or not humanized_text.strip(): *)
        blank <- (if negb (truthy humanized_text) then ret true
                  else s <- lift_result (str_method "strip" humanized_text) ;;
                       ret (negb (truthy (VStr (strip s))))) ;;
        let humanized_text := if blank : bool then VStr text else humanized_text in
        ret (respond 200 [ (py "humanized_text", humanized_text);
                           (py "success", VBool true);
                           (py "statistics", stats) ]).

Definition ROCKET : N := 128640.   (* U+1F680 *)

Definition route_root : M world response :=
  if negb IMPORTS_AVAILABLE then
    ret (respond 500
           [ (py "status", VStr (py "error"));
             (py "message", VStr (py "Required modules not available"));
             (py "features",
              VDict [ (py "paraphrasing", VBool false);
                      (py "current_model", VNone);
                      (py "available_models", VList []);
                      (py "local_refinement", VBool false);
                      (py "synonym_support", VBool false) ]) ])
  else
    current_model <- get_current_model ;;
    available <- get_available_models ;;
    device <- get_device_info ;;
    ret (respond 200
           [ (py "status", VStr (py "healthy"));
             (py "message", VStr (ROCKET :: py " Humanize AI Server is running!"));
             (py "features",
              VDict [ (py "paraphrasing", VBool (negb (is_none current_model)));
                      (py "current_model", current_model);
                      (py "available_models", available);
                      (py "local_refinement", VBool true);
                      (py "synonym_support", VBool true);
                      (py "device", device) ]) ]).

Definition route_health : M world response :=
  if negb IMPORTS_AVAILABLE then
    ret (respond 500
           [ (py "status", VStr (py "error"));
             (py "message", VStr (py "Required modules not available")) ])
  else
    current_model <- get_current_model ;;
    now <- time_time ;;
    device <- get_device_info ;;
    ret (respond 200
           [ (py "status", VStr (py "healthy"));
             (py "timestamp", now);
             (py "features",
              VDict [ (py "paraphrasing_available", VBool (negb (is_none current_model)));
                      (py "current_paraphrase_model", current_model);
                      (py "local_processing", VBool true);
                      (py "device", device) ]);
             (py "version", VStr (py "3.0.0")) ]).

Definition route_models : M world response :=
  if negb IMPORTS_AVAILABLE then
    ret (respond 500 [ (py "error", VStr (py "Required modules not available")) ])
  else
    available <- get_available_models ;;
    current_model <- get_current_model ;;
    device <- get_device_info ;;
    ret (respond 200
           [ (py "available_models", available);
             (py "current_model", current_model);
             (py "device", device) ]).

(** [event.get('httpMethod') == s] *)
Definition opt_eq (o : option value) (s : str) : bool :=
  match o with
  | Some x => eq_str x s
  | None => false
  end.

(** [handler(event, context)] *)
Definition handler (ev : event) : M world response :=
  (* Handle preflight requests *)
  if opt_eq (ev_httpMethod ev) (py "OPTIONS") then
    ret (mk_response 200 cors_headers (Literal (py "")))
  else
    let body := parse_body ev in
    (* [event.get('path', '').rstrip('/')], outside the [try]: the path has
       to be a str *)
    path <- lift_result
              (str_method "rstrip"
                 (match ev_path ev with Some p => p | None => VStr (py "") end)) ;;
    let path := rstrip_slash path in
    let method := match ev_httpMethod ev with Some m => m | None => VStr (py "GET") end in
    try_except
      (if PyStr.eqb path (py "/") && eq_str method (py "GET") then route_root
       else if PyStr.eqb path (py "/health") && eq_str method (py "GET") then route_health
       else if PyStr.eqb path (py "/models") && eq_str method (py "GET") then route_models
       else if PyStr.eqb path (py "/humanize") && eq_str method (py "POST") then
         route_humanize body
       else if PyStr.eqb path (py "/detect") && eq_str method (py "POST") then
         route_detect body
       else if PyStr.eqb path (py "/humanize_and_check") && eq_str method (py "POST") then
         route_humanize_and_check body
       else
         ret (respond 404 (error_body "Endpoint not found")))
      (fun e =>
         ret (respond 500 [ (py "error", VStr (py "Internal server error"));
                            (py "success", VBool false) ])).

End WithServices.

End Index.

(** The normalizer in the words of the specification.  Rule 1 replaces
    every em-dash by comma and space.  Rule 2 removes every run of spaces
    that immediately precedes a comma or a period: a space goes exactly
    when the first character after the spaces that follow it is one of the
    two.  No other character is touched. *)
Module SpecNormalizer.

Definition rule1 (t : str) : str :=
  flat_map (fun c => if N.eqb c EM_DASH then [COMMA; SPACE] else [c]) t.

Fixpoint next_nonspace (s : str) : option N :=
  match s with
  | c :: r => if N.eqb c SPACE then next_nonspace r else Some c
  | [] => None
  end.

Definition before_punct (s : str) : bool :=
  match next_nonspace s with
  | Some p => is_punct p
  | None => false
  end.

Fixpoint rule2 (t : str) : str :=
  match t with
  | [] => []
  | c :: r => if N.eqb c SPACE && before_punct r then rule2 r else c :: rule2 r
  end.

Definition normalize (t : str) : str := rule2 (rule1 t).

End SpecNormalizer.

(* ===================================================================== *)
(** * Facts about binary64 arithmetic *)
(* ===================================================================== *)

Module FloatFacts.
Local Unset Implicit Arguments.
Local Open Scope Z_scope.

(** ** Digits *)

Lemma digits2_log2 (p : positive) : Zpos (digits2_pos p) = Z.log2 (Zpos p) + 1.
Proof.
  induction p as [p IH|p IH|]; cbn [digits2_pos]; [| |reflexivity].
  - rewrite Pos2Z.inj_succ, IH.
    change (Z.pos p~1) with (2 * Z.pos p + 1). rewrite Z.log2_succ_double by lia. lia.
  - rewrite Pos2Z.inj_succ, IH.
    change (Z.pos p~0) with (2 * Z.pos p). rewrite Z.log2_double by lia. lia.
Qed.

(** A mantissa of [d] digits lies between [2^(d-1)] and [2^d]. *)
Lemma digits_bounds (p : positive) :
  2 ^ (Zpos (digits2_pos p) - 1) <= Zpos p < 2 ^ Zpos (digits2_pos p).
Proof.
  rewrite digits2_log2.
  pose proof (Z.log2_spec (Zpos p) ltac:(lia)) as H.
  replace (Z.log2 (Z.pos p) + 1 - 1) with (Z.log2 (Zpos p)) by lia.
  replace (Z.log2 (Z.pos p) + 1) with (Z.succ (Z.log2 (Zpos p))) by lia.
  exact H.
Qed.

Lemma digits_unique (p : positive) (d : Z) :
  2 ^ (d - 1) <= Zpos p < 2 ^ d -> Zpos (digits2_pos p) = d.
Proof.
  intros H. rewrite digits2_log2.
  assert (Hd : 0 < d).
  { destruct (Z_lt_le_dec 0 d) as [|Hle]; [assumption|].
    exfalso. destruct H as [_ H].
    assert (2 ^ d <= 1).
    { destruct (Z.eq_dec d 0) as [->|]; [cbn; lia|].
      rewrite Z.pow_neg_r by lia. lia. }
    lia. }
  rewrite (Z.log2_unique (Zpos p) (d - 1)); [lia | lia |].
  replace (Z.succ (d - 1)) with d by lia. exact H.
Qed.

(** ** Shifts *)

Lemma iter_xO (m d : positive) : Zpos (Pos.iter xO m d) = Zpos m * 2 ^ Zpos d.
Proof.
  induction d as [|d IH] using Pos.peano_ind.
  - cbn [Pos.iter]. lia.
  - rewrite Pos.iter_succ, Pos2Z.inj_succ, Z.pow_succ_r by lia.
    rewrite Pos2Z.inj_xO, IH. lia.
Qed.

Lemma shl_align_lt (m : positive) (e e' : Z) :
  e' < e ->
  exists mz, shl_align m e e' = (mz, e') /\ Zpos mz = Zpos m * 2 ^ (e - e').
Proof.
  intros H. unfold shl_align.
  destruct (e' - e) as [|d|d] eqn:Hd; try lia.
  eexists. split; [reflexivity|].
  rewrite iter_xO. f_equal. f_equal. lia.
Qed.

Lemma shl_align_ge (m : positive) (e e' : Z) :
  e <= e' -> shl_align m e e' = (m, e).
Proof.
  intros H. unfold shl_align.
  destruct (e' - e) as [|d|d] eqn:Hd; try lia; reflexivity.
Qed.

(** The mantissa of an operand brought to a lower exponent. *)
Lemma shl_align_fst (m : positive) (e e' : Z) :
  e' <= e -> Zpos (fst (shl_align m e e')) = Zpos m * 2 ^ (e - e').
Proof.
  intros H. destruct (Z.eq_dec e e') as [->|Hne].
  - rewrite shl_align_ge by lia. cbn [fst]. rewrite Z.sub_diag. cbn. lia.
  - destruct (shl_align_lt m e e' ltac:(lia)) as (mz & -> & Hm). exact Hm.
Qed.

Lemma iter_pos_nat {A : Type} (f : A -> A) (n : positive) (x : A) :
  iter_pos f n x = Nat.iter (Pos.to_nat n) f x.
Proof.
  revert x. induction n as [n IH|n IH|]; intros x; cbn [iter_pos].
  - rewrite !IH, Pos2Nat.inj_xI.
    replace (S (2 * Pos.to_nat n))%nat with (Pos.to_nat n + (Pos.to_nat n + 1))%nat by lia.
    rewrite !Nat.iter_add. reflexivity.
  - rewrite !IH, Pos2Nat.inj_xO.
    replace (2 * Pos.to_nat n)%nat with (Pos.to_nat n + Pos.to_nat n)%nat by lia.
    rewrite Nat.iter_add. reflexivity.
  - reflexivity.
Qed.

Lemma shr_1_shape (m : Z) (r s : bool) :
  0 <= m ->
  shr_1 {| shr_m := m; shr_r := r; shr_s := s |}
  = {| shr_m := m / 2; shr_r := Z.odd m; shr_s := r || s |}.
Proof.
  intros Hm. destruct m as [|[p|p|]|p]; try lia; cbn [shr_1].
  - reflexivity.
  - f_equal. change (Z.pos p~1) with (2 * Zpos p + 1).
    apply (Z.div_unique _ _ _ 1); lia.
  - f_equal. change (Z.pos p~0) with (2 * Zpos p).
    apply (Z.div_unique _ _ _ 0); lia.
  - reflexivity.
Qed.

(** The mantissa, the round bit and the sticky bit after [k + 1] shifts to
    the right, in terms of the remainder of the mantissa. *)
Lemma shr_steps (M : Z) (k : nat) :
  0 <= M ->
  let mrs := Nat.iter (S k) shr_1 (Build_shr_record M false false) in
  let rho := M mod 2 ^ Z.of_nat (S k) in
  shr_m mrs = M / 2 ^ Z.of_nat (S k) /\
  shr_r mrs = (2 ^ Z.of_nat k <=? rho) /\
  shr_s mrs = negb ((rho =? 0) || (rho =? 2 ^ Z.of_nat k)).
Proof.
  intros HM. induction k as [|k IH].
  - cbn [Nat.iter]. rewrite shr_1_shape by exact HM.
    change (2 ^ Z.of_nat 1) with 2. change (2 ^ Z.of_nat 0) with 1.
    cbn [shr_m shr_r shr_s orb].
    pose proof (Z.mod_pos_bound M 2 ltac:(lia)) as Hb.
    rewrite Zmod_odd in *.
    split; [reflexivity|]. destruct (Z.odd M); split; reflexivity.
  - cbn zeta in *. destruct IH as (Hm & Hr & Hs).
    change (Nat.iter (S (S k)) shr_1 ?x) with (shr_1 (Nat.iter (S k) shr_1 x)).
    destruct (Nat.iter (S k) shr_1 _) as [m r s]. cbn [shr_m shr_r shr_s] in *.
    set (K := Z.of_nat (S k)) in *.
    assert (HK : Z.of_nat (S (S k)) = K + 1) by lia.
    assert (Hk : Z.of_nat k = K - 1) by lia.
    rewrite HK. rewrite Hk in *.
    assert (HK0 : 1 <= K) by lia.
    assert (Hp : 0 < 2 ^ K) by (apply Z.pow_pos_nonneg; lia).
    assert (Hp1 : 2 ^ (K + 1) = 2 * 2 ^ K) by (apply Z.pow_succ_r; lia).
    assert (Hp0 : 2 ^ K = 2 * 2 ^ (K - 1)).
    { replace K with (Z.succ (K - 1)) at 1 by lia. apply Z.pow_succ_r. lia. }
    pose proof (Z.mod_pos_bound M (2 ^ K) Hp) as Hb.
    assert (Hm0 : 0 <= m) by (rewrite Hm; apply Z.div_pos; lia).
    assert (Hdiv : M / 2 ^ (K + 1) = m / 2).
    { rewrite Hp1, (Z.mul_comm 2), <- Z.div_div by lia. rewrite Hm. reflexivity. }
    assert (Hmod : M mod 2 ^ (K + 1) = M mod 2 ^ K + 2 ^ K * (m mod 2)).
    { rewrite Hp1. rewrite (Z.mul_comm 2), Z.rem_mul_r by lia. rewrite Hm. reflexivity. }
    rewrite Hdiv, Hmod.
    rewrite shr_1_shape by exact Hm0. cbn [shr_m shr_r shr_s].
    split; [reflexivity|].
    rewrite Hr, Hs. rewrite Zmod_odd.
    destruct (Z.odd m); split.
    + symmetry. apply Z.leb_le. lia.
    + destruct (Z.leb_spec (2 ^ (K - 1)) (M mod 2 ^ K));
        destruct (Z.eqb_spec (M mod 2 ^ K) 0);
        destruct (Z.eqb_spec (M mod 2 ^ K) (2 ^ (K - 1)));
        destruct (Z.eqb_spec (M mod 2 ^ K + 2 ^ K * 1) 0);
        destruct (Z.eqb_spec (M mod 2 ^ K + 2 ^ K * 1) (2 ^ K));
        cbn; try reflexivity; lia.
    + symmetry. apply Z.leb_gt. lia.
    + destruct (Z.leb_spec (2 ^ (K - 1)) (M mod 2 ^ K));
        destruct (Z.eqb_spec (M mod 2 ^ K) 0);
        destruct (Z.eqb_spec (M mod 2 ^ K) (2 ^ (K - 1)));
        destruct (Z.eqb_spec (M mod 2 ^ K + 2 ^ K * 0) 0);
        destruct (Z.eqb_spec (M mod 2 ^ K + 2 ^ K * 0) (2 ^ K));
        cbn; try reflexivity; lia.
Qed.

(** ** Rounding *)

(** Whether the mantissa [M], shifted by [n] bits to the right, is rounded
    up: to the nearest, ties to even. *)
Definition round_up (M n : Z) : bool :=
  let rho := M mod 2 ^ n in
  (2 ^ (n - 1) <? rho) || ((rho =? 2 ^ (n - 1)) && Z.odd (M / 2 ^ n)).

Definition rounded (M n : Z) : Z := M / 2 ^ n + (if round_up M n then 1 else 0).

Lemma shr_round (M e : Z) (n : positive) :
  0 <= M ->
  snd (shr (Build_shr_record M false false) e (Zpos n)) = e + Zpos n /\
  round_nearest_even
    (shr_m (fst (shr (Build_shr_record M false false) e (Zpos n))))
    (loc_of_shr_record (fst (shr (Build_shr_record M false false) e (Zpos n))))
  = rounded M (Zpos n).
Proof.
  intros HM. unfold shr. cbn [fst snd]. split; [reflexivity|].
  rewrite iter_pos_nat.
  destruct (Pos2Nat.is_succ n) as (k & Hk). rewrite Hk.
  pose proof (shr_steps M k HM) as H. cbn zeta in H.
  assert (HS : Z.of_nat (S k) = Zpos n) by lia.
  assert (Hk' : Z.of_nat k = Zpos n - 1) by lia.
  rewrite HS, Hk' in H. destruct H as (Hm & Hr & Hs).
  destruct (Nat.iter (S k) shr_1 _) as [m r s]. cbn [shr_m shr_r shr_s] in *.
  unfold rounded, round_up. cbv zeta. rewrite <- Hm.
  subst r s. unfold loc_of_shr_record, round_nearest_even.
  rewrite <- Z.negb_odd.
  destruct (Z.leb_spec (2 ^ (Z.pos n - 1)) (M mod 2 ^ Z.pos n));
    destruct (Z.ltb_spec (2 ^ (Z.pos n - 1)) (M mod 2 ^ Z.pos n));
    destruct (Z.eqb_spec (M mod 2 ^ Z.pos n) 0);
    destruct (Z.eqb_spec (M mod 2 ^ Z.pos n) (2 ^ (Z.pos n - 1)));
    cbn [negb orb andb]; try lia; try (destruct (Z.odd m); cbn [negb]; lia).
  all: assert (0 < 2 ^ (Z.pos n - 1)) by (apply Z.pow_pos_nonneg; lia); lia.
Qed.

(** A mantissa that fits the format is kept as it is. *)
Lemma round_aux_exact (s : bool) (p : positive) (e : Z) :
  Zpos (digits2_pos p) <= 53 -> -1074 <= e <= 971 ->
  binary_round_aux prec emax s (Zpos p) e loc_Exact = S754_finite s p e.
Proof.
  intros Hd He.
  assert (Hshift : forall l, shr_fexp prec emax (Zpos p) e l
                             = (shr_record_of_loc (Zpos p) l, e)).
  { intros l. unfold shr_fexp, shr. cbn [Zdigits2].
    destruct (fexp prec emax (Z.pos (digits2_pos p) + e) - e) eqn:Hn; try reflexivity.
    unfold fexp, SpecFloat.emin, prec, emax in Hn. lia. }
  unfold binary_round_aux. rewrite Hshift.
  cbn [shr_record_of_loc shr_m loc_of_shr_record round_nearest_even].
  rewrite Hshift. cbn [shr_record_of_loc shr_m].
  replace (e <=? emax - prec) with true; [reflexivity|].
  symmetry. apply Z.leb_le. unfold emax, prec. lia.
Qed.

(** A mantissa with [n] digits too many is shifted by [n] bits and
    rounded; when the rounding carries, by one bit more. *)
Lemma round_aux_shift (s : bool) (p : positive) (e n : Z) :
  n = Zpos (digits2_pos p) - 53 -> 0 < n ->
  -1074 <= e + n -> e + n + 1 <= 971 ->
  2 ^ 52 <= rounded (Zpos p) n <= 2 ^ 53 /\
  binary_round_aux prec emax s (Zpos p) e loc_Exact
  = if rounded (Zpos p) n <? 2 ^ 53
    then S754_finite s (Z.to_pos (rounded (Zpos p) n)) (e + n)
    else S754_finite s 4503599627370496 (e + n + 1).
Proof.
  intros Hn Hpos Hlo Hhi.
  pose proof (digits_bounds p) as Hb.
  replace (Zpos (digits2_pos p)) with (n + 53) in Hb by lia.
  replace (n + 53 - 1) with (52 + n) in Hb by lia.
  rewrite (Z.add_comm n 53) in Hb. rewrite !Z.pow_add_r in Hb by lia.
  assert (HP : 0 < 2 ^ n) by (apply Z.pow_pos_nonneg; lia).
  assert (Hq : 2 ^ 52 <= Zpos p / 2 ^ n < 2 ^ 53).
  { split.
    - apply Z.div_le_lower_bound; lia.
    - apply Z.div_lt_upper_bound; lia. }
  assert (Hr : 2 ^ 52 <= rounded (Zpos p) n <= 2 ^ 53).
  { unfold rounded. destruct (round_up (Zpos p) n); lia. }
  split; [exact Hr|].
  unfold binary_round_aux, shr_fexp. cbn [Zdigits2 shr_record_of_loc].
  replace (fexp prec emax (Z.pos (digits2_pos p) + e) - e) with n
    by (unfold fexp, SpecFloat.emin, prec, emax; lia).
  destruct n as [|n|n]; try lia.
  pose proof (shr_round (Zpos p) e n ltac:(lia)) as [He' Hround].
  destruct (shr _ e (Zpos n)) as [mrs' e']. cbn [fst snd] in He', Hround.
  rewrite Hround. subst e'.
  set (m1 := rounded (Zpos p) (Zpos n)) in *.
  destruct (Z.ltb_spec m1 (2 ^ 53)) as [Hlt|Hge].
  - (* no carry *)
    destruct m1 as [|q|q] eqn:Hm1; try (cbn in Hr; lia).
    assert (Hdq : Zpos (digits2_pos q) = 53).
    { apply digits_unique. change (53 - 1) with 52. lia. }
    cbn [Zdigits2 shr_record_of_loc].
    replace (fexp prec emax (Z.pos (digits2_pos q) + (e + Z.pos n)) - (e + Z.pos n)) with 0
      by (rewrite Hdq; unfold fexp, SpecFloat.emin, prec, emax; lia).
    cbn [shr shr_m Z.to_pos].
    replace (e + Z.pos n <=? emax - prec) with true; [reflexivity|].
    symmetry. apply Z.leb_le. unfold emax, prec. lia.
  - (* the rounding carries *)
    assert (Hm1 : m1 = 2 ^ 53) by lia.
    rewrite Hm1. cbn [Z.pow Z.pow_pos Pos.iter Z.mul Pos.mul Zdigits2 digits2_pos
                        Pos.succ shr_record_of_loc].
    replace (fexp prec emax (54 + (e + Z.pos n)) - (e + Z.pos n)) with 1
      by (unfold fexp, SpecFloat.emin, prec, emax; lia).
    cbn [shr iter_pos shr_1 shr_m orb].
    replace (e + Z.pos n + 1 <=? emax - prec) with true; [reflexivity|].
    symmetry. apply Z.leb_le. unfold emax, prec. lia.
Qed.

Lemma fexp_normal (x : Z) : -1021 <= x -> fexp prec emax x = x - 53.
Proof. intros H. unfold fexp, SpecFloat.emin, prec, emax. lia. Qed.

(** Normalising [M * 2^e] when [M] has [d] digits, at most 53: nothing is
    lost. *)
Lemma normalize_small (M e d : Z) :
  2 ^ (d - 1) <= M < 2 ^ d -> 0 < d <= 53 -> -1074 <= d + e - 53 <= 971 ->
  exists mz,
    binary_normalize prec emax M e false = S754_finite false mz (d + e - 53) /\
    Zpos mz = M * 2 ^ (53 - d) /\ Zpos (digits2_pos mz) = 53.
Proof.
  intros HM Hd He.
  assert (H0 : 0 < 2 ^ (d - 1)) by (apply Z.pow_pos_nonneg; lia).
  destruct M as [|p|p]; try lia.
  pose proof (digits_unique p d HM) as Hdp.
  unfold binary_normalize, binary_round.
  rewrite Hdp, fexp_normal by lia.
  destruct (Z.eq_dec d 53) as [Hd53|Hne].
  - rewrite shl_align_ge by lia. exists p.
    rewrite round_aux_exact by lia.
    split; [f_equal; lia|]. split; [|lia].
    rewrite Hd53. change (2 ^ (53 - 53)) with 1. lia.
  - destruct (shl_align_lt p e (d + e - 53) ltac:(lia)) as (mz & -> & Hmz).
    replace (e - (d + e - 53)) with (53 - d) in Hmz by lia.
    assert (Hdz : Zpos (digits2_pos mz) = 53).
    { apply digits_unique. rewrite Hmz.
      assert (Hs : 0 < 2 ^ (53 - d)) by (apply Z.pow_pos_nonneg; lia).
      replace (2 ^ (53 - 1)) with (2 ^ (d - 1) * 2 ^ (53 - d))
        by (rewrite <- Z.pow_add_r by lia; f_equal; lia).
      replace (2 ^ 53) with (2 ^ d * 2 ^ (53 - d))
        by (rewrite <- Z.pow_add_r by lia; f_equal; lia).
      split.
      - apply Z.mul_le_mono_nonneg_r; lia.
      - apply Z.mul_lt_mono_pos_r; lia. }
    exists mz. rewrite round_aux_exact by lia.
    split; [reflexivity|]. split; [exact Hmz | exact Hdz].
Qed.

(** Normalising [M * 2^e] when [M] has [53 + n] digits: it is shifted by
    [n] bits and rounded. *)
Lemma normalize_large (M e n : Z) :
  2 ^ (52 + n) <= M < 2 ^ (53 + n) -> 0 < n ->
  -1074 <= e + n -> e + n + 1 <= 971 ->
  2 ^ 52 <= rounded M n <= 2 ^ 53 /\
  binary_normalize prec emax M e false
  = if rounded M n <? 2 ^ 53
    then S754_finite false (Z.to_pos (rounded M n)) (e + n)
    else S754_finite false 4503599627370496 (e + n + 1).
Proof.
  intros HM Hn Hlo Hhi.
  assert (H0 : 0 < 2 ^ (52 + n)) by (apply Z.pow_pos_nonneg; lia).
  destruct M as [|p|p]; try lia.
  assert (Hdp : Zpos (digits2_pos p) = 53 + n).
  { apply digits_unique. replace (53 + n - 1) with (52 + n) by lia. exact HM. }
  unfold binary_normalize, binary_round.
  rewrite Hdp, fexp_normal by lia.
  rewrite shl_align_ge by lia.
  apply round_aux_shift; lia.
Qed.

Lemma fsub_finite (m1 : positive) (e1 : Z) (m2 : positive) (e2 : Z) :
  fsub (S754_finite false m1 e1) (S754_finite false m2 e2)
  = binary_normalize prec emax
      (Zpos m1 * 2 ^ (e1 - Z.min e1 e2) - Zpos m2 * 2 ^ (e2 - Z.min e1 e2))
      (Z.min e1 e2) false.
Proof.
  unfold fsub, SFsub. cbv zeta. cbn [cond_Zopp].
  rewrite !shl_align_fst by lia. reflexivity.
Qed.

Lemma fadd_finite (m1 : positive) (e1 : Z) (m2 : positive) (e2 : Z) :
  fadd (S754_finite false m1 e1) (S754_finite false m2 e2)
  = binary_normalize prec emax
      (Zpos m1 * 2 ^ (e1 - Z.min e1 e2) + Zpos m2 * 2 ^ (e2 - Z.min e1 e2))
      (Z.min e1 e2) false.
Proof.
  unfold fadd, SFadd. cbv zeta. cbn [cond_Zopp].
  rewrite !shl_align_fst by lia. reflexivity.
Qed.

Lemma rounded_spec (M n q rho : Z) :
  0 < n -> M = q * 2 ^ n + rho -> 0 <= rho < 2 ^ n ->
  rounded M n
  = q + (if (2 ^ (n - 1) <? rho) || ((rho =? 2 ^ (n - 1)) && Z.odd q) then 1 else 0).
Proof.
  intros Hn HM Hrho. unfold rounded, round_up. cbv zeta.
  assert (Hq : M / 2 ^ n = q).
  { symmetry. apply (Z.div_unique _ _ _ rho); [left; exact Hrho | lia]. }
  assert (Hr : M mod 2 ^ n = rho).
  { symmetry. apply (Z.mod_unique _ _ q); [left; exact Hrho | lia]. }
  rewrite Hq, Hr. reflexivity.
Qed.

(** ** Floats of the unit interval *)

(** A float of [0,1]: a zero, or a positive number that is at most 1. *)
Definition in_unit (f : float) : bool :=
  match f with
  | S754_zero _ => true
  | S754_finite false m e => (e <=? 0) && (Zpos m <=? 2 ^ (- e))
  | _ => false
  end.

Lemma pow2_double (n : Z) : 0 < n -> 2 ^ n = 2 * 2 ^ (n - 1).
Proof.
  intros H. replace n with (Z.succ (n - 1)) at 1 by lia. apply Z.pow_succ_r. lia.
Qed.

(** The shape of a finite float of the unit interval. *)
Lemma unit_shape (m : positive) (e : Z) :
  valid_binary prec emax (S754_finite false m e) = true ->
  in_unit (S754_finite false m e) = true ->
  -1074 <= e <= -52 /\ Zpos m <= 2 ^ (- e) /\ Zpos m < 2 ^ 53 /\
  (-1074 < e -> 2 ^ 52 <= Zpos m).
Proof.
  unfold valid_binary, bounded, canonical_mantissa, in_unit.
  intros Hv Hu.
  apply andb_true_iff in Hv. destruct Hv as [Hc _]. apply Z.eqb_eq in Hc.
  apply andb_true_iff in Hu. destruct Hu as [He Hm].
  apply Z.leb_le in He. apply Z.leb_le in Hm.
  pose proof (digits_bounds m) as Hb.
  set (d := Zpos (digits2_pos m)) in *.
  assert (Hd : d - 1 <= - e).
  { apply (Z.pow_le_mono_r_iff 2); lia. }
  unfold fexp, SpecFloat.emin, prec, emax in Hc.
  assert (Hd53 : d <= 53) by lia.
  assert (H53 : 2 ^ d <= 2 ^ 53) by (apply Z.pow_le_mono_r; lia).
  split; [lia|]. split; [exact Hm|]. split; [lia|].
  intros Hn. assert (d = 53) by lia.
  replace (2 ^ 52) with (2 ^ (d - 1)) by (f_equal; lia). lia.
Qed.

(** A sum that is within half a unit in the last place of 1 is rounded
    to 1: [r] is what is missing, [2^n] what is in excess. *)
Lemma normalize_near_one (e n r : Z) (u : bool) :
  n = - e - 53 -> 0 < n -> -1074 <= e -> 0 <= r < 2 ^ n ->
  (u = true -> 2 ^ (n - 1) <= r) -> (u = false -> r <= 2 ^ (n - 1)) ->
  binary_normalize prec emax
    (2 ^ 53 * 2 ^ n - r + (if u then 2 ^ n else 0)) e false = one.
Proof.
  intros Hn Hpos He Hr Hup Hdown.
  pose proof (pow2_double n Hpos) as HP.
  assert (HP2 : 0 < 2 ^ (n - 1)) by (apply Z.pow_pos_nonneg; lia).
  set (P := 2 ^ n) in *. set (P2 := 2 ^ (n - 1)) in *.
  change (2 ^ 53) with 9007199254740992.
  destruct u.
  - (* in excess: one digit more *)
    specialize (Hup eq_refl).
    set (S := 9007199254740992 * P - r + P).
    destruct (normalize_large S e (n + 1)) as [_ Hnorm].
    + replace (52 + (n + 1)) with (53 + n) by lia.
      replace (53 + (n + 1)) with (54 + n) by lia.
      rewrite !Z.pow_add_r by lia. fold P.
      change (2 ^ 53) with 9007199254740992. change (2 ^ 54) with 18014398509481984.
      unfold S. lia.
    + lia.
    + lia.
    + lia.
    + rewrite Hnorm.
      rewrite (rounded_spec S (n + 1) 4503599627370496 (P - r)).
      * replace (n + 1 - 1) with n by lia. fold P.
        replace (P <? P - r) with false by (symmetry; apply Z.ltb_ge; lia).
        replace (P - r =? P) with false by (symmetry; apply Z.eqb_neq; lia).
        cbn [orb andb]. replace (e + (n + 1)) with (-52) by lia. reflexivity.
      * lia.
      * rewrite Z.pow_add_r by lia. fold P. change (2 ^ 1) with 2. unfold S. lia.
      * rewrite Z.pow_add_r by lia. fold P. change (2 ^ 1) with 2. lia.
  - specialize (Hdown eq_refl). rewrite Z.add_0_r.
    destruct (Z.eq_dec r 0) as [->|Hr0].
    + (* exact *)
      set (S := 9007199254740992 * P - 0).
      destruct (normalize_large S e (n + 1)) as [_ Hnorm].
      * replace (52 + (n + 1)) with (53 + n) by lia.
        replace (53 + (n + 1)) with (54 + n) by lia.
        rewrite !Z.pow_add_r by lia. fold P.
        change (2 ^ 53) with 9007199254740992. change (2 ^ 54) with 18014398509481984.
        unfold S. lia.
      * lia.
      * lia.
      * lia.
      * rewrite Hnorm.
        rewrite (rounded_spec S (n + 1) 4503599627370496 0).
        -- replace (n + 1 - 1) with n by lia. fold P.
           replace (P <? 0) with false by (symmetry; apply Z.ltb_ge; lia).
           replace (0 =? P) with false by (symmetry; apply Z.eqb_neq; lia).
           cbn [orb andb]. replace (e + (n + 1)) with (-52) by lia. reflexivity.
        -- lia.
        -- rewrite Z.pow_add_r by lia. fold P. change (2 ^ 1) with 2. unfold S. lia.
        -- rewrite Z.pow_add_r by lia. fold P. change (2 ^ 1) with 2. lia.
    + (* missing: rounded up, with a carry *)
      set (S := 9007199254740992 * P - r).
      destruct (normalize_large S e n) as [_ Hnorm].
      * rewrite !Z.pow_add_r by lia. fold P.
        change (2 ^ 52) with 4503599627370496. change (2 ^ 53) with 9007199254740992.
        unfold S. lia.
      * lia.
      * lia.
      * lia.
      * rewrite Hnorm.
        rewrite (rounded_spec S n 9007199254740991 (P - r)).
        -- fold P2.
           assert (Hu : (P2 <? P - r) || ((P - r =? P2) && Z.odd 9007199254740991) = true).
           { destruct (Z.ltb_spec P2 (P - r)); [reflexivity|].
             replace (P - r =? P2) with true by (symmetry; apply Z.eqb_eq; lia).
             reflexivity. }
           rewrite Hu. replace (e + n + 1) with (-52) by lia. reflexivity.
        -- lia.
        -- fold P. unfold S. lia.
        -- fold P. lia.
Qed.

Lemma valid_normal (m : positive) (e : Z) :
  Zpos (digits2_pos m) = 53 -> -1074 <= e <= 971 ->
  valid_binary prec emax (S754_finite false m e) = true.
Proof.
  intros Hd He. unfold valid_binary, bounded, canonical_mantissa.
  rewrite Hd. apply andb_true_iff. split.
  - apply Z.eqb_eq. unfold fexp, SpecFloat.emin, prec, emax. lia.
  - apply Z.leb_le. unfold prec, emax. lia.
Qed.

(** The complement of a small float: [1 - a] for [a] below one half. *)
Lemma complement_small (m : positive) (e : Z) :
  -1074 <= e <= -54 -> Zpos m < 2 ^ 53 ->
  valid_binary prec emax (fsub one (S754_finite false m e)) = true /\
  in_unit (fsub one (S754_finite false m e)) = true /\
  fadd (S754_finite false m e) (fsub one (S754_finite false m e)) = one.
Proof.
  intros He Hm.
  set (n := - e - 53). assert (Hn : 0 < n) by lia.
  pose proof (pow2_double n Hn) as HP.
  assert (HP2 : 0 < 2 ^ (n - 1)) by (apply Z.pow_pos_nonneg; lia).
  unfold one at 1 2 3. rewrite fsub_finite.
  replace (Z.min (-52) e) with e by lia.
  replace (-52 - e) with (n + 1) by lia. replace (e - e) with 0 by lia.
  rewrite Z.pow_add_r by lia. change (2 ^ 1) with 2. change (2 ^ 0) with 1.
  change (2 ^ 53) with 9007199254740992 in Hm.
  set (P := 2 ^ n) in *. set (P2 := 2 ^ (n - 1)) in *.
  set (M := 4503599627370496 * (P * 2) - Zpos m * 1).
  destruct (normalize_large M e n) as [Hr Hh].
  { rewrite !Z.pow_add_r by lia. fold P.
    change (2 ^ 52) with 4503599627370496. change (2 ^ 53) with 9007199254740992.
    unfold M. lia. }
  { lia. }
  { lia. }
  { lia. }
  rewrite Hh. clear Hh.
  pose proof (Z.div_mod M P ltac:(lia)) as Hdm.
  pose proof (Z.mod_pos_bound M P ltac:(lia)) as Hb.
  set (q1 := M / P) in *. set (r1 := M mod P) in *.
  rewrite (rounded_spec M n q1 r1) in * by (fold P; lia).
  fold P2 in Hr |- *.
  set (u := (P2 <? r1) || ((r1 =? P2) && Z.odd q1)) in *.
  assert (Hup : u = true -> P2 <= r1).
  { unfold u. intros H. apply orb_true_iff in H. destruct H as [H|H].
    - apply Z.ltb_lt in H. lia.
    - apply andb_true_iff in H. destruct H as [H _]. apply Z.eqb_eq in H. lia. }
  assert (Hdown : u = false -> r1 <= P2).
  { unfold u. intros H. apply orb_false_iff in H. destruct H as [H _].
    apply Z.ltb_ge in H. exact H. }
  assert (Hsum : Zpos m + (q1 + (if u then 1 else 0)) * P
                 = 2 ^ 53 * 2 ^ n - r1 + (if u then 2 ^ n else 0)).
  { fold P. change (2 ^ 53) with 9007199254740992. unfold M in Hdm.
    destruct u; lia. }
  pose proof (normalize_near_one e n r1 u eq_refl Hn ltac:(lia) Hb Hup Hdown) as Hone.
  rewrite <- Hsum in Hone.
  set (m1 := q1 + (if u then 1 else 0)) in *.
  change (2 ^ 52) with 4503599627370496 in Hr.
  change (2 ^ 53) with 9007199254740992 in Hr |- *.
  replace (e + n) with (-53) by lia.
  destruct (Z.ltb_spec m1 9007199254740992) as [Hlt|Hge].
  - destruct m1 as [|pm|pm] eqn:Hm1; try lia. cbn [Z.to_pos].
    assert (Hd : Zpos (digits2_pos pm) = 53).
    { apply digits_unique. change (2 ^ (53 - 1)) with 4503599627370496.
      change (2 ^ 53) with 9007199254740992. lia. }
    split; [apply valid_normal; [exact Hd | lia]|].
    split.
    + unfold in_unit. apply andb_true_iff. split; [reflexivity|].
      apply Z.leb_le. change (2 ^ (- -53)) with 9007199254740992. lia.
    + rewrite fadd_finite.
      replace (Z.min e (-53)) with e by lia.
      replace (e - e) with 0 by lia. replace (-53 - e) with n by lia.
      change (2 ^ 0) with 1. fold P. rewrite Z.mul_1_r. exact Hone.
  - assert (Hm1 : m1 = 9007199254740992) by lia.
    replace (-53 + 1) with (-52) by lia.
    split; [reflexivity|]. split; [reflexivity|].
    rewrite fadd_finite.
    replace (Z.min e (-52)) with e by lia.
    replace (e - e) with 0 by lia. replace (-52 - e) with (n + 1) by lia.
    rewrite Z.pow_add_r by lia. change (2 ^ 1) with 2. change (2 ^ 0) with 1.
    fold P. rewrite Z.mul_1_r.
    rewrite Hm1 in Hone.
    replace (4503599627370496 * (P * 2)) with (9007199254740992 * P) by lia.
    exact Hone.
Qed.

(** [2^53 * 2^n] at the exponent [-53 - n] is 1. *)
Lemma normalize_exact_one (e n : Z) :
  n = - e - 53 -> 0 <= n -> -1074 <= e ->
  binary_normalize prec emax (2 ^ 53 * 2 ^ n) e false = one.
Proof.
  intros Hn Hpos He.
  assert (HP : 0 < 2 ^ n) by (apply Z.pow_pos_nonneg; lia).
  set (P := 2 ^ n) in *. change (2 ^ 53) with 9007199254740992.
  destruct (normalize_large (9007199254740992 * P) e (n + 1)) as [_ Hnorm].
  - replace (52 + (n + 1)) with (53 + n) by lia.
    replace (53 + (n + 1)) with (54 + n) by lia.
    rewrite !Z.pow_add_r by lia. fold P.
    change (2 ^ 53) with 9007199254740992. change (2 ^ 54) with 18014398509481984.
    lia.
  - lia.
  - lia.
  - lia.
  - rewrite Hnorm.
    rewrite (rounded_spec (9007199254740992 * P) (n + 1) 4503599627370496 0).
    + replace (n + 1 - 1) with n by lia. fold P.
      replace (P <? 0) with false by (symmetry; apply Z.ltb_ge; lia).
      replace (0 =? P) with false by (symmetry; apply Z.eqb_neq; lia).
      cbn [orb andb]. replace (e + (n + 1)) with (-52) by lia. reflexivity.
    + lia.
    + rewrite Z.pow_add_r by lia. fold P. change (2 ^ 1) with 2. lia.
    + rewrite Z.pow_add_r by lia. fold P. change (2 ^ 1) with 2. lia.
Qed.

(** The complement of a float of at least one half is exact. *)
Lemma complement_large (m : positive) :
  2 ^ 52 <= Zpos m < 2 ^ 53 ->
  valid_binary prec emax (fsub one (S754_finite false m (-53))) = true /\
  in_unit (fsub one (S754_finite false m (-53))) = true /\
  fadd (S754_finite false m (-53)) (fsub one (S754_finite false m (-53))) = one.
Proof.
  intros Hm.
  change (2 ^ 52) with 4503599627370496 in Hm.
  change (2 ^ 53) with 9007199254740992 in Hm.
  unfold one at 1 2 3. rewrite fsub_finite.
  change (Z.min (-52) (-53)) with (-53).
  change (2 ^ (-52 - -53)) with 2. change (2 ^ (-53 - -53)) with 1.
  set (M := 4503599627370496 * 2 - Zpos m * 1).
  assert (HM : 0 < M <= 4503599627370496) by (unfold M; lia).
  pose proof (Z.log2_spec M ltac:(lia)) as Hlog.
  pose proof (Z.log2_nonneg M) as Hlog0.
  assert (Hlog52 : Z.log2 M <= 52).
  { change 52 with (Z.log2 4503599627370496). apply Z.log2_le_mono. lia. }
  set (d := Z.log2 M + 1).
  destruct (normalize_small M (-53) d) as (mz & Hh & Hmz & Hdz).
  { unfold d. replace (Z.log2 M + 1 - 1) with (Z.log2 M) by lia.
    replace (Z.log2 M + 1) with (Z.succ (Z.log2 M)) by lia. exact Hlog. }
  { unfold d. lia. }
  { unfold d. lia. }
  rewrite Hh.
  replace (d + -53 - 53) with (d - 106) by lia.
  pose proof (digits_bounds mz) as Hbz. rewrite Hdz in Hbz.
  change (2 ^ (53 - 1)) with 4503599627370496 in Hbz.
  change (2 ^ 53) with 9007199254740992 in Hbz.
  split; [apply valid_normal; [exact Hdz | unfold d; lia]|].
  split.
  - unfold in_unit. apply andb_true_iff. split; [apply Z.leb_le; unfold d; lia|].
    apply Z.leb_le.
    assert (2 ^ 53 <= 2 ^ (- (d - 106))) by (apply Z.pow_le_mono_r; unfold d; lia).
    change (2 ^ 53) with 9007199254740992 in *. lia.
  - rewrite fadd_finite.
    replace (Z.min (-53) (d - 106)) with (d - 106) by (unfold d; lia).
    replace (-53 - (d - 106)) with (53 - d) by lia.
    replace (d - 106 - (d - 106)) with 0 by lia.
    change (2 ^ 0) with 1. rewrite Hmz.
    replace (Zpos m * 2 ^ (53 - d) + M * 2 ^ (53 - d) * 1)
      with (2 ^ 53 * 2 ^ (53 - d))
      by (change (2 ^ 53) with 9007199254740992; unfold M; lia).
    apply normalize_exact_one; unfold d; lia.
Qed.

(** For a float [a] of the unit interval, [1 - a] is one as well, and
    [a + (1 - a)] is 1. *)
Lemma complement_spec (a : float) :
  valid_binary prec emax a = true -> in_unit a = true ->
  valid_binary prec emax (fsub one a) = true /\
  in_unit (fsub one a) = true /\
  fadd a (fsub one a) = one.
Proof.
  intros Hv Hu.
  destruct a as [s|s| |s m e]; try discriminate Hu.
  - destruct s; repeat split.
  - destruct s; [discriminate Hu|].
    destruct (unit_shape m e Hv Hu) as (He & Hle & Hlt & Hnormal).
    destruct (Z_le_gt_dec e (-54)) as [Hsmall|Hbig].
    + apply complement_small; lia.
    + assert (H52 : 2 ^ 52 <= Zpos m) by (apply Hnormal; lia).
      destruct (Z.eq_dec e (-53)) as [->|Hne].
      * apply complement_large. lia.
      * assert (e = -52) by lia. subst e.
        change (2 ^ (- -52)) with 4503599627370496 in Hle.
        change (2 ^ 52) with 4503599627370496 in H52.
        assert (m = 4503599627370496%positive) by lia. subst m.
        repeat split.
Qed.

(** ** The distance from one half *)

Lemma fabs_round (s : bool) (p : positive) (e : Z) :
  fabs (binary_round prec emax s p e) = binary_round prec emax false p e.
Proof.
  unfold binary_round. destruct (shl_align p e _) as [mz ez].
  unfold binary_round_aux.
  destruct (shr_fexp prec emax (Zpos mz) ez loc_Exact) as [mrs' e'].
  destruct (shr_fexp prec emax _ e' loc_Exact) as [mrs'' e''].
  destruct (shr_m mrs''); [reflexivity | | reflexivity].
  destruct (e'' <=? emax - prec); reflexivity.
Qed.

Lemma fabs_normalize (D e : Z) :
  fabs (binary_normalize prec emax D e false)
  = binary_normalize prec emax (Z.abs D) e false.
Proof.
  destruct D as [|p|p]; cbn [binary_normalize Z.abs]; [reflexivity | |];
    apply fabs_round.
Qed.

(** A positive normal float that is at most one half. *)
Definition at_most_half (f : float) : Prop :=
  match f with
  | S754_finite false m e =>
      Zpos (digits2_pos m) = 53 /\ -1074 <= e /\ Zpos m <= 2 ^ (-1 - e)
  | _ => False
  end.

(** Twice a float that is at most one half is a float of the unit
    interval. *)
Lemma double_at_most_half (f : float) :
  at_most_half f ->
  valid_binary prec emax (fmul f two) = true /\ in_unit (fmul f two) = true.
Proof.
  destruct f as [s|s| |[|] m e]; try contradiction.
  intros (Hd & He & Hm).
  pose proof (digits_bounds m) as Hb. rewrite Hd in Hb.
  change (2 ^ (53 - 1)) with (2 ^ 52) in Hb.
  assert (He53 : e <= -53).
  { assert (52 <= -1 - e); [|lia].
    apply (Z.pow_le_mono_r_iff 2); [lia | |lia].
    destruct (Z_le_gt_dec 0 (-1 - e)); [assumption|].
    rewrite (Z.pow_neg_r 2 (-1 - e)) in Hm by lia. lia. }
  change (2 ^ 52) with 4503599627370496 in Hb.
  change (2 ^ 53) with 9007199254740992 in Hb.
  unfold fmul, SFmul, two. cbn [xorb].
  destruct (round_aux_shift false (m * 4503599627370496) (e + -51) 52) as [_ Hround].
  - assert (Hdig : Zpos (digits2_pos (m * 4503599627370496)) = 105); [|lia].
    apply digits_unique. rewrite Pos2Z.inj_mul.
    change (2 ^ (105 - 1)) with (4503599627370496 * 4503599627370496).
    change (2 ^ 105) with (9007199254740992 * 4503599627370496). lia.
  - lia.
  - lia.
  - lia.
  - rewrite Hround.
    rewrite (rounded_spec (Zpos (m * 4503599627370496)) 52 (Zpos m) 0).
    + change (2 ^ (52 - 1) <? 0) with false. change (0 =? 2 ^ (52 - 1)) with false.
      cbn [orb andb]. rewrite Z.add_0_r.
      replace (Zpos m <? 2 ^ 53) with true
        by (symmetry; apply Z.ltb_lt; change (2 ^ 53) with 9007199254740992; lia).
      cbn [Z.to_pos]. replace (e + -51 + 52) with (e + 1) by lia.
      split; [apply valid_normal; [exact Hd | lia]|].
      unfold in_unit. apply andb_true_iff. split; [apply Z.leb_le; lia|].
      apply Z.leb_le. replace (- (e + 1)) with (-1 - e) by lia. exact Hm.
    + lia.
    + rewrite Pos2Z.inj_mul. change (2 ^ 52) with 4503599627370496. lia.
    + change (2 ^ 52) with 4503599627370496. lia.
Qed.

(** The distance of a float of the unit interval from one half is zero, or
    at most one half. *)
Lemma distance_half (a : float) :
  valid_binary prec emax a = true -> in_unit a = true ->
  fabs (fsub a half) = S754_zero false \/ at_most_half (fabs (fsub a half)).
Proof.
  intros Hv Hu.
  destruct a as [s|s| |s m e]; try discriminate Hu.
  - right. destruct s; cbn; repeat split; lia.
  - destruct s; [discriminate Hu|].
    destruct (unit_shape m e Hv Hu) as (He & Hle & Hlt & Hnormal).
    change (2 ^ 53) with 9007199254740992 in Hlt.
    destruct (Z.eq_dec e (-52)) as [->|Hne].
    { change (2 ^ (- -52)) with 4503599627370496 in Hle.
      pose proof (Hnormal ltac:(lia)) as H52.
      change (2 ^ 52) with 4503599627370496 in H52.
      assert (m = 4503599627370496%positive) by lia. subst m.
      right. cbn. repeat split; lia. }
    set (n := -53 - e). assert (Hn : 0 <= n) by lia.
    assert (HP : 0 < 2 ^ n) by (apply Z.pow_pos_nonneg; lia).
    unfold half. rewrite fsub_finite, fabs_normalize.
    replace (Z.min e (-53)) with e by lia.
    replace (e - e) with 0 by lia. replace (-53 - e) with n by lia.
    change (2 ^ 0) with 1.
    set (P := 2 ^ n) in *.
    set (A := Z.abs (Zpos m * 1 - 4503599627370496 * P)).
    destruct (Z.eq_dec A 0) as [HA0|HA0]; [left; rewrite HA0; reflexivity|].
    right.
    assert (HA : 0 < A < 4503599627370496 * P) by (unfold A; lia).
    destruct (Z_le_gt_dec n 1) as [Hn1|Hn2].
    + (* the difference fits the format *)
      pose proof (Z.log2_spec A ltac:(lia)) as Hlog.
      pose proof (Z.log2_nonneg A) as Hlog0.
      assert (Hlt' : Z.log2 A < 52 + n).
      { apply Z.log2_lt_pow2; [lia|].
        rewrite Z.pow_add_r by lia. fold P.
        change (2 ^ 52) with 4503599627370496. lia. }
      set (d := Z.log2 A + 1).
      destruct (normalize_small A e d) as (mz & Hh & Hmz & Hdz).
      { unfold d. replace (Z.log2 A + 1 - 1) with (Z.log2 A) by lia.
        replace (Z.log2 A + 1) with (Z.succ (Z.log2 A)) by lia. exact Hlog. }
      { unfold d. lia. }
      { unfold d. lia. }
      rewrite Hh. cbn [at_most_half].
      split; [exact Hdz|]. split; [unfold d; lia|].
      pose proof (digits_bounds mz) as Hbz. rewrite Hdz in Hbz.
      assert (2 ^ 53 <= 2 ^ (-1 - (d + e - 53)))
        by (apply Z.pow_le_mono_r; unfold d; lia).
      lia.
    + (* the difference is rounded *)
      assert (HP4 : 4 <= P).
      { unfold P. replace n with (2 + (n - 2)) by lia.
        rewrite Z.pow_add_r by lia. change (2 ^ 2) with 4.
        assert (0 < 2 ^ (n - 2)) by (apply Z.pow_pos_nonneg; lia). lia. }
      destruct (normalize_large A e (n - 1)) as [Hr Hh].
      { replace (52 + (n - 1)) with (51 + n) by lia.
        replace (53 + (n - 1)) with (52 + n) by lia.
        rewrite !Z.pow_add_r by lia. fold P.
        change (2 ^ 51) with 2251799813685248. change (2 ^ 52) with 4503599627370496.
        unfold A. lia. }
      { lia. }
      { lia. }
      { lia. }
      rewrite Hh. replace (e + (n - 1)) with (-54) by lia.
      change (2 ^ 52) with 4503599627370496 in Hr.
      change (2 ^ 53) with 9007199254740992 in Hr |- *.
      destruct (Z.ltb_spec (rounded A (n - 1)) 9007199254740992) as [Hlt1|Hge1].
      * destruct (rounded A (n - 1)) as [|pm|pm]; try lia. cbn [Z.to_pos at_most_half].
        split.
        -- apply digits_unique. change (2 ^ (53 - 1)) with 4503599627370496.
           change (2 ^ 53) with 9007199254740992. lia.
        -- split; [lia|]. change (2 ^ (-1 - -54)) with 9007199254740992. lia.
      * cbn. repeat split; lia.
Qed.

(** The confidence of a float of the unit interval is one as well:
    bringing it into [0,1] would leave it as it is. *)
Lemma confidence_unit (a : float) :
  valid_binary prec emax a = true -> in_unit a = true ->
  valid_binary prec emax (fmul (fabs (fsub a half)) two) = true /\
  in_unit (fmul (fabs (fsub a half)) two) = true.
Proof.
  intros Hv Hu.
  destruct (distance_half a Hv Hu) as [-> | H].
  - split; reflexivity.
  - apply double_at_most_half. exact H.
Qed.

(** ** What the floats of the unit interval are worth *)

(** A float that is worth a number of [0,1]. *)
Definition within_unit (f : float) : Prop :=
  exists q, worth f = Finite q /\ (0 <= q <= 1)%Q.

Lemma pow2_negative (k : Z) :
  0 <= k -> (2 ^ (- k) == / inject_Z (2 ^ k))%Q.
Proof.
  intros H. rewrite Qpower_opp, Zpower_Qpower by exact H. reflexivity.
Qed.

Lemma worth_at_most_one (m : positive) (e : Z) :
  (inject_Z (Zpos m) * 2 ^ e <= 1)%Q <-> e <= 0 /\ Zpos m <= 2 ^ (- e).
Proof.
  destruct (Z_le_gt_dec e 0) as [He|He].
  - assert (Hk : 0 <= - e) by lia.
    assert (HD : 0 < 2 ^ (- e)) by (apply Z.pow_pos_nonneg; lia).
    replace e with (- - e) at 1 by lia.
    rewrite (pow2_negative (- e) Hk).
    destruct (2 ^ (- e)) as [|pd|pd]; try lia.
    unfold Qle, Qmult, Qinv, inject_Z. cbn [Qnum Qden].
    split; [intros H; split; [exact He | lia] | intros [_ H]; lia].
  - split; [|lia]. intros H. exfalso.
    assert (HD : 2 ^ 1 <= 2 ^ e) by (apply Z.pow_le_mono_r; lia).
    change (2 ^ 1) with 2 in HD.
    rewrite <- (Zpower_Qpower 2 e) in H by lia.
    rewrite <- inject_Z_mult in H.
    change 1%Q with (inject_Z 1) in H. rewrite <- Zle_Qle in H. nia.
Qed.

Lemma in_unit_within (f : float) : in_unit f = true <-> within_unit f.
Proof.
  unfold within_unit. destruct f as [s|s| |s m e]; cbn [in_unit worth].
  - split; [|reflexivity]. intros _. exists 0%Q. split; [reflexivity|].
    split; discriminate.
  - split; [discriminate|]. intros (q & H & _). destruct s; discriminate H.
  - split; [discriminate|]. intros (q & H & _). discriminate H.
  - destruct s; cbn [cond_Zopp].
    + split; [discriminate|]. intros (q & H & H0 & _). exfalso.
      injection H as <-.
      assert (Hp : (0 < 2 ^ e)%Q) by (apply Qpower_0_lt; reflexivity).
      assert (Hn : (inject_Z (- Zpos m) < 0)%Q).
      { change 0%Q with (inject_Z 0). rewrite <- Zlt_Qlt. lia. }
      assert (Hneg : (inject_Z (- Z.pos m) * 2 ^ e < 0)%Q).
      { rewrite <- (Qmult_0_l (2 ^ e)). apply Qmult_lt_compat_r; assumption. }
      exact (Qlt_not_le _ _ Hneg H0).
    + rewrite andb_true_iff, Z.leb_le, Z.leb_le, <- worth_at_most_one.
      split.
      * intros H. eexists. split; [reflexivity|]. split; [|exact H].
        apply Qmult_le_0_compat.
        -- change 0%Q with (inject_Z 0). rewrite <- Zle_Qle. lia.
        -- apply Qpower_0_le. discriminate.
      * intros (q & H & _ & H1). injection H as <-. exact H1.
Qed.

End FloatFacts.
Import FloatFacts.

(* ===================================================================== *)
(** * Verified properties *)
(* ===================================================================== *)

(** ** The embedding at work *)

Example clean_spaces_before_punctuation :
  clean_final_text (py "a , b  .c d") = py "a, b.c d".
Proof. reflexivity. Qed.

Example clean_em_dash :
  clean_final_text (py "wait " ++ [EM_DASH] ++ py "what") = py "wait, what".
Proof. reflexivity. Qed.

Example strip_blanks : strip (py "  two words  ") = py "two words".
Proof. reflexivity. Qed.

(** A detector answer with label AI and score 0.9. *)
Example detect_ai_label :
  snd (ApiExternal.detect_ai_text (py "hf_x")
         (fun _ _ => Ok (VList [VDict [ (py "label", VStr (py "AI"));
                                        (py "score", VFloat (decimal 9 1)) ]]))
         (py "Some text to classify.") (py "ensemble") [])
  = Ok (VDict [ (py "ensemble_ai_probability", VFloat (decimal 9 1));
                (py "ensemble_human_probability",
                 VFloat (decimal 9999999999999998 17));
                (py "prediction", VStr (py "AI-generated"));
                (py "confidence", VFloat (decimal 8 1));
                (py "models_used", VList [VStr ApiExternal.DETECTOR_MODEL]) ]).
Proof. vm_compute. reflexivity. Qed.

(** The floats of the program text are the ones their literals denote. *)
Example float_literals :
  half = decimal 5 1 /\ seven_tenths = decimal 7 1 /\
  of_int 1 = Some (decimal 1 0) /\ int_div 1 2 = Some half.
Proof. vm_compute. repeat split; reflexivity. Qed.

(** [1 - 0.49999999999999994] is [0.5]: the difference is rounded. *)
Example rounded_difference :
  py_sub (VInt 1) (VFloat (decimal 49999999999999994 17)) = Ok (VFloat half).
Proof. vm_compute. reflexivity. Qed.

(** [2 ** 1024 - 0.5] raises: the int is too large for a float. *)
Example int_too_large :
  py_sub (VInt (2 ^ 1024)) (VFloat half)
  = Raise (OverflowError "int too large to convert to float").
Proof. vm_compute. reflexivity. Qed.

(** A [/humanize] request with a text of five characters is refused. *)
Example humanize_short_text :
  snd (Index.handler true
         (fun t _ => ret (VStr t, VStr (py "")))
         (fun t _ => ret (VStr t, VStr (py "")))
         (ret VNone) (ret VNone) (ret VNone) (ret VNone)
         (fun _ => Ok (VDict [ (py "text", VStr (py "hello")) ]))
         (fun _ => raise (Exception "unused"))
         (fun _ => raise (Exception "unused"))
         (Index.mk_event (Some (VStr (py "POST"))) (Some (VStr (py "/humanize/")))
                         (VStr (py "the request body")))
         [])
  = Ok (Index.respond 400
          (Index.error_body "Text must be at least 10 characters long")).
Proof. reflexivity. Qed.

Section NormalizerFacts.
Import SpecNormalizer.

Lemma spaces_then_punct_some s p rest :
  spaces_then_punct s = Some (p, rest) ->
  before_punct s = true /\ rule2 s = p :: rule2 rest.
Proof.
  revert p rest.
  induction s as [|c r IH]; intros p rest; simpl; [discriminate|].
  destruct (N.eqb c SPACE) eqn:Hc.
  - intros H. destruct (IH _ _ H) as [Hb Hr].
    unfold before_punct in *; simpl. rewrite Hc.
    split; [exact Hb|]. rewrite Hb. exact Hr.
  - destruct (is_punct c) eqn:Hp; [|discriminate].
    intros H; injection H as <- <-.
    unfold before_punct; simpl. rewrite Hc.
    split; [exact Hp | reflexivity].
Qed.

Lemma spaces_then_punct_none s :
  spaces_then_punct s = None -> before_punct s = false.
Proof.
  induction s as [|c r IH]; [reflexivity|].
  unfold before_punct; simpl.
  destruct (N.eqb c SPACE); [exact IH|].
  destruct (is_punct c); [discriminate | reflexivity].
Qed.

(** Keep what the matcher said at the current position, drop the
    bookkeeping equations of the recursion scheme. *)
Ltac matcher_fact E :=
  match goal with H : match_at _ = _ |- _ => pose proof H as E end;
  repeat match goal with
         | H : @eq (sigma _) _ _ |- _ => clear H
         | H : _ = re_sub _ |- _ => clear H
         end;
  simpl in E.

(** The regular-expression substitution is rule 2. *)
Lemma re_sub_is_rule2 s : re_sub s = rule2 s.
Proof.
  funelim (re_sub s); [reflexivity| |]; matcher_fact E;
    match goal with IH : re_sub _ = rule2 _ |- _ => rewrite IH end;
    simpl; destruct (N.eqb c SPACE) eqn:Hc; try discriminate; simpl.
  - (* a match starts here: the run of spaces goes *)
    destruct (spaces_then_punct_some _ E) as [Hb Hr].
    rewrite Hb. exact (eq_sym Hr).
  - (* a space that no comma or period follows is copied *)
    rewrite (spaces_then_punct_none _ E). reflexivity.
  - reflexivity.
Qed.

Lemma clean_final_text_is_normalize t : clean_final_text t = normalize t.
Proof.
  destruct t as [|c r]; [reflexivity|].
  unfold clean_final_text, normalize. rewrite re_sub_is_rule2. reflexivity.
Qed.

Lemma before_punct_cons c r :
  before_punct (c :: r) = if N.eqb c SPACE then before_punct r else is_punct c.
Proof. unfold before_punct; simpl. destruct (N.eqb c SPACE); reflexivity. Qed.

Lemma before_punct_rule2 s : before_punct (rule2 s) = before_punct s.
Proof.
  induction s as [|c r IH]; [reflexivity|].
  simpl. rewrite before_punct_cons.
  destruct (N.eqb c SPACE) eqn:Hc; simpl.
  - destruct (before_punct r) eqn:Hb; [exact IH|].
    rewrite before_punct_cons, Hc. exact IH.
  - rewrite before_punct_cons, Hc. reflexivity.
Qed.

Lemma rule2_idempotent s : rule2 (rule2 s) = rule2 s.
Proof.
  induction s as [|c r IH]; [reflexivity|].
  simpl. destruct (N.eqb c SPACE && before_punct r) eqn:Hd; [exact IH|].
  simpl. rewrite before_punct_rule2, Hd, IH. reflexivity.
Qed.

Lemma rule2_incl s c : In c (rule2 s) -> In c s.
Proof.
  induction s as [|d r IH]; simpl; [tauto|].
  destruct (N.eqb d SPACE && before_punct r); simpl; tauto.
Qed.

Lemma rule1_no_em_dash t : ~ In EM_DASH (rule1 t).
Proof.
  induction t as [|c r IH]; simpl; [tauto|].
  intros H. apply in_app_or in H. destruct H as [H|H]; [|tauto].
  destruct (N.eqb c EM_DASH) eqn:Hc; simpl in H.
  - destruct H as [H|[H|[]]]; discriminate.
  - destruct H as [H|[]]. subst. discriminate.
Qed.

Lemma rule1_fixes s : ~ In EM_DASH s -> rule1 s = s.
Proof.
  induction s as [|c r IH]; simpl; [reflexivity|].
  intros H. destruct (N.eqb c EM_DASH) eqn:Hc.
  - apply N.eqb_eq in Hc. tauto.
  - simpl. f_equal. apply IH. tauto.
Qed.

Lemma normalize_idempotent t : normalize (normalize t) = normalize t.
Proof.
  unfold normalize.
  rewrite (rule1_fixes (rule2 (rule1 t))).
  - apply rule2_idempotent.
  - intros H. apply rule2_incl in H. exact (rule1_no_em_dash _ H).
Qed.

End NormalizerFacts.

(** C8.  The text normalizer is idempotent, and it is the normalizer of the
    specification: em-dashes become comma and space, then every run of
    spaces directly in front of a comma or a period is removed, and no
    other character changes. *)
Theorem C8_clean_final_text_idempotent :
  forall t : str,
    clean_final_text (clean_final_text t) = clean_final_text t /\
    clean_final_text t = SpecNormalizer.normalize t.
Proof.
  intros t. split.
  - rewrite !clean_final_text_is_normalize. apply normalize_idempotent.
  - apply clean_final_text_is_normalize.
Qed.

(** C9 (as stated, refuted).  On the em-dash example the normalizer does not
    return the string with a single space in front of "odd". *)
Lemma C9_counterexample :
  clean_final_text (EM_DASH :: py "well, that's  odd .")
  <> py ", well, that's odd.".
Proof. vm_compute. discriminate. Qed.

(** C9 (amended).  The normalizer maps the em-dash example to the string in
    which the em-dash has become comma and space and the space in front of
    the final period is gone; the two spaces in front of "odd" stay, since
    no comma or period follows them. *)
Theorem C9_clean_final_text_example :
  clean_final_text (EM_DASH :: py "well, that's  odd .")
  = py ", well, that's  odd.".
Proof. vm_compute. reflexivity. Qed.

(* --------------------------------------------------------------------- *)
(** ** The detection aggregator *)
(* --------------------------------------------------------------------- *)

Module DetectionFacts.
Import ApiExternal.

(** Reading the fields of a detection result. *)
Definition field (k : string) (r : value) : option value :=
  match r with
  | VDict d => dict_get (py k) d
  | _ => None
  end.

(** The result dict of a scored prediction. *)
Definition scored (ai_score human confidence : value) (is_ai : bool) : value :=
  VDict [ (py "ensemble_ai_probability", ai_score);
          (py "ensemble_human_probability", human);
          (py "prediction",
           VStr (if is_ai then py "AI-generated" else py "Human-written"));
          (py "confidence", confidence);
          (py "models_used", VList [VStr DETECTOR_MODEL]) ].

(** [abs(a - 0.5) * 2], as Python computes it. *)
Definition confidence_of (a : value) : result value :=
  match py_sub a (VFloat half) with
  | Raise e => Raise e
  | Ok distance =>
      match py_abs distance with
      | Raise e => Raise e
      | Ok magnitude => py_mul magnitude (VInt 2)
      end
  end.

(** What [detect_ai_text] makes of an AI score. *)
Definition after_score (ai_score : value) : result value :=
  match py_sub (VInt 1) ai_score with
  | Raise e => Raise e
  | Ok human =>
      match py_gt ai_score (VFloat half) with
      | Raise e => Raise e
      | Ok is_ai =>
          match confidence_of ai_score with
          | Raise e => Raise e
          | Ok confidence => Ok (scored ai_score human confidence is_ai)
          end
      end
  end.

(** What [detect_ai_text] does with the parsed answer of the remote model:
    the part of the function after [call_hf_api] has returned. *)
Definition after_call (answer : value) : result value :=
  match answer with
  | VList (prediction :: _) =>
      match ai_score_of prediction with
      | Raise e => Raise e
      | Ok ai_score => after_score ai_score
      end
  | _ => Ok (VDict (fallback_detection "Uncertain"))
  end.

Definition failed_detection (e : exn) : value :=
  VDict (fallback_detection "Detection failed" ++ [ (py "error", VStr (exn_msg e)) ]).

Definition detector_request (token text : str) : request :=
  mk_request API_URL_BASE (VStr DETECTOR_MODEL) (py "Bearer " ++ token) text (VDict []).

Section Aggregator.

Variable HF_API_TOKEN : str.
Variable remote : world -> request -> result value.

(** [detect_ai_text] never raises; its result is decided by the credential,
    the outcome of the single remote call and [after_call]. *)
Lemma detect_ai_text_cases text method w :
  detect_ai_text HF_API_TOKEN remote text method w =
  if negb (truthy (VStr HF_API_TOKEN)) then
    (w, Ok (failed_detection (Exception "HF_API_TOKEN environment variable not set")))
  else
    let r := detector_request HF_API_TOKEN text in
    (r :: w,
     Ok (match remote w r with
         | Raise e => failed_detection e
         | Ok answer =>
             match after_call answer with
             | Ok d => d
             | Raise e => failed_detection e
             end
         end)).
Proof.
  unfold detect_ai_text, call_hf_api, try_except, bind, requests_post,
    detector_request.
  destruct (negb (truthy (VStr HF_API_TOKEN))); [reflexivity|].
  cbn [truthy].
  destruct (remote w _) as [answer|e]; [|reflexivity].
  destruct answer as [| | | | |[|prediction rest]|]; try reflexivity.
  unfold after_call, after_score, confidence_of, lift_result, ret.
  destruct (ai_score_of prediction) as [ai_score|e]; [|reflexivity].
  destruct (py_sub (VInt 1) ai_score) as [human|e]; [|reflexivity].
  destruct (py_gt ai_score (VFloat half)) as [is_ai|e]; [|reflexivity].
  destruct (py_sub ai_score (VFloat half)) as [distance|e]; [|reflexivity].
  destruct (py_abs distance) as [magnitude|e]; [|reflexivity].
  destruct (py_mul magnitude (VInt 2)) as [confidence|e]; reflexivity.
Qed.

(** The outcome of the single remote call of a detection run. *)
Definition call_outcome (text : str) (w : world) : result value :=
  if negb (truthy (VStr HF_API_TOKEN))
  then Raise (Exception "HF_API_TOKEN environment variable not set")
  else remote w (detector_request HF_API_TOKEN text).

(** The result of a detection run. *)
Definition detection (text method : str) (w : world) : value :=
  match call_outcome text w with
  | Raise e => failed_detection e
  | Ok answer =>
      match after_call answer with
      | Ok d => d
      | Raise e => failed_detection e
      end
  end.

Lemma detect_ai_text_returns text method w :
  snd (detect_ai_text HF_API_TOKEN remote text method w)
  = Ok (detection text method w).
Proof.
  rewrite detect_ai_text_cases. unfold detection, call_outcome.
  destruct (negb (truthy (VStr HF_API_TOKEN))); reflexivity.
Qed.

End Aggregator.

(** *** Which answers are scored

    The predicates below read the answer of the remote model, and nothing
    of the program. *)

Definition is_number (v : value) : bool :=
  match as_num v with Some _ => true | None => false end.

(** The label of the prediction is AI. *)
Definition says_ai (d : dict) : bool :=
  match dict_get (py "label") d with
  | Some l => eq_str l (py "AI")
  | None => false
  end.

(** The int has a float next to it. *)
Definition fits_float (z : Z) : bool :=
  match of_int z with Some _ => true | None => false end.

(** The answer is usable: a non-empty list whose first element is an object
    that carries a numeric score. *)
Definition responded_usably (o : result value) : bool :=
  match o with
  | Ok (VList (VDict d :: _)) =>
      match dict_get (py "score") d with
      | Some v => is_number v
      | None => false
      end
  | _ => false
  end.

(** The answer is of unknown format: a non-empty list whose first element is
    not an object, or is an object without a score. *)
Definition format_unknown (o : result value) : bool :=
  match o with
  | Ok (VList (VDict d :: _)) =>
      match dict_get (py "score") d with
      | Some _ => false
      | None => true
      end
  | Ok (VList (_ :: _)) => true
  | _ => false
  end.

(** The score is not a number, in a non-empty list of which the first
    element is an object. *)
Definition score_not_a_number (o : result value) : bool :=
  match o with
  | Ok (VList (VDict d :: _)) =>
      match dict_get (py "score") d with
      | Some v => negb (is_number v)
      | None => false
      end
  | _ => false
  end.

(** The score is an int of which the AI score, the score itself under the
    label AI and one minus the score otherwise, is too large for a float. *)
Definition score_too_large (o : result value) : bool :=
  match o with
  | Ok (VList (VDict d :: _)) =>
      match dict_get (py "score") d with
      | Some v =>
          match as_num v with
          | Some (NumInt z) => negb (fits_float (if says_ai d then z else 1 - z))
          | _ => false
          end
      | None => false
      end
  | _ => false
  end.

(** The answers for which the model is listed: the non-empty lists, unless
    the score of the first element is not a number or too large. *)
Definition listed (o : result value) : bool :=
  match o with
  | Ok (VList (_ :: _)) => negb (score_not_a_number o) && negb (score_too_large o)
  | _ => false
  end.

Definition neutral (r : value) : Prop :=
  field "ensemble_ai_probability" r = Some (VFloat half) /\
  field "ensemble_human_probability" r = Some (VFloat half) /\
  (field "prediction" r = Some (VStr (py "Detection failed")) \/
   field "prediction" r = Some (VStr (py "Uncertain"))) /\
  field "confidence" r = Some (VFloat zero) /\
  field "models_used" r = Some (VList []).

Lemma failed_detection_neutral e : neutral (failed_detection e).
Proof. repeat split; try reflexivity. left; reflexivity. Qed.

(** *** The arithmetic of a detection *)

(** The AI score that a number under the given label stands for. *)
Definition ai_score_for (ai : bool) (n : num) : value :=
  match n with
  | NumInt z => if ai then VInt z else VInt (1 - z)
  | NumFloat f => if ai then VFloat f else VFloat (fsub one f)
  end.

(** The result for an AI score that is a float. *)
Definition scored_float (ai_score : value) (f : float) : value :=
  scored ai_score (VFloat (fsub one f))
    (VFloat (fmul (fabs (fsub f half)) two))
    (above (worth f) (worth half)).

(** The result for an AI score that is an int (or a bool) with the float
    [fz] next to it. *)
Definition scored_int (ai_score : value) (z : Z) (fz : float) : value :=
  scored ai_score (VInt (1 - z))
    (VFloat (fmul (fabs (fsub fz half)) two))
    (above (Finite (inject_Z z)) (worth half)).

Lemma after_score_float f :
  after_score (VFloat f) = Ok (scored_float (VFloat f) f).
Proof. reflexivity. Qed.

Lemma after_score_int v z :
  as_num v = Some (NumInt z) ->
  after_score v
  = match of_int z with
    | Some fz => Ok (scored_int v z fz)
    | None => Raise (OverflowError "int too large to convert to float")
    end.
Proof.
  intros H. unfold after_score, confidence_of, py_sub, py_gt, float_op.
  rewrite H. cbn [as_num to_float num_worth].
  destruct (of_int z) as [fz|]; reflexivity.
Qed.

Lemma after_score_other v :
  as_num v = None -> after_score v = Raise (binop_error "-" (VInt 1) v).
Proof.
  intros H. unfold after_score, py_sub. rewrite H. reflexivity.
Qed.

(** The score of an object, as [ai_score_of] reads it. *)
Lemma ai_score_of_number d v n :
  dict_get (py "score") d = Some v -> as_num v = Some n ->
  ai_score_of (VDict d)
  = Ok (if says_ai d then v else ai_score_for false n).
Proof.
  intros Hv Hn. unfold ai_score_of, says_ai. rewrite Hv.
  destruct (dict_get (py "label") d) as [l|]; cbn [eq_str].
  - destruct (eq_str l (py "AI")); [reflexivity|].
    unfold py_sub. rewrite Hn. destruct n; reflexivity.
  - unfold py_sub. rewrite Hn. destruct n; reflexivity.
Qed.

Lemma ai_score_of_default d :
  dict_get (py "score") d = None ->
  ai_score_of (VDict d)
  = Ok (VFloat (if says_ai d then half else fsub one half)).
Proof.
  intros Hv. unfold ai_score_of, says_ai. rewrite Hv.
  destruct (dict_get (py "label") d) as [l|]; cbn [eq_str].
  - destruct (eq_str l (py "AI")); reflexivity.
  - reflexivity.
Qed.

Lemma ai_score_of_not_a_number d v :
  dict_get (py "score") d = Some v -> as_num v = None ->
  after_call (VList [VDict d]) = Raise (binop_error "-" (VInt 1) v).
Proof.
  intros Hv Hn. unfold after_call, ai_score_of. rewrite Hv.
  destruct (eq_str _ (py "AI")).
  - apply after_score_other. exact Hn.
  - unfold py_sub. rewrite Hn. reflexivity.
Qed.

Lemma after_call_first prediction rest :
  after_call (VList (prediction :: rest)) = after_call (VList [prediction]).
Proof. reflexivity. Qed.

(** [1 - 0.5] is [0.5]. *)
Lemma complement_of_half : fsub one half = half.
Proof. reflexivity. Qed.

(** The call returned, and what it returned is not a non-empty list. *)
Definition answered_no_list (o : result value) : bool :=
  match o with
  | Ok (VList (_ :: _)) => false
  | Ok _ => true
  | Raise _ => false
  end.

(** The outcome of a run is its fate: the result of a listed model, or the
    neutral fallback. *)
Inductive fate (o : result value) : value -> Prop :=
| fate_failed e :
    listed o = false -> fate o (failed_detection e)
| fate_uncertain :
    listed o = false -> answered_no_list o = true ->
    fate o (VDict (fallback_detection "Uncertain"))
| fate_float ai_score f :
    listed o = true ->
    ai_score = VFloat f ->
    fate o (scored_float ai_score f)
| fate_int ai_score z fz :
    listed o = true ->
    as_num ai_score = Some (NumInt z) ->
    of_int z = Some fz ->
    fate o (scored_int ai_score z fz).

Lemma outcome_fate o :
  fate o match o with
         | Raise e => failed_detection e
         | Ok answer =>
             match after_call answer with
             | Ok d => d
             | Raise e => failed_detection e
             end
         end.
Proof.
  destruct o as [answer|e]; [|apply fate_failed; reflexivity].
  destruct answer as [| | | | |[|prediction rest]|];
    try (apply fate_uncertain; reflexivity).
  rewrite after_call_first.
  destruct prediction as [|b|z|q|s|l|d];
    try (cbn [after_call ai_score_of]; rewrite after_score_float;
         apply fate_float with (f := half); reflexivity).
  destruct (dict_get (py "score") d) as [v|] eqn:Hv.
  - destruct (as_num v) as [n|] eqn:Hn.
    + unfold after_call. rewrite (ai_score_of_number _ Hv Hn).
      destruct n as [z|f].
      * (* an int *)
        set (ai := if says_ai d then z else (1 - z)%Z).
        assert (Hai : as_num (if says_ai d then v else ai_score_for false (NumInt z))
                      = Some (NumInt ai)).
        { unfold ai. destruct (says_ai d); [exact Hn | reflexivity]. }
        rewrite (after_score_int _ Hai).
        destruct (of_int ai) as [fz|] eqn:Hz.
        -- apply fate_int; [|exact Hai | exact Hz].
           unfold listed, score_not_a_number, score_too_large, is_number, fits_float.
           rewrite Hv, Hn. fold ai. rewrite Hz. reflexivity.
        -- apply fate_failed.
           unfold listed, score_not_a_number, score_too_large, is_number, fits_float.
           rewrite Hv, Hn. fold ai. rewrite Hz. reflexivity.
      * (* a float *)
        assert (Hl : listed (Ok (VList (VDict d :: rest))) = true).
        { unfold listed, score_not_a_number, score_too_large, is_number.
          rewrite Hv, Hn. reflexivity. }
        destruct (says_ai d).
        -- destruct v; try discriminate Hn.
           injection Hn as ->. rewrite after_score_float.
           apply fate_float with (f := f); [exact Hl | reflexivity].
        -- cbn [ai_score_for]. rewrite after_score_float.
           apply fate_float with (f := fsub one f); [exact Hl | reflexivity].
    + rewrite (ai_score_of_not_a_number _ Hv Hn).
      apply fate_failed.
      unfold listed, score_not_a_number, is_number. rewrite Hv, Hn. reflexivity.
  - unfold after_call. rewrite (ai_score_of_default _ Hv), after_score_float.
    apply fate_float with (f := if says_ai d then half else fsub one half);
      [|reflexivity].
    unfold listed, score_not_a_number, score_too_large. rewrite Hv. reflexivity.
Qed.

Lemma fate_fields o r :
  fate o r ->
  exists a h c,
    field "ensemble_ai_probability" r = Some a /\
    field "ensemble_human_probability" r = Some h /\
    field "confidence" r = Some c.
Proof. intros []; do 3 eexists; repeat split; reflexivity. Qed.

Lemma fate_listed o r :
  fate o r ->
  field "models_used" r
  = Some (VList (if listed o then [VStr DETECTOR_MODEL] else [])).
Proof. intros [e Hl | Hl _ | a f Hl _ | a z fz Hl _ _]; rewrite Hl; reflexivity. Qed.

Lemma fate_neutral o r : fate o r -> listed o = false -> neutral r.
Proof.
  intros [e Hl | Hl _ | a f Hl _ | a z fz Hl _ _] H;
    try (rewrite H in Hl; discriminate Hl).
  - apply failed_detection_neutral.
  - repeat split; try reflexivity. right; reflexivity.
Qed.

(** *** The confidence is not negative *)

Lemma round_sign s m e l :
  match binary_round_aux prec emax s m e l with
  | S754_zero s' | S754_infinity s' | S754_finite s' _ _ => s' = s
  | S754_nan => True
  end.
Proof.
  unfold binary_round_aux.
  destruct (shr_fexp prec emax m e l) as [mrs' e'].
  destruct (shr_fexp prec emax _ e' loc_Exact) as [mrs'' e''].
  destruct (shr_m mrs'') as [|p|p]; [reflexivity | | exact I].
  destruct (Z.leb e'' (emax - prec)); reflexivity.
Qed.

Lemma worth_positive m e : exists q, worth (S754_finite false m e) = Finite q /\ 0 <= q.
Proof.
  eexists. split; [reflexivity|].
  apply Qmult_le_0_compat.
  - change 0 with (inject_Z 0). rewrite <- Zle_Qle. cbn. lia.
  - apply Qpower_0_le. discriminate.
Qed.

(** A float that is not below zero: NaN, or worth at least zero. *)
Definition not_negative (f : float) : Prop :=
  above (Finite 0) (worth f) = false.

Lemma doubled_magnitude_not_negative f : not_negative (fmul (fabs f) two).
Proof.
  unfold not_negative.
  destruct f as [s|s| |s m e]; try reflexivity.
  unfold fabs, SFabs, fmul, SFmul, two.
  pose proof (round_sign (xorb false false) (Zpos (m * 4503599627370496))
                (e + -51) loc_Exact) as H.
  destruct (binary_round_aux _ _ _ _ _ _) as [s'|s'| |s' m' e'];
    try reflexivity; cbn [xorb] in H; subst s'; try reflexivity.
  destruct (worth_positive m' e') as (q & -> & Hq).
  cbn [above]. apply negb_false_iff, Qle_bool_iff. exact Hq.
Qed.

Lemma fate_confidence o r :
  fate o r ->
  exists f, field "confidence" r = Some (VFloat f) /\ not_negative f.
Proof.
  intros [e Hl | Hl _ | a f Hl _ | a z fz Hl _ _].
  - exists zero. split; reflexivity.
  - exists zero. split; reflexivity.
  - eexists. split; [reflexivity | apply doubled_magnitude_not_negative].
  - eexists. split; [reflexivity | apply doubled_magnitude_not_negative].
Qed.

(** The relations between the three numbers of a result. *)
Lemma fate_numbers o r :
  fate o r -> listed o = true ->
  exists a h c,
    field "ensemble_ai_probability" r = Some a /\
    field "ensemble_human_probability" r = Some h /\
    field "confidence" r = Some c /\
    py_sub (VInt 1) a = Ok h /\
    confidence_of a = Ok c.
Proof.
  intros [e Hl | Hl _ | a f Hl Ha | a z fz Hl Ha Hz] H;
    try (rewrite H in Hl; discriminate Hl).
  - subst a. do 3 eexists. repeat split; reflexivity.
  - do 3 eexists. split; [reflexivity|]. split; [reflexivity|].
    split; [reflexivity|]. split.
    + unfold py_sub. rewrite Ha. reflexivity.
    + unfold confidence_of, py_sub, float_op. rewrite Ha.
      cbn [as_num to_float]. rewrite Hz. reflexivity.
Qed.

(** An int as AI probability has its complement as human probability. *)
Lemma fate_int_sum o r a z :
  fate o r ->
  field "ensemble_ai_probability" r = Some a ->
  as_num a = Some (NumInt z) ->
  field "ensemble_human_probability" r = Some (VInt (1 - z)).
Proof.
  intros [e Hl | Hl _ | a' f Hl Ha | a' z' fz Hl Ha Hz] Hf Hn.
  - injection Hf as <-. discriminate Hn.
  - injection Hf as <-. discriminate Hn.
  - injection Hf as <-. subst a'. discriminate Hn.
  - injection Hf as <-. rewrite Ha in Hn. injection Hn as <-. reflexivity.
Qed.

(** *** Probabilities of the unit interval *)

(** The result for an object whose score is a float. *)
Lemma float_score_result d rest s :
  dict_get (py "score") d = Some (VFloat s) ->
  after_call (VList (VDict d :: rest))
  = Ok (let f := if says_ai d then s else fsub one s in scored_float (VFloat f) f).
Proof.
  intros Hv. rewrite after_call_first. unfold after_call.
  rewrite (ai_score_of_number _ Hv eq_refl).
  destruct (says_ai d); cbn [ai_score_for]; apply after_score_float.
Qed.

(** A float AI probability of the unit interval: Python finds the sum of
    the two probabilities to be 1.0, and the confidence is a float of the
    unit interval. *)
Lemma fate_unit_interval o r f :
  fate o r ->
  field "ensemble_ai_probability" r = Some (VFloat f) ->
  is_binary64 f = true -> within_unit f ->
  exists h fc,
    field "ensemble_human_probability" r = Some h /\
    field "confidence" r = Some (VFloat fc) /\
    py_add (VFloat f) h = Ok (VFloat one) /\
    is_binary64 fc = true /\ within_unit fc.
Proof.
  intros [e Hl | Hl _ | a f' Hl Ha | a z fz Hl Ha Hz] Hf Hv Hu.
  - injection Hf as <-. exists (VFloat half), zero.
    repeat split; try reflexivity. apply in_unit_within. reflexivity.
  - injection Hf as <-. exists (VFloat half), zero.
    repeat split; try reflexivity. apply in_unit_within. reflexivity.
  - injection Hf as Hf. rewrite Ha in Hf. injection Hf as ->.
    apply in_unit_within in Hu.
    destruct (complement_spec f Hv Hu) as (_ & _ & Hsum).
    destruct (confidence_unit f Hv Hu) as (Hcv & Hcu).
    exists (VFloat (fsub one f)), (fmul (fabs (fsub f half)) two).
    split; [reflexivity|]. split; [reflexivity|].
    split; [cbn [py_add as_num float_op to_float]; rewrite Hsum; reflexivity|].
    split; [exact Hcv | apply in_unit_within; exact Hcu].
  - injection Hf as Hf. rewrite Hf in Ha. discriminate Ha.
Qed.

End DetectionFacts.

Import DetectionFacts.

(** Concrete runs used below: a configured credential, and remote models
    that report the score 3 with the label AI, the score 1e17 with the
    label AI, and one that answers with the JSON document [[null]]. *)
Definition sample_token : str := py "hf_sample".
Definition sample_text : str := py "Some text to classify, long enough.".

Definition remote_score_three : ApiExternal.world -> ApiExternal.request -> result value :=
  fun _ _ => Ok (VList [VDict [ (py "label", VStr (py "AI"));
                                (py "score", VFloat (decimal 3 0)) ]]).

Definition remote_score_huge : ApiExternal.world -> ApiExternal.request -> result value :=
  fun _ _ => Ok (VList [VDict [ (py "label", VStr (py "AI"));
                                (py "score", VFloat (decimal (10 ^ 17) 0)) ]]).

Definition remote_null_prediction : ApiExternal.world -> ApiExternal.request -> result value :=
  fun _ _ => Ok (VList [VNone]).

(** [v == 1.0] *)
Definition is_one (v : value) : bool :=
  match as_num v with
  | Some n => same (num_worth n) (Finite 1)
  | None => false
  end.

Definition clamp01 (q : Q) : Q :=
  if Qle_bool q 0 then 0 else if Qle_bool 1 q then 1 else q.

(** C3 as the claim states it, the sum: Python finds
    [ai + human == 1.0]. *)
Definition C3_sum_as_stated (token : str) remote (text method : str) w : Prop :=
  forall r,
    snd (ApiExternal.detect_ai_text token remote text method w) = Ok r ->
    exists a h s,
      field "ensemble_ai_probability" r = Some a /\
      field "ensemble_human_probability" r = Some h /\
      py_add a h = Ok s /\ is_one s = true.

(** C3 as the claim states it, the confidence: it is worth
    [|ai - 1/2| * 2] brought into [0,1]. *)
Definition C3_confidence_as_stated (token : str) remote (text method : str) w : Prop :=
  forall r,
    snd (ApiExternal.detect_ai_text token remote text method w) = Ok r ->
    exists a c na nc qa qc,
      field "ensemble_ai_probability" r = Some a /\
      field "confidence" r = Some c /\
      as_num a = Some na /\ as_num c = Some nc /\
      num_worth na = Finite qa /\ num_worth nc = Finite qc /\
      qc == clamp01 (Qabs (qa - (1 # 2)) * 2).

(** C3 (as stated, refuted), on both counts.  A model that reports the
    score 1e17 yields the probabilities 1e17 and -1e17, of which the sum
    is 0.0; a model that reports the score 3 yields the confidence 5.0, not
    the clamped value 1. *)
Lemma C3_counterexample :
  ~ C3_sum_as_stated sample_token remote_score_huge sample_text (py "ensemble") [] /\
  ~ C3_confidence_as_stated sample_token remote_score_three sample_text (py "ensemble") [].
Proof.
  split; intros H; specialize (H _ (detect_ai_text_returns _ _ _ _ _)).
  - destruct H as (a & h & s & Ha & Hh & Hs & H1).
    vm_compute in Ha. injection Ha as <-.
    vm_compute in Hh. injection Hh as <-.
    vm_compute in Hs. injection Hs as <-.
    vm_compute in H1. discriminate H1.
  - destruct H as (a & c & na & nc & qa & qc & Ha & Hc & Hna & Hnc & Hqa & Hqc & H).
    vm_compute in Ha. injection Ha as <-.
    vm_compute in Hc. injection Hc as <-.
    injection Hna as <-. injection Hnc as <-.
    vm_compute in Hqa. injection Hqa as <-.
    vm_compute in Hqc. injection Hqc as <-.
    vm_compute in H. discriminate H.
Qed.

(** C3 (amended).  Every detection run returns a result with the three
    numbers.  Either it is the neutral fallback, with the probabilities
    0.5 and 0.5, of which Python finds the sum to be 1.0, and the
    confidence 0.0; or the model is listed, the human probability is
    [1 - ai] and the confidence is [abs(ai - 0.5) * 2] as Python computes
    them, a float operation being rounded, and there is no clamping.  When
    the AI probability is an int, the human probability is the int
    [1 - ai], so that the sum is 1 exactly.  The confidence is a float
    that is never below zero.  When the AI probability is a float of
    [0,1], Python finds the sum of the two probabilities to be 1.0, and the
    confidence is a float of [0,1], which clamping would leave as it is;
    this is the case whenever the score that the model reports is a float
    of [0,1]. *)
Theorem C3_detection_probabilities :
  forall (token : str) remote (text method : str) w,
  exists r a h c,
    snd (ApiExternal.detect_ai_text token remote text method w) = Ok r /\
    field "ensemble_ai_probability" r = Some a /\
    field "ensemble_human_probability" r = Some h /\
    field "confidence" r = Some c /\
    (if listed (call_outcome token remote text w)
     then py_sub (VInt 1) a = Ok h /\ confidence_of a = Ok c
     else a = VFloat half /\ h = VFloat half /\ c = VFloat zero /\
          exists s, py_add a h = Ok s /\ is_one s = true) /\
    (forall z, as_num a = Some (NumInt z) -> h = VInt (1 - z)) /\
    (exists f, c = VFloat f /\ not_negative f) /\
    (forall f,
       a = VFloat f -> is_binary64 f = true -> within_unit f ->
       (exists s, py_add a h = Ok s /\ is_one s = true) /\
       (exists fc, c = VFloat fc /\ is_binary64 fc = true /\ within_unit fc)) /\
    (forall d rest s,
       call_outcome token remote text w = Ok (VList (VDict d :: rest)) ->
       dict_get (py "score") d = Some (VFloat s) ->
       is_binary64 s = true -> within_unit s ->
       exists f, a = VFloat f /\ is_binary64 f = true /\ within_unit f).
Proof.
  intros token remote text method w.
  exists (detection token remote text method w).
  pose proof (outcome_fate (call_outcome token remote text w)) as Hfate.
  fold (detection token remote text method w) in Hfate.
  pose proof (eq_refl : detection token remote text method w
                        = detection token remote text method w) as Hdef.
  unfold detection at 2 in Hdef.
  set (r := detection token remote text method w) in *.
  set (o := call_outcome token remote text w) in *.
  assert (Hcases :
            exists a h c,
              field "ensemble_ai_probability" r = Some a /\
              field "ensemble_human_probability" r = Some h /\
              field "confidence" r = Some c /\
              (if listed o
               then py_sub (VInt 1) a = Ok h /\ confidence_of a = Ok c
               else a = VFloat half /\ h = VFloat half /\ c = VFloat zero /\
                    exists s, py_add a h = Ok s /\ is_one s = true)).
  { destruct (listed o) eqn:Hl.
    - destruct (fate_numbers Hfate Hl) as (a & h & c & Ha & Hh & Hc & H1 & H2).
      exists a, h, c. repeat split; assumption.
    - destruct (fate_neutral Hfate Hl) as (Ha & Hh & _ & Hc & _).
      exists (VFloat half), (VFloat half), (VFloat zero).
      split; [exact Ha|]. split; [exact Hh|]. split; [exact Hc|].
      split; [reflexivity|]. split; [reflexivity|]. split; [reflexivity|].
      eexists. split; reflexivity. }
  destruct Hcases as (a & h & c & Ha & Hh & Hc & Hrel).
  exists a, h, c.
  split; [apply detect_ai_text_returns|].
  split; [exact Ha|]. split; [exact Hh|]. split; [exact Hc|].
  split; [exact Hrel|]. split; [|split; [|split]].
  - intros z Hz. pose proof (fate_int_sum Hfate Ha Hz) as H.
    rewrite Hh in H. injection H as ->. reflexivity.
  - destruct (fate_confidence Hfate) as (f & Hf & Hn).
    rewrite Hc in Hf. injection Hf as ->. exists f. split; [reflexivity | exact Hn].
  - intros f -> Hv Hu.
    destruct (fate_unit_interval Hfate Ha Hv Hu) as (h' & fc & Hh' & Hc' & Hsum & Hcv & Hcu).
    rewrite Hh in Hh'. injection Hh' as <-.
    rewrite Hc in Hc'. injection Hc' as ->.
    split; [exists (VFloat one); split; [exact Hsum | reflexivity]|].
    exists fc. split; [reflexivity|]. split; [exact Hcv | exact Hcu].
  - intros d rest s Ho Hs Hv Hu.
    rewrite Ho, (@float_score_result d rest s Hs) in Hdef. rewrite Hdef in Ha.
    injection Ha as <-.
    apply in_unit_within in Hu.
    destruct (complement_spec s Hv Hu) as (Hcv & Hcu & _).
    destruct (says_ai d); eexists; (split; [reflexivity|]).
    + split; [exact Hv | apply in_unit_within; exact Hu].
    + split; [exact Hcv | apply in_unit_within; exact Hcu].
Qed.

(** A remote model that reports the score 0.9 with the label AI. *)
Definition remote_score_nine_tenths
  : ApiExternal.world -> ApiExternal.request -> result value :=
  fun _ _ => Ok (VList [VDict [ (py "label", VStr (py "AI"));
                                (py "score", VFloat (decimal 9 1)) ]]).

(** C3 at a model that reports 0.9: the probabilities are 0.9 and
    0.09999999999999998, of which Python finds the sum to be 1.0, and the
    confidence is 0.8. *)
Lemma C3_detection_probabilities_witness :
  exists r,
    snd (ApiExternal.detect_ai_text sample_token remote_score_nine_tenths
           sample_text (py "ensemble") []) = Ok r /\
    field "ensemble_ai_probability" r = Some (VFloat (decimal 9 1)) /\
    field "ensemble_human_probability" r
    = Some (VFloat (decimal 9999999999999998 17)) /\
    field "confidence" r = Some (VFloat (decimal 8 1)) /\
    py_add (VFloat (decimal 9 1)) (VFloat (decimal 9999999999999998 17))
    = Ok (VFloat one).
Proof.
  destruct (C3_detection_probabilities sample_token remote_score_nine_tenths
              sample_text (py "ensemble") [])
    as (r & a & h & c & Hr & Ha & Hh & Hc & Hrel & _ & _ & Hunit & _).
  exists r. split; [exact Hr|].
  assert (Hr' := Hr). rewrite detect_ai_text_returns in Hr'. injection Hr' as <-.
  vm_compute in Ha. injection Ha as <-.
  change (listed _) with true in Hrel. destruct Hrel as [H1 H2].
  vm_compute in H1. injection H1 as <-.
  vm_compute in H2. injection H2 as <-.
  split; [vm_compute; reflexivity|].
  split; [rewrite Hh; vm_compute; reflexivity|].
  split; [rewrite Hc; vm_compute; reflexivity|].
  vm_compute. reflexivity.
Defined.

(** C4 as the claim states it: a model that does not respond usably is left
    out of [models_used]. *)
Definition C4_as_stated (token : str) remote (text method : str) w : Prop :=
  forall r,
    snd (ApiExternal.detect_ai_text token remote text method w) = Ok r ->
    responded_usably (call_outcome token remote text w) = false ->
    field "models_used" r = Some (VList []).

(** C4 (as stated, refuted).  A model that answers [[null]] has given
    nothing usable, yet it is listed in [models_used], with the score 0.5. *)
Lemma C4_counterexample :
  ~ C4_as_stated sample_token remote_null_prediction sample_text (py "ensemble") [].
Proof.
  intros H.
  specialize (H _ (detect_ai_text_returns _ _ _ _ _) eq_refl).
  vm_compute in H. discriminate.
Qed.

(** C4 (amended).  [models_used] lists the detector model exactly for the
    answers that are non-empty lists, unless the score of the first element
    is not a number, or is an int of which the AI score is too large for a
    float.  A model whose call raises, whose answer is not a non-empty
    list, or whose score is of these two kinds is left out, and the result
    is the neutral fallback.  An answer of unknown format (first element
    not an object, or an object without a score) is listed, and is scored
    0.5 by default; so is a usable answer, unless its score is too
    large. *)
Theorem C4_models_used :
  forall (token : str) remote (text method : str) w,
  exists r,
    snd (ApiExternal.detect_ai_text token remote text method w) = Ok r /\
    field "models_used" r
    = Some (VList (if listed (call_outcome token remote text w)
                   then [VStr ApiExternal.DETECTOR_MODEL] else [])) /\
    (listed (call_outcome token remote text w) = false -> neutral r) /\
    (score_not_a_number (call_outcome token remote text w) = true ->
     field "models_used" r = Some (VList [])) /\
    (score_too_large (call_outcome token remote text w) = true ->
     field "models_used" r = Some (VList [])) /\
    (responded_usably (call_outcome token remote text w) = true ->
     score_too_large (call_outcome token remote text w) = false ->
     field "models_used" r = Some (VList [VStr ApiExternal.DETECTOR_MODEL])) /\
    (format_unknown (call_outcome token remote text w) = true ->
     field "models_used" r = Some (VList [VStr ApiExternal.DETECTOR_MODEL]) /\
     field "ensemble_ai_probability" r = Some (VFloat half)).
Proof.
  intros token remote text method w.
  exists (detection token remote text method w).
  split; [apply detect_ai_text_returns|].
  pose proof (outcome_fate (call_outcome token remote text w)) as Hfate.
  fold (detection token remote text method w) in Hfate.
  set (r := detection token remote text method w) in *.
  set (o := call_outcome token remote text w) in *.
  pose proof (fate_listed Hfate) as Hm.
  split; [exact Hm|]. split; [exact (fate_neutral Hfate)|].
  split; [|split; [|split]].
  - intros H. rewrite Hm.
    replace (listed o) with false; [reflexivity|].
    unfold listed. rewrite H.
    destruct o as [[| | | | |[|? ?]|]|]; reflexivity.
  - intros H. rewrite Hm.
    replace (listed o) with false; [reflexivity|].
    unfold listed. rewrite H.
    destruct o as [[| | | | |[|? ?]|]|]; try reflexivity.
    rewrite andb_false_r. reflexivity.
  - intros Hu Hs. rewrite Hm.
    replace (listed o) with true; [reflexivity|].
    unfold listed. rewrite Hs.
    destruct o as [[| | | | |[|[| | | | | |d] ?]|]|]; try discriminate Hu.
    unfold score_not_a_number. cbn [responded_usably] in Hu.
    destruct (dict_get (py "score") d); [|discriminate Hu].
    rewrite Hu. reflexivity.
  - intros Hf.
    assert (Hl : listed o = true).
    { destruct o as [[| | | | |[|[| | | | | |d] ?]|]|]; try discriminate Hf;
        try reflexivity.
      unfold listed, score_not_a_number, score_too_large.
      cbn [format_unknown] in Hf.
      destruct (dict_get (py "score") d); [discriminate Hf | reflexivity]. }
    rewrite Hm, Hl. split; [reflexivity|].
    subst r. unfold detection. fold o.
    destruct o as [[| | | | |[|p ?]|]|]; try discriminate Hf.
    rewrite after_call_first.
    destruct p as [| | | | | |d]; try reflexivity.
    cbn [format_unknown] in Hf.
    destruct (dict_get (py "score") d) eqn:Hv; [discriminate Hf|].
    unfold after_call. rewrite (ai_score_of_default _ Hv), after_score_float.
    destruct (says_ai d); reflexivity.
Qed.

(** C4: the amended statement at a run whose model answers [[null]]. *)
Lemma C4_models_used_witness :
  exists r,
    snd (ApiExternal.detect_ai_text sample_token remote_null_prediction
           sample_text (py "ensemble") []) = Ok r /\
    field "models_used" r = Some (VList [VStr ApiExternal.DETECTOR_MODEL]) /\
    field "ensemble_ai_probability" r = Some (VFloat half).
Proof.
  destruct (C4_models_used sample_token remote_null_prediction
              sample_text (py "ensemble") [])
    as (r & Hr & _ & _ & _ & _ & _ & Hf).
  exists r. split; [exact Hr|]. exact (Hf eq_refl).
Defined.

(** C5 as the claim states it: when the model gives no usable answer, the
    result is the neutral fallback. *)
Definition C5_as_stated (token : str) remote (text method : str) w : Prop :=
  forall r,
    snd (ApiExternal.detect_ai_text token remote text method w) = Ok r ->
    responded_usably (call_outcome token remote text w) = false ->
    neutral r.

(** C5 (as stated, refuted).  A model that answers [[null]] has given
    nothing usable, yet the result is not the fallback: the prediction is
    "Human-written" and the model is listed. *)
Lemma C5_counterexample :
  ~ C5_as_stated sample_token remote_null_prediction sample_text (py "ensemble") [].
Proof.
  intros H.
  specialize (H _ (detect_ai_text_returns _ _ _ _ _) eq_refl).
  destruct H as (_ & _ & _ & _ & H).
  vm_compute in H. discriminate.
Qed.

(** C5 (amended).  The aggregator returns the neutral fallback (both
    probabilities 0.5, prediction "Detection failed" or "Uncertain",
    confidence 0.0 and an empty [models_used]) exactly when the model is
    not listed: when the call raises, the missing credential included, when
    the answer is not a non-empty list, when the score is not a number,
    and when it is an int too large for a float.  For a non-empty list of
    unknown format the result is not the fallback. *)
Theorem C5_neutral_fallback :
  forall (token : str) remote (text method : str) w,
  exists r,
    snd (ApiExternal.detect_ai_text token remote text method w) = Ok r /\
    (neutral r <-> listed (call_outcome token remote text w) = false) /\
    ((forall e, call_outcome token remote text w <> Raise e) ->
     (forall p rest, call_outcome token remote text w <> Ok (VList (p :: rest))) ->
     field "prediction" r = Some (VStr (py "Uncertain"))) /\
    (forall e, call_outcome token remote text w = Raise e ->
               r = failed_detection e) /\
    (score_not_a_number (call_outcome token remote text w) = true \/
     score_too_large (call_outcome token remote text w) = true ->
     neutral r /\ field "prediction" r = Some (VStr (py "Detection failed"))).
Proof.
  intros token remote text method w.
  exists (detection token remote text method w).
  split; [apply detect_ai_text_returns|].
  pose proof (outcome_fate (call_outcome token remote text w)) as Hfate.
  fold (detection token remote text method w) in Hfate.
  set (r := detection token remote text method w) in *.
  set (o := call_outcome token remote text w) in *.
  split; [|split; [|split]].
  - split; [|exact (fate_neutral Hfate)].
    intros (_ & _ & _ & _ & Hm). rewrite (fate_listed Hfate) in Hm.
    destruct (listed o); [discriminate Hm | reflexivity].
  - intros Hne Hnl. subst r. unfold detection. fold o.
    destruct o as [[| | | | |[|p rest]|]|e]; try reflexivity.
    + exfalso. exact (Hnl p rest eq_refl).
    + exfalso. exact (Hne e eq_refl).
  - intros e He. subst r. unfold detection. fold o. rewrite He. reflexivity.
  - intros H.
    assert (Hl : listed o = false).
    { unfold listed. destruct o as [[| | | | |[|? ?]|]|]; try reflexivity.
      destruct H as [-> | ->]; [reflexivity | apply andb_false_r]. }
    split; [exact (fate_neutral Hfate Hl)|].
    destruct Hfate as [e _ | _ Hno | a f Hl' _ | a z fz Hl' _ _];
      try (rewrite Hl in Hl'; discriminate Hl'); [reflexivity|].
    (* the fallback "Uncertain" is for answers that are no non-empty list *)
    exfalso.
    destruct o as [[| | | | |[|? ?]|]|];
      try discriminate Hno; destruct H as [H|H]; discriminate H.
Qed.

(** Remote models that report a score that is a str, and the score
    [2 ** 1024] with the label AI. *)
Definition remote_score_text : ApiExternal.world -> ApiExternal.request -> result value :=
  fun _ _ => Ok (VList [VDict [ (py "label", VStr (py "AI"));
                                (py "score", VStr (py "high")) ]]).

Definition remote_score_too_large
  : ApiExternal.world -> ApiExternal.request -> result value :=
  fun _ _ => Ok (VList [VDict [ (py "label", VStr (py "AI"));
                                (py "score", VInt (2 ^ 1024)) ]]).

(** C5 at a run without credential, at a score that is a str and at a
    score that is too large: the result is the neutral fallback, in the
    last two cases with the prediction "Detection failed". *)
Lemma C5_neutral_fallback_witness :
  (exists r,
     snd (ApiExternal.detect_ai_text (py "") remote_score_three
            sample_text (py "ensemble") []) = Ok r /\
     neutral r) /\
  (exists r,
     snd (ApiExternal.detect_ai_text sample_token remote_score_text
            sample_text (py "ensemble") []) = Ok r /\
     neutral r /\ field "prediction" r = Some (VStr (py "Detection failed"))) /\
  (exists r,
     snd (ApiExternal.detect_ai_text sample_token remote_score_too_large
            sample_text (py "ensemble") []) = Ok r /\
     neutral r /\ field "prediction" r = Some (VStr (py "Detection failed"))).
Proof.
  split; [|split].
  - destruct (C5_neutral_fallback (py "") remote_score_three sample_text
                (py "ensemble") [])
      as (r & Hr & Hn & _).
    exists r. split; [exact Hr | exact (proj2 Hn eq_refl)].
  - destruct (C5_neutral_fallback sample_token remote_score_text sample_text
                (py "ensemble") [])
      as (r & Hr & _ & _ & _ & Hf).
    exists r. split; [exact Hr|]. apply Hf. left. reflexivity.
  - destruct (C5_neutral_fallback sample_token remote_score_too_large sample_text
                (py "ensemble") [])
      as (r & Hr & _ & _ & _ & Hf).
    exists r. split; [exact Hr|]. apply Hf. right. vm_compute. reflexivity.
Defined.

(* --------------------------------------------------------------------- *)
(** ** The remote client and the two steps built on it *)
(* --------------------------------------------------------------------- *)

Module StepFacts.
Import ApiExternal.

Definition MISSING_CREDENTIAL : exn :=
  Exception "HF_API_TOKEN environment variable not set".

Definition paraphrase_request (token text : str) (model_name : value) : request :=
  mk_request API_URL_BASE
    (if negb (truthy model_name)
     then VStr (py "humarin/chatgpt_paraphraser_on_T5_base") else model_name)
    (py "Bearer " ++ token)
    (py "paraphrase: " ++ text)
    (VDict [ (py "max_length", VInt (len text * 2));
             (py "min_length", VInt (len text / 2)) ]).

Definition rewrite_request (token text : str) (enhanced : value) : request :=
  mk_request API_URL_BASE
    (VStr (py "google/flan-t5-base"))
    (py "Bearer " ++ token)
    (if truthy enhanced
     then py "Significantly rewrite and humanize this text to make it appear completely human-written: " ++ text
     else py "Rewrite this text to make it more human-like and natural: " ++ text)
    (VDict [ (py "max_length", VInt (len text * 3));
             (py "min_length", VInt (len text)) ]).

(** What the remote client ends in for a request: the configuration error
    when the credential is missing, the remote outcome otherwise. *)
Definition client_outcome (token : str) (remote : world -> request -> result value)
    (w : world) (r : request) : result value :=
  if negb (truthy (VStr token)) then Raise MISSING_CREDENTIAL else remote w r.

(** The requests on record after the client has been called once. *)
Definition client_log (token : str) (w : world) (r : request) : world :=
  if negb (truthy (VStr token)) then w else r :: w.

Definition is_object (v : value) : bool :=
  match v with VDict _ => true | _ => false end.

Definition nonempty_list (v : value) : bool :=
  match v with VList (_ :: _) => true | _ => false end.

(** The pair [(text, error)] a step returns, by what the client ended in. *)
Inductive step_outcome (text : str) : result value -> value * value -> Prop :=
| client_failed e :
    (* the failure of the client comes back with its message *)
    step_outcome text (Raise e) (VStr text, VStr (exn_msg e))
| answer_not_a_list answer :
    nonempty_list answer = false ->
    step_outcome text (Ok answer)
      (VStr text, VStr (py "API returned unexpected format"))
| first_not_an_object first rest :
    is_object first = false ->
    step_outcome text (Ok (VList (first :: rest)))
      (VStr text, VStr (exn_msg (AttributeError first "get")))
| text_field_missing d rest :
    dict_get (py "generated_text") d = None ->
    (* the input text is returned, with an empty error *)
    step_outcome text (Ok (VList (VDict d :: rest))) (VStr text, VStr (py ""))
| text_generated d rest generated :
    dict_get (py "generated_text") d = Some generated ->
    step_outcome text (Ok (VList (VDict d :: rest))) (generated, VStr (py "")).

(** The same as a function. *)
Definition step_result (text : str) (o : result value) : value * value :=
  match o with
  | Raise e => (VStr text, VStr (exn_msg e))
  | Ok (VList (first :: _)) =>
      match method_get first (py "generated_text") (VStr text) with
      | Ok generated => (generated, VStr (py ""))
      | Raise e => (VStr text, VStr (exn_msg e))
      end
  | Ok _ => (VStr text, VStr (py "API returned unexpected format"))
  end.

Lemma step_result_outcome text o : step_outcome text o (step_result text o).
Proof.
  destruct o as [answer|e]; [|constructor].
  destruct answer as [| | | | |[|first rest]|]; try (constructor; reflexivity).
  destruct first as [|b|z|q|s|l|d]; try (constructor; reflexivity).
  unfold step_result, method_get.
  destruct (dict_get (py "generated_text") d) as [g|] eqn:Hg.
  - apply text_generated. exact Hg.
  - apply text_field_missing. exact Hg.
Qed.

Section Steps.

Variable HF_API_TOKEN : str.
Variable remote : world -> request -> result value.

Lemma call_hf_api_cases model_id inputs parameters w :
  call_hf_api HF_API_TOKEN remote model_id inputs parameters w =
  let r := mk_request API_URL_BASE model_id (py "Bearer " ++ HF_API_TOKEN) inputs
             (if truthy parameters then parameters else VDict []) in
  (client_log HF_API_TOKEN w r, client_outcome HF_API_TOKEN remote w r).
Proof.
  unfold call_hf_api, client_log, client_outcome, try_except, requests_post, raise.
  destruct (negb (truthy (VStr HF_API_TOKEN))); [reflexivity|].
  cbn zeta. destruct (remote w _); reflexivity.
Qed.

Lemma paraphrase_text_cases text model_name w :
  paraphrase_text HF_API_TOKEN remote text model_name w =
  let r := paraphrase_request HF_API_TOKEN text model_name in
  (client_log HF_API_TOKEN w r,
   Ok (step_result text (client_outcome HF_API_TOKEN remote w r))).
Proof.
  unfold paraphrase_text, try_except, bind. rewrite call_hf_api_cases.
  cbn zeta. cbn [truthy]. fold (paraphrase_request HF_API_TOKEN text model_name).
  destruct (client_outcome _ _ _ _) as [answer|e]; [|reflexivity].
  destruct answer as [| | | | |[|first rest]|]; try reflexivity.
  unfold lift_result, step_result.
  destruct (method_get first _ _); reflexivity.
Qed.

Lemma rewrite_text_cases text enhanced w :
  rewrite_text HF_API_TOKEN remote text enhanced w =
  let r := rewrite_request HF_API_TOKEN text enhanced in
  (client_log HF_API_TOKEN w r,
   Ok (step_result text (client_outcome HF_API_TOKEN remote w r))).
Proof.
  unfold rewrite_text, try_except, bind. rewrite call_hf_api_cases.
  cbn zeta. cbn [truthy]. fold (rewrite_request HF_API_TOKEN text enhanced).
  destruct (client_outcome _ _ _ _) as [answer|e]; [|reflexivity].
  destruct answer as [| | | | |[|first rest]|]; try reflexivity.
  unfold lift_result, step_result.
  destruct (method_get first _ _); reflexivity.
Qed.

End Steps.

End StepFacts.

(* --------------------------------------------------------------------- *)
(** ** Reasoning about effectful code *)
(* --------------------------------------------------------------------- *)

Module Triples.

(** [triple P m Q E]: started in a state satisfying [P], the computation
    [m] ends in a state satisfying [Q a] when it returns [a], and in a state
    satisfying [E] when it raises. *)
Definition triple {S A} (P : S -> Prop) (m : M S A)
    (Q : A -> S -> Prop) (E : S -> Prop) : Prop :=
  forall s, P s ->
    match m s with
    | (s', Ok a) => Q a s'
    | (s', Raise _) => E s'
    end.

Lemma triple_bind {S A B} (P : S -> Prop) (m : M S A) (k : A -> M S B)
    (R : A -> S -> Prop) (Q : B -> S -> Prop) E :
  triple P m R E ->
  (forall a, triple (R a) (k a) Q E) ->
  triple P (bind m k) Q E.
Proof.
  intros Hm Hk s HP. unfold bind. specialize (Hm s HP).
  destruct (m s) as [s' [a|e]]; [exact (Hk a s' Hm) | exact Hm].
Qed.

Lemma triple_post {S A} (P : S -> Prop) (m : M S A) (Q Q' : A -> S -> Prop) E :
  (forall a s, Q' a s -> Q a s) -> triple P m Q' E -> triple P m Q E.
Proof.
  intros HQ Hm s H. specialize (Hm s H).
  destruct (m s) as [s' [a|e]]; [exact (HQ a s' Hm) | exact Hm].
Qed.

(** A fact that does not depend on the state can be used outside. *)
Lemma triple_fact {S A} (fact : Prop) (P : S -> Prop) (m : M S A) Q E :
  (fact -> triple P m Q E) -> triple (fun s => P s /\ fact) m Q E.
Proof. intros Hm s [HP Hf]. exact (Hm Hf s HP). Qed.

Lemma triple_lift_result {S A} (P : S -> Prop) (r : result A) :
  triple P (lift_result r) (fun a s => P s /\ r = Ok a) P.
Proof. intros s H. unfold lift_result. destruct r; [split; [exact H | reflexivity] | exact H]. Qed.

Lemma triple_if {S A} (b : bool) (P : S -> Prop) (m1 m2 : M S A) Q E :
  (b = true -> triple P m1 Q E) ->
  (b = false -> triple P m2 Q E) ->
  triple P (if b then m1 else m2) Q E.
Proof. destruct b; intros H1 H2; [apply H1 | apply H2]; reflexivity. Qed.

End Triples.

Module PipelineInvariant.
Import ApiExternal Index Triples.

(** The invariant of a pipeline run: [stats["processing_steps"]] is a list. *)
Definition has_steps (s : pstate) : Prop :=
  exists l, dict_get (py "processing_steps") (stats s) = Some (VList l).

(** The objects the pipeline can hand back as its text: a str, or something
    falsy. *)
Definition textual (v : value) : Prop :=
  (exists s, v = VStr s) \/ truthy v = false.

Lemma eqb_refl s : PyStr.eqb s s = true.
Proof. induction s as [|c r IH]; simpl; [reflexivity|]. rewrite N.eqb_refl. exact IH. Qed.

Lemma dict_get_set_same k v d : dict_get k (dict_set k v d) = Some v.
Proof.
  induction d as [|[k' v'] d IH]; simpl.
  - rewrite eqb_refl. reflexivity.
  - destruct (PyStr.eqb k k') eqn:E; simpl; rewrite E; [reflexivity | exact IH].
Qed.

Lemma dict_get_set_other k k' v d :
  PyStr.eqb k k' = false -> dict_get k (dict_set k' v d) = dict_get k d.
Proof.
  intros Hk. induction d as [|[k0 v0] d IH]; simpl.
  - rewrite Hk. reflexivity.
  - destruct (PyStr.eqb k' k0) eqn:E; simpl.
    + destruct (PyStr.eqb k k0) eqn:E0; [|reflexivity].
      (* k = k0 and k' = k0 would make k = k' *)
      exfalso. revert E E0 Hk. clear.
      revert k' k0. induction k as [|c r IH]; intros [|c' r'] [|c0 r0]; simpl;
        try discriminate.
      rewrite !andb_true_iff, andb_false_iff, !N.eqb_eq, N.eqb_neq.
      intros [-> H1] [-> H2] [H|H]; [congruence|].
      exact (IH _ _ H1 H2 H).
    + destruct (PyStr.eqb k k0); [reflexivity | exact IH].
Qed.

(** The invariant, as an assertion on pipeline states. *)
Definition inv : pstate -> Prop := has_steps.

Lemma triple_lift_net {A} (m : M world A) :
  triple inv (lift_net m) (fun _ => inv) inv.
Proof.
  intros s H. unfold lift_net. destruct (m (net s)) as [w' [a|e]]; exact H.
Qed.

Lemma triple_get_stat k :
  triple inv (get_stat k) (fun _ => inv) inv.
Proof.
  intros s H. unfold get_stat. destruct (dict_get (py k) (stats s)); exact H.
Qed.

Lemma triple_set_stat k v :
  PyStr.eqb (py "processing_steps") (py k) = false ->
  triple inv (set_stat k v) (fun _ => inv) inv.
Proof.
  intros Hk s [l Hl]. exists l. cbn [set_stat stats fst].
  rewrite dict_get_set_other; assumption.
Qed.

Lemma triple_append_step tag :
  triple inv (append_step tag) (fun _ => inv) inv.
Proof.
  intros s [l Hl]. unfold append_step, bind, get_stat. rewrite Hl.
  eexists. cbn [set_stat stats]. apply dict_get_set_same.
Qed.

Lemma clean_textual v v' : call_clean_final_text v = Ok v' -> textual v'.
Proof.
  destruct v as [|b|z|q|s|l|d]; cbn;
    try (intros H; injection H as <-; right; reflexivity);
    try (intros H; injection H as <-; left; eexists; reflexivity).
  - destruct b; [discriminate | intros H; injection H as <-; right; reflexivity].
  - destruct (Z.eqb z 0) eqn:E; cbn; [|discriminate].
    intros H; injection H as <-. right. cbn. rewrite E. reflexivity.
  - destruct (is_zero q) eqn:E; cbn; [|discriminate].
    intros H; injection H as <-. right. cbn. rewrite E. reflexivity.
  - destruct l; [|discriminate]. intros H; injection H as <-. right; reflexivity.
  - destruct d; [|discriminate]. intros H; injection H as <-. right; reflexivity.
Qed.


Lemma triple_lift_result_inv {A} (r : result A) :
  triple inv (lift_result r) (fun _ => inv) inv.
Proof.
  eapply triple_post; [|apply triple_lift_result]. intros a s [H _]. exact H.
Qed.

Lemma triple_ret_inv {A} (a : A) : triple inv (ret a) (fun _ => inv) inv.
Proof. intros s H. exact H. Qed.

(** One more statement of the sequence, the invariant in between. *)
Ltac next_statement := apply triple_bind with (R := fun _ => inv); [|intros ?].

Ltac keeps_invariant :=
  repeat match goal with
         | |- triple _ (ret _) _ _ => apply triple_ret_inv
         | |- triple _ (lift_net _) _ _ => apply triple_lift_net
         | |- triple _ (get_stat _) _ _ => apply triple_get_stat
         | |- triple _ (append_step _) _ _ => apply triple_append_step
         | |- triple _ (lift_result _) _ _ => apply triple_lift_result_inv
         | |- triple _ (set_stat _ _) _ _ => apply triple_set_stat; reflexivity
         | |- triple _ (if _ then _ else _) _ _ => apply triple_if; intros _
         | |- triple _ (bind _ _) _ _ => next_statement
         end.

Section Body.

Variable paraphrase_text : str -> value -> M world (value * value).
Variable rewrite_text : str -> value -> M world (value * value).
Variable get_current_model : M world value.

Lemma paraphrasing_step_invariant current_text paraphrase_model :
  triple inv
    (paraphrasing_step paraphrase_text get_current_model current_text paraphrase_model)
    (fun _ => inv) inv.
Proof.
  unfold paraphrasing_step.
  next_statement; [apply triple_lift_net|].
  match goal with p : (value * value)%type |- _ => destruct p as [paraphrased err] end.
  keeps_invariant.
Qed.

Lemma humanize_body_invariant text use_paraphrasing use_enhanced paraphrase_model :
  triple inv
    (humanize_body paraphrase_text rewrite_text get_current_model
       text use_paraphrasing use_enhanced paraphrase_model)
    (fun v s => inv s /\ textual v) inv.
Proof.
  unfold humanize_body.
  next_statement.
  { apply triple_if; intros _;
      [apply paraphrasing_step_invariant | apply triple_ret_inv]. }
  next_statement; [apply triple_lift_net|].
  match goal with p : (value * value)%type |- _ => destruct p as [rewritten err] end.
  next_statement; [keeps_invariant|].
  (* the cleaned text is a str or falsy, and stays so to the end *)
  eapply triple_bind; [apply triple_lift_result|]. intros cleaned.
  apply triple_fact. intros Hclean. apply clean_textual in Hclean.
  do 7 (next_statement; [solve [keeps_invariant]|]).
  intros s H. split; assumption.
Qed.

End Body.

End PipelineInvariant.

(* --------------------------------------------------------------------- *)
(** ** The orchestrator *)
(* --------------------------------------------------------------------- *)

Module PipelineFacts.
Import ApiExternal Index Triples PipelineInvariant.

Definition tags (steps : list string) : value :=
  VList (map (fun t => VStr (py t)) steps).

(** The statistics of a completed run. *)
Definition completed_stats (text : str) (use_enhanced_rewriting : value)
    (used : bool) (model : value) (steps : list string) (final : str) : value :=
  VDict [ (py "original_length", VInt (len text));
          (py "paraphrasing_used", VBool used);
          (py "enhanced_rewriting_used", use_enhanced_rewriting);
          (py "model_used", model);
          (py "processing_steps", tags steps);
          (py "final_length", VInt (len final));
          (py "length_change", VInt (len final - len text)) ].

(** The statistics handed back after an exception [e], from the statistics
    [st] accumulated until then. *)
Definition annotated_stats (st : dict) (steps : list value) (e : exn) : value :=
  VDict (dict_set (py "processing_steps") (VList (steps ++ [VStr (py "error")]))
           (dict_set (py "error") (VStr (exn_msg e)) st)).

(** [current_text[2:]] when it starts with [": "]. *)
Definition without_prefix (s : str) : str :=
  if startswith (py ": ") s then skipn 2 s else s.

(** A paraphrase result is a soft failure: an error came with it, or the
    text is empty or blank. *)
Definition soft_failure (paraphrased err : value) : bool :=
  truthy err || negb (truthy paraphrased) ||
  match paraphrased with
  | VStr s => negb (truthy (VStr (strip s)))
  | _ => false
  end.

Section Pipeline.

Variable paraphrase_text : str -> value -> M world (value * value).
Variable rewrite_text : str -> value -> M world (value * value).
Variable get_current_model : M world value.

Variable text : str.
Variables use_paraphrasing use_enhanced_rewriting paraphrase_model : value.

(** The start of the [try] block. *)
Definition start (w : world) : pstate :=
  mk_pstate (initial_stats text use_enhanced_rewriting) w.

Lemma start_has_steps w : has_steps (start w).
Proof. exists []. reflexivity. Qed.

(** The orchestrator returns, whatever the imported functions do, and what
    it returns as text is a str or falsy. *)
Lemma humanize_text_returns IMPORTS_AVAILABLE w :
  exists w' v st,
    humanize_text IMPORTS_AVAILABLE paraphrase_text rewrite_text get_current_model
      text use_paraphrasing use_enhanced_rewriting paraphrase_model w
    = (w', Ok (v, st)) /\ textual v.
Proof.
  unfold humanize_text. destruct IMPORTS_AVAILABLE; cbn [negb].
  - pose proof (@humanize_body_invariant paraphrase_text rewrite_text
                  get_current_model text use_paraphrasing
                  use_enhanced_rewriting paraphrase_model
                  (start w) (start_has_steps w)) as H.
    fold (start w).
    destruct (humanize_body _ _ _ _ _ _ _ (start w)) as [s [v|e]].
    + destruct H as [_ Hv]. eexists _, _, _. split; [reflexivity | exact Hv].
    + destruct H as [l Hl]. unfold error_stats. rewrite Hl.
      eexists _, _, _. split; [reflexivity|]. left. eexists; reflexivity.
  - eexists _, _, _. split; [reflexivity|]. left. eexists; reflexivity.
Qed.

(** When the [try] block raises, the [except] clause answers with the
    original text and the statistics of that moment, annotated. *)
Lemma humanize_text_on_exception w s e :
  humanize_body paraphrase_text rewrite_text get_current_model
    text use_paraphrasing use_enhanced_rewriting paraphrase_model (start w)
  = (s, Raise e) ->
  exists steps,
    dict_get (py "processing_steps") (stats s) = Some (VList steps) /\
    humanize_text true paraphrase_text rewrite_text get_current_model
      text use_paraphrasing use_enhanced_rewriting paraphrase_model w
    = (net s, Ok (VStr text, annotated_stats (stats s) steps e)).
Proof.
  intros Hbody.
  pose proof (@humanize_body_invariant paraphrase_text rewrite_text
                get_current_model text use_paraphrasing
                use_enhanced_rewriting paraphrase_model
                (start w) (start_has_steps w)) as H.
  rewrite Hbody in H. destruct H as [l Hl]. exists l. split; [exact Hl|].
  unfold humanize_text. cbn [negb]. fold (start w). rewrite Hbody.
  unfold error_stats. rewrite Hl. reflexivity.
Qed.

(** *** Runs without exception *)

Inductive paraphrase_phase (w : world)
  : str -> bool -> value -> list string -> world -> Prop :=
| paraphrasing_disabled :
    truthy use_paraphrasing = false ->
    paraphrase_phase w text false VNone [] w
| paraphrasing_failed paraphrased err w1 :
    truthy use_paraphrasing = true ->
    paraphrase_text text paraphrase_model w = (w1, Ok (paraphrased, err)) ->
    soft_failure paraphrased err = true ->
    paraphrase_phase w text false VNone ["paraphrasing_failed"%string] w1
| paraphrasing_succeeded paraphrased err w1 model w2 :
    truthy use_paraphrasing = true ->
    paraphrase_text text paraphrase_model w = (w1, Ok (VStr paraphrased, err)) ->
    soft_failure (VStr paraphrased) err = false ->
    get_current_model w1 = (w2, Ok model) ->
    paraphrase_phase w (without_prefix paraphrased) true model
      ["paraphrasing"%string] w2.

Inductive rewrite_phase (current_text : str) (w : world)
  : str -> string -> world -> Prop :=
| rewriting_failed rewritten err w' :
    rewrite_text current_text use_enhanced_rewriting w = (w', Ok (rewritten, err)) ->
    truthy err = true ->
    rewrite_phase current_text w current_text "rewriting_failed" w'
| rewriting_succeeded rewritten err w' :
    rewrite_text current_text use_enhanced_rewriting w = (w', Ok (VStr rewritten, err)) ->
    truthy err = false ->
    rewrite_phase current_text w rewritten "rewriting" w'.

(** Evaluate the statistics bookkeeping of the pipeline. *)
Ltac bookkeeping :=
  cbn -[len clean_final_text strip startswith skipn Z.sub without_prefix].

Lemma first_phase w current used model steps w1 :
  paraphrase_phase w current used model steps w1 ->
  (if truthy use_paraphrasing
   then paraphrasing_step paraphrase_text get_current_model text paraphrase_model
   else ret text) (start w)
  = (mk_pstate
       [ (py "original_length", VInt (len text));
         (py "paraphrasing_used", VBool used);
         (py "enhanced_rewriting_used", use_enhanced_rewriting);
         (py "model_used", model);
         (py "processing_steps", tags steps) ] w1,
     Ok current).
Proof.
  intros [Hup | p err w1' Hup Hp Hsoft | p err w1' m w2 Hup Hp Hsoft Hm];
    rewrite Hup; [reflexivity| |].
  - unfold paraphrasing_step, bind at 1, lift_net at 1. cbn [net stats start].
    rewrite Hp.
    unfold soft_failure in Hsoft.
    destruct (truthy err); [reflexivity|].
    destruct (truthy p) eqn:Ht; [|reflexivity].
    destruct p as [|b|z|q|s|l|d]; try discriminate Hsoft.
    cbn [orb negb] in Hsoft. bookkeeping.
    unfold bind at 1. bookkeeping.
    destruct (strip s); [reflexivity | discriminate Hsoft].
  - unfold paraphrasing_step, bind at 1, lift_net at 1. cbn [net stats start].
    rewrite Hp.
    unfold soft_failure in Hsoft.
    apply orb_false_iff in Hsoft. destruct Hsoft as [Hsoft Hblank].
    apply orb_false_iff in Hsoft. destruct Hsoft as [Herr Hp'].
    apply negb_false_iff in Hp'.
    rewrite Herr, Hp'. bookkeeping. unfold bind at 1. bookkeeping.
    destruct (strip p); [discriminate Hblank|].
    unfold bind at 1, lift_net at 1. bookkeeping.
    rewrite Hm. reflexivity.
Qed.

(** A run in which no exception occurs. *)
Lemma pipeline_run w current used model steps w1 final tag w2 :
  paraphrase_phase w current used model steps w1 ->
  rewrite_phase current w1 final tag w2 ->
  humanize_text true paraphrase_text rewrite_text get_current_model
    text use_paraphrasing use_enhanced_rewriting paraphrase_model w
  = (w2, Ok (VStr (clean_final_text final),
             completed_stats text use_enhanced_rewriting used model
               (steps ++ [tag; "text_cleaning"%string]) (clean_final_text final))).
Proof.
  intros Hp Hr.
  unfold humanize_text, humanize_body. cbn [negb]. fold (start w).
  unfold bind at 1. rewrite (first_phase Hp).
  unfold bind at 1, lift_net at 1. cbn [net stats].
  destruct Hr as [r err w' Hr Herr | r err w' Hr Herr]; rewrite Hr, Herr;
    destruct Hp; reflexivity.
Qed.

Lemma paraphrase_failure_keeps_text w current used model w1 :
  paraphrase_phase w current used model ["paraphrasing_failed"%string] w1 ->
  current = text /\ used = false.
Proof. intros H. inversion H; subst; split; reflexivity. Qed.

Lemma rewrite_failure_keeps_text current w final w' :
  rewrite_phase current w final "rewriting_failed" w' -> final = current.
Proof. intros H. inversion H; subst; reflexivity. Qed.

End Pipeline.
End PipelineFacts.

(* --------------------------------------------------------------------- *)
(** ** The HTTP handler *)
(* --------------------------------------------------------------------- *)

Module HandlerFacts.
Import ApiExternal Index PipelineInvariant PipelineFacts.

(** [body.get(k, default)] on the entries of the parsed body. *)
Definition option_of (d : dict) (k : string) (default : value) : value :=
  match dict_get (py k) d with
  | Some v => v
  | None => default
  end.

(** The text is blank for the handler: falsy, or nothing but whitespace. *)
Definition blank (v : value) : bool :=
  negb (truthy v) ||
  match v with
  | VStr s => negb (truthy (VStr (strip s)))
  | _ => false
  end.

(** What the handler puts into [humanized_text]. *)
Definition delivered (text : str) (v : value) : value :=
  if blank v then VStr text else v.

Definition humanize_response (humanized_text stats : value) : response :=
  respond 200 [ (py "humanized_text", humanized_text);
                (py "success", VBool true);
                (py "statistics", stats) ].

Definition internal_server_error : response :=
  respond 500 [ (py "error", VStr (py "Internal server error"));
                (py "success", VBool false) ].

Section Handler.

Variable IMPORTS_AVAILABLE : bool.
Variable paraphrase_text : str -> value -> M world (value * value).
Variable rewrite_text : str -> value -> M world (value * value).
Variable get_current_model : M world value.
Variable get_available_models : M world value.
Variable get_device_info : M world value.
Variable time_time : M world value.
Variable json_loads : str -> result value.
Variable route_detect : value -> M world response.
Variable route_humanize_and_check : value -> M world response.

Definition the_handler : event -> M world response :=
  handler IMPORTS_AVAILABLE paraphrase_text rewrite_text get_current_model
    get_available_models get_device_info time_time json_loads
    route_detect route_humanize_and_check.

Definition the_route : value -> M world response :=
  route_humanize IMPORTS_AVAILABLE paraphrase_text rewrite_text get_current_model.

(** A POST request to [/humanize]. *)
Definition posts_to_humanize (ev : event) : Prop :=
  ev_httpMethod ev = Some (VStr (py "POST")) /\
  exists p, ev_path ev = Some (VStr p) /\ rstrip_slash p = py "/humanize".

(** The body is absent, or it is a string that [json.loads] rejects. *)
Definition body_unparsed (ev : event) : Prop :=
  truthy (ev_body ev) = false \/
  exists s e, ev_body ev = VStr s /\ json_loads s = Raise e.

(** A request that passes validation: the parsed body is an object whose
    text, stripped, has between 10 and 50000 characters. *)
Definition valid_request (ev : event) (d : dict) (text : str) : Prop :=
  posts_to_humanize ev /\
  parse_body json_loads ev = VDict d /\
  (exists raw, dict_get (py "text") d = Some (VStr raw) /\ strip raw = text) /\
  (10 <= len text <= 50000)%Z.

Lemma handler_routes_to_humanize ev :
  posts_to_humanize ev ->
  the_handler ev
  = try_except (the_route (parse_body json_loads ev))
               (fun _ => ret internal_server_error).
Proof.
  intros [Hm (p & Hp & Hr)]. unfold the_handler, handler.
  rewrite Hm, Hp. cbn [opt_eq eq_str].
  replace (PyStr.eqb (py "POST") (py "OPTIONS")) with false by reflexivity.
  unfold bind at 1. cbn [str_method lift_result]. rewrite Hr. reflexivity.
Qed.

Lemma parse_body_unparsed ev :
  body_unparsed ev -> parse_body json_loads ev = VDict [].
Proof.
  unfold parse_body. intros [H | (s & e & Hs & He)].
  - rewrite H. reflexivity.
  - rewrite Hs, He. destruct (truthy (VStr s)); reflexivity.
Qed.

Lemma route_without_text w :
  the_route (VDict []) w
  = (w, Ok (if IMPORTS_AVAILABLE
            then respond 400 (error_body "Text field is required")
            else respond 500 modules_unavailable)).
Proof. unfold the_route, route_humanize. destruct IMPORTS_AVAILABLE; reflexivity. Qed.

Lemma route_valid d raw w w' v st :
  IMPORTS_AVAILABLE = true ->
  dict_get (py "text") d = Some (VStr raw) ->
  (10 <= len (strip raw) <= 50000)%Z ->
  humanize_text IMPORTS_AVAILABLE paraphrase_text rewrite_text get_current_model
    (strip raw) (option_of d "paraphrasing" (VBool true))
    (option_of d "enhanced" (VBool true)) (option_of d "model" VNone) w
  = (w', Ok (v, st)) ->
  textual v ->
  the_route (VDict d) w = (w', Ok (humanize_response (delivered (strip raw) v) st)).
Proof.
  intros HI Ht [Hlo Hhi] Hrun Hv.
  unfold the_route, route_humanize. rewrite HI. cbn [negb].
  unfold bind at 1. cbn [py_in lift_result]. rewrite Ht. cbn [negb].
  unfold bind at 1. cbn [method_get lift_result]. rewrite Ht.
  unfold bind at 1. cbn [str_method lift_result].
  assert (Hne : truthy (VStr (strip raw)) = true).
  { destruct (strip raw); [cbn in Hlo; lia | reflexivity]. }
  rewrite Hne. cbn [negb].
  apply Z.ltb_ge in Hlo. rewrite Hlo.
  assert (Hgt : (len (strip raw) >? 50000)%Z = false).
  { rewrite Z.gtb_ltb. apply Z.ltb_ge. exact Hhi. }
  rewrite Hgt.
  unfold bind at 1. cbn [method_get lift_result].
  unfold bind at 1. cbn [method_get lift_result].
  unfold bind at 1. cbn [method_get lift_result].
  unfold bind at 1. fold (option_of d "paraphrasing" (VBool true)).
  fold (option_of d "enhanced" (VBool true)). fold (option_of d "model" VNone).
  rewrite HI in Hrun. rewrite Hrun.
  unfold humanize_response, delivered, blank.
  destruct Hv as [[s ->] | Hv].
  - destruct (truthy (VStr s)); cbn [negb orb]; [|reflexivity].
    unfold bind at 1. cbn [str_method lift_result]. reflexivity.
  - rewrite Hv. reflexivity.
Qed.

End Handler.
End HandlerFacts.

Import StepFacts PipelineFacts HandlerFacts.

Unset Implicit Arguments.

(* --------------------------------------------------------------------- *)
(** ** Sample deployments and requests *)
(* --------------------------------------------------------------------- *)

Definition sample_request_text : str := py "This is a sample text to humanize.".

Definition sample_event : Index.event :=
  Index.mk_event (Some (VStr (py "POST"))) (Some (VStr (py "/humanize")))
    (VDict [ (py "text", VStr sample_request_text) ]).

(** A request whose body is not JSON. *)
Definition garbled_event : Index.event :=
  Index.mk_event (Some (VStr (py "POST"))) (Some (VStr (py "/humanize"))) (VStr (py "{not json")).

(** A [json.loads] that rejects the garbled body. *)
Definition strict_json_loads (s : str) : result value :=
  if PyStr.eqb s (py "{}") then Ok (VDict [])
  else Raise (mk_exn "JSONDecodeError" (py "Expecting property name")).

Definition no_model : M ApiExternal.world value := ret VNone.

Definition no_route : value -> M ApiExternal.world Index.response :=
  fun _ => raise (Exception "route not exercised").

(** A paraphraser that crashes, one that reports a timeout, and a rewriter
    that succeeds. *)
Definition crashing_paraphraser : str -> value -> M ApiExternal.world (value * value) :=
  fun _ _ => raise (Exception "paraphraser crashed").

Definition timing_out_paraphraser : str -> value -> M ApiExternal.world (value * value) :=
  fun text _ => ret (VStr text, VStr (py "timeout")).

Definition working_rewriter : str -> value -> M ApiExternal.world (value * value) :=
  fun _ _ => ret (VStr (py "A rewritten text , as a person would put it ."), VStr (py "")).

(** A remote model that answers with a list holding an empty object. *)
Definition remote_empty_object : ApiExternal.world -> ApiExternal.request -> result value :=
  fun _ _ => Ok (VList [VDict []]).

Lemma sample_event_valid json_loads :
  valid_request json_loads sample_event
    [ (py "text", VStr sample_request_text) ] sample_request_text.
Proof.
  split; [split; [reflexivity | eexists; split; reflexivity]|].
  split; [reflexivity|].
  split; [exists sample_request_text; split; reflexivity|].
  split; intro H; discriminate H.
Qed.

(* --------------------------------------------------------------------- *)
(** ** C1, C2: the resilience contract of the orchestrator *)
(* --------------------------------------------------------------------- *)

(** C1.  The pipeline never raises.  When an exception occurs inside its
    [try] block, it returns the original text with the statistics of that
    moment, an [error] field added and ["error"] appended to
    [processing_steps]; and a request that passed validation is answered
    with status 200, in that case with the original text and the annotated
    statistics. *)
Theorem C1_pipeline_never_raises :
  forall (IMPORTS_AVAILABLE : bool)
         (paraphrase_text rewrite_text : str -> value -> M ApiExternal.world (value * value))
         (get_current_model : M ApiExternal.world value),
    (forall text use_paraphrasing use_enhanced paraphrase_model w,
       exists w' v st,
         Index.humanize_text IMPORTS_AVAILABLE paraphrase_text rewrite_text
           get_current_model text use_paraphrasing use_enhanced paraphrase_model w
         = (w', Ok (v, st))) /\
    (forall text use_paraphrasing use_enhanced paraphrase_model w s e,
       IMPORTS_AVAILABLE = true ->
       Index.humanize_body paraphrase_text rewrite_text get_current_model
         text use_paraphrasing use_enhanced paraphrase_model
         (start text use_enhanced w) = (s, Raise e) ->
       exists steps,
         dict_get (py "processing_steps") (Index.stats s) = Some (VList steps) /\
         Index.humanize_text IMPORTS_AVAILABLE paraphrase_text rewrite_text
           get_current_model text use_paraphrasing use_enhanced paraphrase_model w
         = (Index.net s,
            Ok (VStr text, annotated_stats (Index.stats s) steps e))) /\
    (forall get_available_models get_device_info time_time json_loads
            route_detect route_humanize_and_check ev d text w,
       IMPORTS_AVAILABLE = true ->
       valid_request json_loads ev d text ->
       exists w' resp,
         Index.handler IMPORTS_AVAILABLE paraphrase_text rewrite_text
           get_current_model get_available_models get_device_info time_time
           json_loads route_detect route_humanize_and_check ev w
         = (w', Ok resp) /\
         Index.statusCode resp = 200%Z /\
         (forall s e,
            Index.humanize_body paraphrase_text rewrite_text get_current_model
              text (option_of d "paraphrasing" (VBool true))
              (option_of d "enhanced" (VBool true)) (option_of d "model" VNone)
              (start text (option_of d "enhanced" (VBool true)) w) = (s, Raise e) ->
            exists steps,
              dict_get (py "processing_steps") (Index.stats s) = Some (VList steps) /\
              resp = humanize_response (VStr text)
                       (annotated_stats (Index.stats s) steps e))).
Proof.
  intros IMPORTS_AVAILABLE paraphrase_text rewrite_text get_current_model.
  split; [|split].
  - intros text up ue pm w.
    destruct (humanize_text_returns paraphrase_text rewrite_text
                get_current_model text up ue pm IMPORTS_AVAILABLE w)
      as (w' & v & st & H & _).
    exists w', v, st. exact H.
  - intros text up ue pm w s e -> Hbody.
    exact (humanize_text_on_exception _ _ _ _ _ _ _ _ Hbody).
  - intros gam gdi tt jl rd rhc ev d text w HI
           (Hpost & Hbody & (raw & Hraw & Hstrip) & Hlen).
    subst text.
    destruct (humanize_text_returns paraphrase_text rewrite_text
                get_current_model (strip raw)
                (option_of d "paraphrasing" (VBool true))
                (option_of d "enhanced" (VBool true))
                (option_of d "model" VNone) IMPORTS_AVAILABLE w)
      as (w' & v & st & Hrun & Hv).
    exists w', (humanize_response (delivered (strip raw) v) st).
    split; [|split; [reflexivity|]].
    + pose proof (handler_routes_to_humanize IMPORTS_AVAILABLE paraphrase_text
                    rewrite_text get_current_model gam gdi tt jl rd rhc Hpost) as Hh.
      unfold the_handler in Hh. rewrite Hh, Hbody.
      unfold try_except.
      pose proof (@route_valid IMPORTS_AVAILABLE paraphrase_text rewrite_text
                    get_current_model d raw w w' v st HI Hraw Hlen Hrun Hv) as Hr.
      rewrite Hr. reflexivity.
    + intros s e Hraise. subst IMPORTS_AVAILABLE.
      destruct (humanize_text_on_exception _ _ _ _ _ _ _ _ Hraise)
        as (steps & Hsteps & Hret).
      exists steps. split; [exact Hsteps|].
      rewrite Hret in Hrun. injection Hrun as _ <- <-.
      unfold delivered, blank. destruct (_ || _); reflexivity.
Qed.

(** The statistics of the sample request when the paraphraser crashes. *)
Definition crash_stats : value :=
  VDict [ (py "original_length", VInt 34);
          (py "paraphrasing_used", VBool false);
          (py "enhanced_rewriting_used", VBool true);
          (py "model_used", VNone);
          (py "processing_steps", VList [VStr (py "error")]);
          (py "error", VStr (py "paraphraser crashed")) ].

(** C1 at a deployment whose paraphraser crashes: the pipeline returns the
    sample text with the annotated statistics, and the sample request is
    answered with status 200. *)
Lemma C1_pipeline_never_raises_witness :
  Index.humanize_text true crashing_paraphraser working_rewriter no_model
    sample_request_text (VBool true) (VBool true) VNone []
  = ([], Ok (VStr sample_request_text, crash_stats)) /\
  exists w' resp,
    Index.handler true crashing_paraphraser working_rewriter no_model
      no_model no_model no_model strict_json_loads no_route no_route
      sample_event [] = (w', Ok resp) /\
    Index.statusCode resp = 200%Z /\
    resp = humanize_response (VStr sample_request_text) crash_stats.
Proof.
  destruct (C1_pipeline_never_raises true crashing_paraphraser working_rewriter no_model)
    as (_ & Hexcept & Hhttp).
  pose (s := start sample_request_text (VBool true) []).
  pose (e := Exception "paraphraser crashed").
  split.
  - destruct (Hexcept sample_request_text (VBool true) (VBool true) VNone []
                s e eq_refl eq_refl) as (steps & Hsteps & Hret).
    injection Hsteps as <-. exact Hret.
  - destruct (Hhttp no_model no_model no_model strict_json_loads no_route no_route
                sample_event [ (py "text", VStr sample_request_text) ]
                sample_request_text [] eq_refl
                (sample_event_valid strict_json_loads))
      as (w' & resp & Hh & Hs & Herr).
    destruct (Herr s e eq_refl) as (steps & Hsteps & Hresp).
    injection Hsteps as <-.
    exists w', resp. split; [exact Hh|]. split; [exact Hs | exact Hresp].
Defined.

(** C2.  Step failures are soft, and ordered.  A run is described by its two
    phases.  When paraphrasing fails, the working text stays the input text,
    ["paraphrasing_failed"] is recorded and [paraphrasing_used] stays false;
    when rewriting fails, the text that is cleaned is the text from before
    the rewrite (the paraphrase with its [": "] prefix removed, or the input);
    cleaning is applied in every case and ["text_cleaning"] is recorded
    last. *)
Theorem C2_soft_failures :
  forall (paraphrase_text rewrite_text : str -> value -> M ApiExternal.world (value * value))
         (get_current_model : M ApiExternal.world value)
         text use_paraphrasing use_enhanced paraphrase_model
         w current used model steps w1 final tag w2,
    paraphrase_phase paraphrase_text get_current_model text use_paraphrasing
      paraphrase_model w current used model steps w1 ->
    rewrite_phase rewrite_text use_enhanced current w1 final tag w2 ->
    Index.humanize_text true paraphrase_text rewrite_text get_current_model
      text use_paraphrasing use_enhanced paraphrase_model w
    = (w2, Ok (VStr (clean_final_text final),
               completed_stats text use_enhanced used model
                 (steps ++ [tag; "text_cleaning"%string])
                 (clean_final_text final))) /\
    (steps = ["paraphrasing_failed"%string] -> current = text /\ used = false) /\
    (tag = "rewriting_failed"%string -> final = current).
Proof.
  intros paraphrase_text rewrite_text get_current_model
         text up ue pm w current used model steps w1 final tag w2 Hp Hr.
  split; [exact (pipeline_run Hp Hr)|]. split.
  - intros ->. exact (paraphrase_failure_keeps_text Hp).
  - intros ->. exact (rewrite_failure_keeps_text Hr).
Qed.

(** C2 at a run whose paraphraser times out and whose rewriter works: the
    steps are ["paraphrasing_failed"], ["rewriting"], ["text_cleaning"], and
    [paraphrasing_used] is false. *)
Lemma C2_soft_failures_witness :
  Index.humanize_text true timing_out_paraphraser working_rewriter no_model
    sample_request_text (VBool true) (VBool true) VNone []
  = ([], Ok (VStr (py "A rewritten text, as a person would put it."),
             completed_stats sample_request_text (VBool true) false VNone
               ["paraphrasing_failed"; "rewriting"; "text_cleaning"]%string
               (py "A rewritten text, as a person would put it."))).
Proof.
  pose proof (C2_soft_failures timing_out_paraphraser working_rewriter no_model
                sample_request_text (VBool true) (VBool true) VNone
                [] sample_request_text false VNone ["paraphrasing_failed"%string] []
                (py "A rewritten text , as a person would put it .")
                "rewriting" []
                (paraphrasing_failed timing_out_paraphraser no_model
                   sample_request_text (VBool true) VNone []
                   (paraphrased := VStr sample_request_text)
                   (err := VStr (py "timeout")) (w1 := [])
                   eq_refl eq_refl eq_refl)
                (rewriting_succeeded working_rewriter (VBool true)
                   sample_request_text []
                   (rewritten := py "A rewritten text , as a person would put it .")
                   (err := VStr (py "")) (w' := [])
                   eq_refl eq_refl)) as [H _].
  exact H.
Defined.

(* --------------------------------------------------------------------- *)
(** ** C6, C7: the remote client and its failures *)
(* --------------------------------------------------------------------- *)

(** C6 as the claim states it, at a deployment without credential: the
    answer to a request that passed validation is a 500-class error. *)
Definition C6_as_stated remote get_current_model json_loads
    (ev : Index.event) (w : ApiExternal.world) : Prop :=
  forall resp,
    snd (Index.handler true
           (ApiExternal.paraphrase_text (py "") remote)
           (ApiExternal.rewrite_text (py "") remote)
           get_current_model no_model no_model no_model json_loads
           no_route no_route ev w) = Ok resp ->
    (500 <= Index.statusCode resp)%Z.

(** C6 (as stated, refuted).  Without credential the sample request is
    answered with status 200. *)
Lemma C6_counterexample :
  ~ C6_as_stated remote_score_three no_model strict_json_loads sample_event [].
Proof.
  intros H. specialize (H _ eq_refl). vm_compute in H. apply H. reflexivity.
Qed.

(** The steps recorded when both remote steps fail softly. *)
Definition failed_steps (use_paraphrasing : value) : list string :=
  (if truthy use_paraphrasing then ["paraphrasing_failed"%string] else [])
  ++ ["rewriting_failed"%string; "text_cleaning"%string].

(** C6 (amended).  Without credential the remote client raises its
    configuration error before any request is sent.  The paraphrase and the
    rewrite step catch it and return the input text with the error message,
    a soft failure.  The orchestrator therefore records both steps as
    failed, and a request that passed validation is answered with status 200
    and the cleaned input text, not with a 500-class error. *)
Theorem C6_missing_credential :
  forall remote,
    (forall model_id inputs parameters w,
       ApiExternal.call_hf_api (py "") remote model_id inputs parameters w
       = (w, Raise MISSING_CREDENTIAL)) /\
    (forall text model_name w,
       ApiExternal.paraphrase_text (py "") remote text model_name w
       = (w, Ok (VStr text, VStr (exn_msg MISSING_CREDENTIAL)))) /\
    (forall text enhanced w,
       ApiExternal.rewrite_text (py "") remote text enhanced w
       = (w, Ok (VStr text, VStr (exn_msg MISSING_CREDENTIAL)))) /\
    (forall get_current_model get_available_models get_device_info time_time
            json_loads route_detect route_humanize_and_check ev d text w,
       valid_request json_loads ev d text ->
       Index.handler true
         (ApiExternal.paraphrase_text (py "") remote)
         (ApiExternal.rewrite_text (py "") remote)
         get_current_model get_available_models get_device_info time_time
         json_loads route_detect route_humanize_and_check ev w
       = (w, Ok (humanize_response
                   (delivered text (VStr (clean_final_text text)))
                   (completed_stats text (option_of d "enhanced" (VBool true))
                      false VNone
                      (failed_steps (option_of d "paraphrasing" (VBool true)))
                      (clean_final_text text))))).
Proof.
  intros remote.
  assert (Hpar : forall text model_name w,
             ApiExternal.paraphrase_text (py "") remote text model_name w
             = (w, Ok (VStr text, VStr (exn_msg MISSING_CREDENTIAL))))
    by (intros; rewrite paraphrase_text_cases; reflexivity).
  assert (Hrew : forall text enhanced w,
             ApiExternal.rewrite_text (py "") remote text enhanced w
             = (w, Ok (VStr text, VStr (exn_msg MISSING_CREDENTIAL))))
    by (intros; rewrite rewrite_text_cases; reflexivity).
  split; [intros; rewrite call_hf_api_cases; reflexivity|].
  split; [exact Hpar|]. split; [exact Hrew|].
  intros gcm gam gdi tt jl rd rhc ev d text w
         (Hpost & Hbody & (raw & Hraw & Hstrip) & Hlen).
  subst text.
  pose proof (handler_routes_to_humanize true
                (ApiExternal.paraphrase_text (py "") remote)
                (ApiExternal.rewrite_text (py "") remote)
                gcm gam gdi tt jl rd rhc Hpost) as Hh.
  unfold the_handler in Hh. rewrite Hh, Hbody. unfold try_except.
  set (up := option_of d "paraphrasing" (VBool true)).
  set (ue := option_of d "enhanced" (VBool true)).
  set (pm := option_of d "model" VNone).
  assert (Hrun :
    Index.humanize_text true
      (ApiExternal.paraphrase_text (py "") remote)
      (ApiExternal.rewrite_text (py "") remote) gcm (strip raw) up ue pm w
    = (w, Ok (VStr (clean_final_text (strip raw)),
              completed_stats (strip raw) ue false VNone (failed_steps up)
                (clean_final_text (strip raw))))).
  { unfold failed_steps. destruct (truthy up) eqn:Hup.
    - apply (pipeline_run
               (paraphrase_text := ApiExternal.paraphrase_text (py "") remote)
               (current := strip raw) (w1 := w) (final := strip raw) (w2 := w)).
      + eapply paraphrasing_failed; [exact Hup | apply Hpar | reflexivity].
      + eapply rewriting_failed; [apply Hrew | reflexivity].
    - apply (pipeline_run
               (paraphrase_text := ApiExternal.paraphrase_text (py "") remote)
               (current := strip raw) (w1 := w) (final := strip raw) (w2 := w)).
      + apply paraphrasing_disabled. exact Hup.
      + eapply rewriting_failed; [apply Hrew | reflexivity]. }
  rewrite (@route_valid true _ _ gcm d raw w w _ _ eq_refl Hraw Hlen Hrun);
    [reflexivity|].
  left. eexists; reflexivity.
Qed.

(** C6 at the sample request: status 200 and both steps recorded as failed. *)
Lemma C6_missing_credential_witness :
  Index.handler true
    (ApiExternal.paraphrase_text (py "") remote_score_three)
    (ApiExternal.rewrite_text (py "") remote_score_three)
    no_model no_model no_model no_model strict_json_loads no_route no_route
    sample_event []
  = ([], Ok (humanize_response (VStr sample_request_text)
               (completed_stats sample_request_text (VBool true) false VNone
                  ["paraphrasing_failed"; "rewriting_failed"; "text_cleaning"]%string
                  sample_request_text))).
Proof.
  destruct (C6_missing_credential remote_score_three) as (_ & _ & _ & H).
  exact (H no_model no_model no_model no_model strict_json_loads no_route no_route
           sample_event _ _ [] (sample_event_valid strict_json_loads)).
Defined.

(** The parsed answer is an empty list, or its first element lacks the
    [generated_text] field. *)
Definition lacks_generated_text (answer : value) : bool :=
  match answer with
  | VList [] => true
  | VList (VDict d :: _) =>
      match dict_get (py "generated_text") d with
      | Some _ => false
      | None => true
      end
  | VList (_ :: _) => true
  | _ => false
  end.

(** C7 as the claim states it: such an answer makes the paraphrase step
    return a failure, that is a non-empty error. *)
Definition C7_as_stated (token : str) remote (text : str) (model_name : value)
    (w : ApiExternal.world) : Prop :=
  forall answer out err,
    remote w (paraphrase_request token text model_name) = Ok answer ->
    lacks_generated_text answer = true ->
    snd (ApiExternal.paraphrase_text token remote text model_name w) = Ok (out, err) ->
    truthy err = true.

(** C7 (as stated, refuted).  When the first element of the answer is an
    object without [generated_text], the step returns the input text with an
    empty error, which the orchestrator takes for a success. *)
Lemma C7_counterexample :
  ~ C7_as_stated sample_token remote_empty_object sample_text VNone [].
Proof.
  intros H.
  specialize (H (VList [VDict []]) (VStr sample_text) (VStr (py ""))
                eq_refl eq_refl eq_refl).
  discriminate H.
Qed.

(** C7 (amended).  Both steps return, and what they return is decided by
    what the remote client ended in: a failure of the client comes back as
    the input text with the client's message, unchanged; an answer that is
    not a non-empty list comes back as the failure "API returned unexpected
    format"; a first element that is not an object comes back as a failure
    with the message of the attribute error; a first element that is an
    object without [generated_text] comes back as the input text with an
    empty error; otherwise the generated text comes back with an empty
    error. *)
Theorem C7_step_outcomes :
  forall (token : str) remote (text : str) (model_name enhanced : value) w,
    (exists out,
       snd (ApiExternal.paraphrase_text token remote text model_name w) = Ok out /\
       step_outcome text
         (client_outcome token remote w (paraphrase_request token text model_name))
         out) /\
    (exists out,
       snd (ApiExternal.rewrite_text token remote text enhanced w) = Ok out /\
       step_outcome text
         (client_outcome token remote w (rewrite_request token text enhanced))
         out).
Proof.
  intros token remote text model_name enhanced w. split.
  - rewrite paraphrase_text_cases. eexists. split; [reflexivity|].
    apply step_result_outcome.
  - rewrite rewrite_text_cases. eexists. split; [reflexivity|].
    apply step_result_outcome.
Qed.

(* --------------------------------------------------------------------- *)
(** ** C10: a body that cannot be parsed *)
(* --------------------------------------------------------------------- *)

(** C10 as the claim states it: a POST to [/humanize] whose body is absent
    or is not JSON is answered with 400, "Text field is required". *)
Definition C10_as_stated (IMPORTS_AVAILABLE : bool) json_loads
    (ev : Index.event) (w : ApiExternal.world) : Prop :=
  posts_to_humanize ev ->
  body_unparsed json_loads ev ->
  snd (Index.handler IMPORTS_AVAILABLE crashing_paraphraser working_rewriter
         no_model no_model no_model no_model json_loads no_route no_route ev w)
  = Ok (Index.respond 400 (Index.error_body "Text field is required")).

(** C10 (as stated, refuted).  Where the backing modules could not be
    imported, the request is answered with 500, "Required modules not
    available". *)
Lemma C10_counterexample :
  ~ C10_as_stated false strict_json_loads garbled_event [].
Proof.
  intros H.
  assert (Hpost : posts_to_humanize garbled_event)
    by (split; [reflexivity | eexists; split; reflexivity]).
  assert (Hbody : body_unparsed strict_json_loads garbled_event)
    by (right; eexists _, _; split; reflexivity).
  specialize (H Hpost Hbody). vm_compute in H. discriminate H.
Qed.

(** C10 (amended).  A POST to [/humanize] whose body is absent or rejected
    by the JSON parser is handled with an empty object for a body, and no
    parse failure reaches the caller: where the backing modules are
    available the answer is 400, "Text field is required"; where they are
    not, the availability test comes first and the answer is 500, "Required
    modules not available".  The network is not touched. *)
Theorem C10_unparsed_body :
  forall (IMPORTS_AVAILABLE : bool) paraphrase_text rewrite_text get_current_model
         get_available_models get_device_info time_time json_loads
         route_detect route_humanize_and_check ev w,
    posts_to_humanize ev ->
    body_unparsed json_loads ev ->
    Index.parse_body json_loads ev = VDict [] /\
    Index.handler IMPORTS_AVAILABLE paraphrase_text rewrite_text get_current_model
      get_available_models get_device_info time_time json_loads
      route_detect route_humanize_and_check ev w
    = (w, Ok (if IMPORTS_AVAILABLE
              then Index.respond 400 (Index.error_body "Text field is required")
              else Index.respond 500 Index.modules_unavailable)).
Proof.
  intros IMPORTS_AVAILABLE paraphrase_text rewrite_text get_current_model
         gam gdi tt jl rd rhc ev w Hpost Hun.
  pose proof (parse_body_unparsed Hun) as Hbody.
  split; [exact Hbody|].
  pose proof (handler_routes_to_humanize IMPORTS_AVAILABLE paraphrase_text
                rewrite_text get_current_model gam gdi tt jl rd rhc Hpost) as Hh.
  unfold the_handler in Hh. rewrite Hh, Hbody. unfold try_except.
  rewrite route_without_text. reflexivity.
Qed.

(** C10 at the garbled request, with the backing modules available. *)
Lemma C10_unparsed_body_witness :
  Index.handler true crashing_paraphraser working_rewriter no_model no_model
    no_model no_model strict_json_loads no_route no_route garbled_event []
  = ([], Ok (Index.respond 400 (Index.error_body "Text field is required"))).
Proof.
  refine (proj2 (C10_unparsed_body true crashing_paraphraser working_rewriter
                   no_model no_model no_model no_model strict_json_loads
                   no_route no_route garbled_event [] _ _)).
  - split; [reflexivity | eexists; split; reflexivity].
  - right. exists (py "{not json"), (mk_exn "JSONDecodeError" (py "Expecting property name")).
    split; reflexivity.
Defined.

(* ===================================================================== *)
(** * Further properties of the code *)
(* ===================================================================== *)

(* --------------------------------------------------------------------- *)
(** ** The text normalizer: what the output looks like *)
(* --------------------------------------------------------------------- *)

Module NormalizerShape.
Import SpecNormalizer.

(** A space directly in front of a comma or a period occurs in [s]. *)
Fixpoint space_before_punct (s : str) : bool :=
  match s with
  | a :: (b :: _) as r => N.eqb a SPACE && is_punct b || space_before_punct r
  | _ => false
  end.

Definition head_is_punct (s : str) : bool :=
  match s with
  | c :: _ => is_punct c
  | [] => false
  end.

Definition not_space (c : N) : bool := negb (N.eqb c SPACE).

Definition dash_to_comma (c : N) : N := if N.eqb c EM_DASH then COMMA else c.

Lemma head_rule2 s : head_is_punct (rule2 s) = before_punct s.
Proof.
  induction s as [|c r IH]; [reflexivity|].
  simpl. rewrite before_punct_cons.
  destruct (N.eqb c SPACE) eqn:Hc; simpl.
  - destruct (before_punct r) eqn:Hb; [exact IH|].
    simpl. unfold is_punct. apply N.eqb_eq in Hc. subst c. reflexivity.
  - reflexivity.
Qed.

Lemma space_before_punct_cons c s :
  space_before_punct (c :: s)
  = N.eqb c SPACE && head_is_punct s || space_before_punct s.
Proof.
  destruct s as [|d s']; simpl; [|reflexivity].
  rewrite andb_false_r. reflexivity.
Qed.

Lemma rule2_clears s : space_before_punct (rule2 s) = false.
Proof.
  induction s as [|c r IH]; [reflexivity|].
  simpl. destruct (N.eqb c SPACE && before_punct r) eqn:Hd; [exact IH|].
  rewrite space_before_punct_cons, head_rule2, Hd, IH. reflexivity.
Qed.

Lemma split_space_before_punct pre c post :
  is_punct c = true -> space_before_punct (pre ++ SPACE :: c :: post) = true.
Proof.
  intros Hc. induction pre as [|a pre IH].
  - simpl. rewrite Hc. reflexivity.
  - change ((a :: pre) ++ SPACE :: c :: post)
      with (a :: (pre ++ SPACE :: c :: post)).
    rewrite space_before_punct_cons, IH. apply orb_true_r.
Qed.

Lemma run_before_punct c r :
  N.eqb c SPACE = true -> before_punct r = true ->
  space_before_punct (c :: r) = true.
Proof.
  intros Hc. revert c Hc. induction r as [|d r IH]; intros c Hc Hb.
  - discriminate Hb.
  - rewrite before_punct_cons in Hb.
    rewrite space_before_punct_cons.
    destruct (N.eqb d SPACE) eqn:Hd.
    + rewrite (IH d Hd Hb). apply orb_true_r.
    + simpl. rewrite Hc, Hb. reflexivity.
Qed.

Lemma rule2_fixes s : space_before_punct s = false -> rule2 s = s.
Proof.
  induction s as [|c r IH]; [reflexivity|].
  intros H. simpl.
  destruct (N.eqb c SPACE && before_punct r) eqn:Hd.
  - apply andb_true_iff in Hd. destruct Hd as [Hc Hb].
    rewrite (run_before_punct c r Hc Hb) in H. discriminate H.
  - f_equal. apply IH.
    rewrite space_before_punct_cons in H.
    apply orb_false_iff in H. exact (proj2 H).
Qed.

Lemma rule2_keeps_other_characters s :
  filter not_space (rule2 s) = filter not_space s.
Proof.
  induction s as [|c r IH]; [reflexivity|].
  assert (Hn : not_space c = negb (N.eqb c SPACE)) by reflexivity.
  cbn [rule2 filter].
  destruct (N.eqb c SPACE) eqn:Hc; cbn [negb andb] in *; rewrite Hn.
  - destruct (before_punct r); [exact IH|].
    cbn [filter]. rewrite Hn. exact IH.
  - cbn [filter]. rewrite Hn. f_equal. exact IH.
Qed.

Lemma rule1_other_characters t :
  filter not_space (rule1 t) = map dash_to_comma (filter not_space t).
Proof.
  induction t as [|c r IH]; [reflexivity|].
  change (rule1 (c :: r))
    with ((if N.eqb c EM_DASH then [COMMA; SPACE] else [c]) ++ rule1 r).
  rewrite filter_app, IH.
  change (filter not_space (c :: r))
    with (if not_space c then c :: filter not_space r else filter not_space r).
  destruct (N.eqb c EM_DASH) eqn:Hc.
  - apply N.eqb_eq in Hc. subst c. reflexivity.
  - change (filter not_space [c]) with (if not_space c then [c] else []).
    destruct (not_space c); [|reflexivity].
    change ([c] ++ map dash_to_comma (filter not_space r)
            = dash_to_comma c :: map dash_to_comma (filter not_space r)).
    unfold dash_to_comma at 2. rewrite Hc. reflexivity.
Qed.

Lemma rule1_length t :
  List.length (rule1 t) = (List.length t + count_occ N.eq_dec t EM_DASH)%nat.
Proof.
  induction t as [|c r IH]; [reflexivity|].
  change (rule1 (c :: r))
    with ((if N.eqb c EM_DASH then [COMMA; SPACE] else [c]) ++ rule1 r).
  rewrite length_app, IH. cbn [count_occ List.length].
  destruct (N.eqb c EM_DASH) eqn:Hc.
  - apply N.eqb_eq in Hc. subst c.
    destruct (N.eq_dec EM_DASH EM_DASH) as [_|n]; [simpl; lia | congruence].
  - apply N.eqb_neq in Hc.
    destruct (N.eq_dec c EM_DASH) as [e|_]; [congruence | simpl; lia].
Qed.

Lemma rule2_length s : (List.length (rule2 s) <= List.length s)%nat.
Proof.
  induction s as [|c r IH]; [simpl; lia|].
  simpl. destruct (N.eqb c SPACE && before_punct r); simpl; lia.
Qed.

(** The two facts about the output, on the function of the code. *)
Lemma clean_output_clear t :
  ~ In EM_DASH (clean_final_text t) /\
  space_before_punct (clean_final_text t) = false.
Proof.
  rewrite clean_final_text_is_normalize. unfold normalize. split.
  - intros H. apply rule2_incl in H. exact (rule1_no_em_dash _ H).
  - apply rule2_clears.
Qed.

End NormalizerShape.

Import NormalizerShape.

(** X1.  The cleaned text contains no em-dash, and nowhere in it does a
    space stand directly in front of a comma or a period. *)
Theorem X1_clean_output_shape :
  forall t : str,
    ~ In EM_DASH (clean_final_text t) /\
    (forall pre c post,
       clean_final_text t = pre ++ SPACE :: c :: post -> is_punct c = false).
Proof.
  intros t. destruct (clean_output_clear t) as [Hd Hs].
  split; [exact Hd|].
  intros pre c post Heq.
  destruct (is_punct c) eqn:Hc; [|reflexivity].
  rewrite Heq, (split_space_before_punct pre c post Hc) in Hs.
  discriminate Hs.
Qed.

(** X1 at the text "a b": the character after its space is no comma and no
    period. *)
Lemma X1_clean_output_shape_witness : is_punct 98 = false.
Proof.
  exact (proj2 (X1_clean_output_shape (py "a b")) (py "a") 98%N [] eq_refl).
Defined.

(** X2.  The normalizer leaves a text unchanged exactly when the text has no
    em-dash and no space directly in front of a comma or a period. *)
Theorem X2_clean_fixed_points :
  forall t : str,
    clean_final_text t = t <->
    (~ In EM_DASH t /\ space_before_punct t = false).
Proof.
  intros t. split.
  - intros Heq. destruct (clean_output_clear t) as [Hd Hs].
    rewrite Heq in Hd, Hs. split; assumption.
  - intros [Hd Hs]. rewrite clean_final_text_is_normalize.
    unfold SpecNormalizer.normalize.
    rewrite (@rule1_fixes t Hd). apply rule2_fixes. exact Hs.
Qed.

(** X2 at a clean sentence. *)
Lemma X2_clean_fixed_points_witness :
  clean_final_text (py "Well, that is odd.") = py "Well, that is odd.".
Proof.
  apply (proj2 (X2_clean_fixed_points (py "Well, that is odd."))).
  split; [|reflexivity].
  intros H. repeat (destruct H as [H|H]; [discriminate H|]). exact H.
Defined.

(** X3.  The normalizer only removes spaces and turns em-dashes into comma
    and space: the characters other than spaces come out in the same order,
    each em-dash as a comma, and the text grows by at most one character
    per em-dash. *)
Theorem X3_clean_keeps_other_characters :
  forall t : str,
    filter not_space (clean_final_text t)
    = map dash_to_comma (filter not_space t) /\
    (List.length (clean_final_text t)
     <= List.length t + count_occ N.eq_dec t EM_DASH)%nat.
Proof.
  intros t. rewrite clean_final_text_is_normalize.
  unfold SpecNormalizer.normalize. split.
  - rewrite rule2_keeps_other_characters. apply rule1_other_characters.
  - rewrite <- rule1_length. apply rule2_length.
Qed.

(* --------------------------------------------------------------------- *)
(** ** [api_external.py]: requests, failures, verdicts *)
(* --------------------------------------------------------------------- *)


Module ClientFacts.
Import ApiExternal DetectionFacts StepFacts.

(** What a step has put on the network: nothing without credential, and
    otherwise exactly one request, with the bearer token, for the given
    input. *)
Definition sent_once (token : str) (inputs : str) (w w' : world) : Prop :=
  (token = [] /\ w' = w) \/
  (token <> [] /\
   exists r, w' = r :: w /\
             req_url_base r = API_URL_BASE /\
             req_authorization r = py "Bearer " ++ token /\
             req_inputs r = inputs).

Lemma client_log_sent token inputs w r :
  req_url_base r = API_URL_BASE ->
  req_authorization r = py "Bearer " ++ token ->
  req_inputs r = inputs ->
  sent_once token inputs w (client_log token w r).
Proof.
  intros Hu Ha Hi. unfold client_log.
  destruct token as [|c token']; cbn [truthy negb].
  - left. split; reflexivity.
  - right. split; [discriminate|]. exists r. repeat split; assumption.
Qed.

Definition rewrite_prompt (text : str) (enhanced : value) : str :=
  if truthy enhanced
  then py "Significantly rewrite and humanize this text to make it appear completely human-written: " ++ text
  else py "Rewrite this text to make it more human-like and natural: " ++ text.

Lemma detect_log token remote text method w :
  fst (detect_ai_text token remote text method w)
  = client_log token w (detector_request token text).
Proof.
  rewrite detect_ai_text_cases. unfold client_log.
  destruct (negb (truthy (VStr token))); reflexivity.
Qed.

(** A step that reports an error hands the input text back. *)
Lemma step_result_error text o :
  truthy (snd (step_result text o)) = true -> fst (step_result text o) = VStr text.
Proof.
  destruct o as [answer|e]; [|reflexivity].
  destruct answer as [| | | | |[|first rest]|]; try reflexivity.
  unfold step_result. destruct (method_get first _ _); [discriminate | reflexivity].
Qed.

Definition verdict (is_ai : bool) : value :=
  VStr (if is_ai then py "AI-generated" else py "Human-written").

(** The float 0.5 is worth one half. *)
Lemma above_half x : above x (worth half) = above x (Finite (1 # 2)).
Proof.
  destruct x as [| |q|]; try reflexivity.
  cbn [above worth half]. f_equal.
  apply eq_true_iff_eq. rewrite !Qle_bool_iff.
  unfold Qle. cbn. lia.
Qed.

Lemma half_above x : above (worth half) x = above (Finite (1 # 2)) x.
Proof.
  destruct x as [| |q|]; try reflexivity.
  cbn [above worth half]. f_equal.
  apply eq_true_iff_eq. rewrite !Qle_bool_iff.
  unfold Qle. cbn. lia.
Qed.

(** An int is above one half when it is positive. *)
Lemma int_above_half z :
  above (Finite (inject_Z z)) (Finite (1 # 2)) = (0 <? z)%Z.
Proof.
  cbn [above]. apply eq_true_iff_eq.
  rewrite negb_true_iff, Z.ltb_lt, <- not_true_iff_false, Qle_bool_iff.
  unfold Qle. cbn. lia.
Qed.

(** The prediction of a run, by the fate of its outcome. *)
Lemma fate_prediction o r :
  fate o r -> listed o = true ->
  exists a,
    field "ensemble_ai_probability" r = Some a /\
    match as_num a with
    | Some (NumFloat f) =>
        field "prediction" r = Some (verdict (above (worth f) (Finite (1 # 2))))
    | Some (NumInt z) =>
        field "prediction" r = Some (verdict (0 <? z)%Z)
    | None => False
    end.
Proof.
  intros [e Hl | Hl _ | a f Hl Ha | a z fz Hl Ha Hz] H;
    try (rewrite H in Hl; discriminate Hl).
  - subst a. exists (VFloat f). split; [reflexivity|].
    cbn [as_num]. unfold scored_float, scored, field, verdict. cbn [dict_get].
    rewrite above_half. reflexivity.
  - exists a. split; [reflexivity|]. rewrite Ha.
    unfold scored_int, scored, field, verdict. cbn [dict_get].
    rewrite above_half, int_above_half. reflexivity.
Qed.

(** Every detection result is a dict that carries a number as AI
    probability, and a confidence. *)
Lemma fate_is_dict o r :
  fate o r ->
  exists d a n conf,
    r = VDict d /\
    dict_get (py "ensemble_ai_probability") d = Some a /\
    as_num a = Some n /\
    dict_get (py "confidence") d = Some conf.
Proof.
  intros [e Hl | Hl _ | a f Hl Ha | a z fz Hl Ha Hz].
  - do 4 eexists. split; [reflexivity|]. repeat split; reflexivity.
  - do 4 eexists. split; [reflexivity|]. repeat split; reflexivity.
  - subst a. do 4 eexists. split; [reflexivity|]. repeat split; reflexivity.
  - do 4 eexists. split; [reflexivity|].
    split; [reflexivity|]. split; [exact Ha | reflexivity].
Qed.

Lemma detection_fate token remote text method w :
  fate (call_outcome token remote text w) (detection token remote text method w).
Proof. unfold detection. apply outcome_fate. Qed.

Lemma detect_ai_text_run token remote text method w :
  detect_ai_text token remote text method w
  = (client_log token w (detector_request token text),
     Ok (detection token remote text method w)).
Proof.
  rewrite (surjective_pairing (detect_ai_text token remote text method w)).
  rewrite detect_log, detect_ai_text_returns. reflexivity.
Qed.

(** The threshold is worth at least one half. *)
Definition at_least_half (n : num) : Prop :=
  match num_worth n with
  | Finite q => 1 # 2 <= q
  | PlusInfinity => True
  | _ => False
  end.

Lemma half_not_above n : at_least_half n -> above (worth half) (num_worth n) = false.
Proof.
  unfold at_least_half. rewrite half_above.
  destruct (num_worth n) as [| |q|]; try contradiction; [|reflexivity].
  intros H. cbn [above]. apply negb_false_iff, Qle_bool_iff. exact H.
Qed.

End ClientFacts.

Import ClientFacts.

(** X4.  Neither the paraphrase step, nor the rewrite step, nor the
    detection raises, and each puts at most one request on the network:
    none when the credential is missing, and otherwise exactly one, with the
    bearer token, whatever the remote answers (there is no retry). *)
Theorem X4_steps_send_one_request :
  forall (token : str) remote (text : str) (model_name enhanced : value)
         (method : str) w,
    (exists w' out,
       ApiExternal.paraphrase_text token remote text model_name w = (w', Ok out) /\
       sent_once token (py "paraphrase: " ++ text) w w') /\
    (exists w' out,
       ApiExternal.rewrite_text token remote text enhanced w = (w', Ok out) /\
       sent_once token (rewrite_prompt text enhanced) w w') /\
    (exists w' out,
       ApiExternal.detect_ai_text token remote text method w = (w', Ok out) /\
       sent_once token text w w').
Proof.
  intros token remote text model_name enhanced method w.
  split; [|split].
  - rewrite paraphrase_text_cases. eexists _, _. split; [reflexivity|].
    apply client_log_sent; reflexivity.
  - rewrite rewrite_text_cases. eexists _, _. split; [reflexivity|].
    apply client_log_sent; reflexivity.
  - rewrite detect_ai_text_run. eexists _, _. split; [reflexivity|].
    apply client_log_sent; reflexivity.
Qed.

(** X5.  When the paraphrase step or the rewrite step reports an error, the
    text it hands back is the input text, unchanged. *)
Theorem X5_step_error_returns_input :
  forall (token : str) remote (text : str) (model_name enhanced : value) w,
    (forall out err,
       snd (ApiExternal.paraphrase_text token remote text model_name w) = Ok (out, err) ->
       truthy err = true -> out = VStr text) /\
    (forall out err,
       snd (ApiExternal.rewrite_text token remote text enhanced w) = Ok (out, err) ->
       truthy err = true -> out = VStr text).
Proof.
  intros token remote text model_name enhanced w. split; intros out err.
  - rewrite paraphrase_text_cases. cbn [snd]. intros H Herr.
    injection H as H.
    pose proof (step_result_error text
                  (client_outcome token remote w
                     (paraphrase_request token text model_name))) as Hs.
    rewrite H in Hs. exact (Hs Herr).
  - rewrite rewrite_text_cases. cbn [snd]. intros H Herr.
    injection H as H.
    pose proof (step_result_error text
                  (client_outcome token remote w
                     (rewrite_request token text enhanced))) as Hs.
    rewrite H in Hs. exact (Hs Herr).
Qed.

(** A remote service that is down. *)
Definition remote_down : ApiExternal.world -> ApiExternal.request -> result value :=
  fun _ _ => Raise (mk_exn "ConnectionError" (py "connection refused")).

(** X5 at a service that is down: the step reports the failure of the
    connection, and the text it returns is the input text. *)
Lemma X5_step_error_returns_input_witness :
  snd (ApiExternal.paraphrase_text sample_token remote_down sample_text VNone [])
  = Ok (VStr sample_text, VStr (py "connection refused")) /\
  VStr sample_text = VStr sample_text.
Proof.
  split; [reflexivity|].
  exact (proj1 (X5_step_error_returns_input sample_token remote_down sample_text
                  VNone VNone [])
           (VStr sample_text) (VStr (py "connection refused")) eq_refl eq_refl).
Defined.

(** X6.  The prediction for a model that reports a numeric score.  Under
    the label AI the text is "AI-generated" exactly when the score is
    strictly above 0.5: a score of 0.5 and a NaN give "Human-written".
    Under any other label the AI score is [1 - score]: for an int score
    this is exact, and the text is "AI-generated" exactly when the score is
    below 1; for a float score the difference is rounded before it is
    compared with 0.5.  An int of which the AI score is too large for a
    float ends in "Detection failed". *)
Theorem X6_detection_verdict :
  forall (token : str) remote (text method : str) w d rest score n,
    call_outcome token remote text w = Ok (VList (VDict d :: rest)) ->
    dict_get (py "score") d = Some score ->
    as_num score = Some n ->
    exists r,
      snd (ApiExternal.detect_ai_text token remote text method w) = Ok r /\
      field "prediction" r
      = Some match n, says_ai d with
             | NumFloat f, true => verdict (above (worth f) (Finite (1 # 2)))
             | NumFloat f, false =>
                 verdict (above (worth (fsub one f)) (Finite (1 # 2)))
             | NumInt z, true =>
                 if fits_float z then verdict (0 <? z)%Z
                 else VStr (py "Detection failed")
             | NumInt z, false =>
                 if fits_float (1 - z) then verdict (z <? 1)%Z
                 else VStr (py "Detection failed")
             end.
Proof.
  intros token remote text method w d rest score n Ho Hs Hn.
  exists (detection token remote text method w).
  split; [apply detect_ai_text_returns|].
  unfold detection. rewrite Ho, after_call_first. unfold after_call.
  rewrite (ai_score_of_number _ Hs Hn).
  destruct n as [z|f].
  - set (ai := if says_ai d then z else (1 - z)%Z).
    assert (Hai : as_num (if says_ai d then score else ai_score_for false (NumInt z))
                  = Some (NumInt ai)).
    { unfold ai. destruct (says_ai d); [exact Hn | reflexivity]. }
    rewrite (after_score_int _ Hai).
    replace (if says_ai d
             then if fits_float z then verdict (0 <? z)%Z
                  else VStr (py "Detection failed")
             else if fits_float (1 - z) then verdict (z <? 1)%Z
                  else VStr (py "Detection failed"))
      with (if fits_float ai then verdict (0 <? ai)%Z
            else VStr (py "Detection failed")).
    2:{ unfold ai. destruct (says_ai d); [reflexivity|].
        destruct (fits_float (1 - z)); [|reflexivity].
        f_equal. apply eq_true_iff_eq. rewrite !Z.ltb_lt. lia. }
    unfold fits_float. destruct (of_int ai) as [fz|]; [|reflexivity].
    unfold scored_int, scored, field, verdict. cbn [dict_get].
    rewrite above_half, int_above_half. reflexivity.
  - destruct (says_ai d).
    + destruct score; try discriminate Hn. injection Hn as ->.
      rewrite after_score_float.
      unfold scored_float, scored, field, verdict. cbn [dict_get].
      rewrite above_half. reflexivity.
    + cbn [ai_score_for]. rewrite after_score_float.
      unfold scored_float, scored, field, verdict. cbn [dict_get].
      rewrite above_half. reflexivity.
Qed.

(** A remote model that reports the score 0.49999999999999994 under the
    label Real. *)
Definition remote_real_below_half
  : ApiExternal.world -> ApiExternal.request -> result value :=
  fun _ _ => Ok (VList [VDict [ (py "label", VStr (py "Real"));
                                (py "score", VFloat (decimal 49999999999999994 17)) ]]).

(** X6 at a score just below 0.5 under the label Real: one minus the score
    is rounded to 0.5, and the prediction is "Human-written". *)
Lemma X6_detection_verdict_witness :
  exists r,
    snd (ApiExternal.detect_ai_text sample_token remote_real_below_half
           sample_text (py "ensemble") []) = Ok r /\
    field "prediction" r = Some (VStr (py "Human-written")).
Proof.
  exact (X6_detection_verdict sample_token remote_real_below_half sample_text
           (py "ensemble") []
           [ (py "label", VStr (py "Real"));
             (py "score", VFloat (decimal 49999999999999994 17)) ] []
           (VFloat (decimal 49999999999999994 17))
           (NumFloat (decimal 49999999999999994 17))
           eq_refl eq_refl eq_refl).
Defined.

(** X7.  [is_ai_generated] runs one detection and compares its AI
    probability with the threshold: with a threshold that is a number it
    returns whether the probability is strictly above it, the two compared
    exactly, together with the confidence of that detection, a float that
    is not below zero; when the model is not listed and the threshold is
    worth at least 0.5, the answer is "not AI" with confidence 0.0.  A
    threshold that is not a number ends in a TypeError. *)
Theorem X7_is_ai_generated :
  forall (token : str) remote (text : str) (threshold : value) w,
  exists a na conf,
    field "ensemble_ai_probability" (detection token remote text (py "ensemble") w)
    = Some a /\
    as_num a = Some na /\
    field "confidence" (detection token remote text (py "ensemble") w) = Some conf /\
    (exists fc, conf = VFloat fc /\ not_negative fc) /\
    (forall nt,
       as_num threshold = Some nt ->
       exists w',
         ApiExternal.is_ai_generated token remote text threshold w
         = (w', Ok (above (num_worth na) (num_worth nt), conf)) /\
         (listed (call_outcome token remote text w) = false ->
          at_least_half nt ->
          above (num_worth na) (num_worth nt) = false /\ conf = VFloat zero)) /\
    (as_num threshold = None ->
     exists w' e,
       ApiExternal.is_ai_generated token remote text threshold w = (w', Raise e) /\
       exn_class e = "TypeError"%string).
Proof.
  intros token remote text threshold w.
  pose proof (detection_fate token remote text (py "ensemble") w) as Hfate.
  destruct (fate_is_dict _ _ Hfate) as (d & a & na & conf & Hd & Ha & Hna & Hc).
  exists a, na, conf.
  rewrite Hd. cbn [field].
  split; [exact Ha|]. split; [exact Hna|]. split; [exact Hc|].
  split.
  { destruct (fate_confidence Hfate) as (fc & Hfc & Hnn).
    rewrite Hd in Hfc. cbn [field] in Hfc. rewrite Hc in Hfc.
    injection Hfc as ->. exists fc. split; [reflexivity | exact Hnn]. }
  assert (Hrun : forall k : value -> M ApiExternal.world (bool * value),
             bind (ApiExternal.detect_ai_text token remote text (py "ensemble")) k w
             = k (VDict d) (client_log token w (detector_request token text))).
  { intros k. unfold bind. rewrite detect_ai_text_run, Hd. reflexivity. }
  split.
  - intros nt Hnt.
    exists (client_log token w (detector_request token text)). split.
    + unfold ApiExternal.is_ai_generated. rewrite Hrun.
      unfold bind, lift_result, ApiExternal.getitem.
      rewrite Ha, Hc. unfold py_gt. rewrite Hna, Hnt. reflexivity.
    + intros Hl Hhalf.
      destruct (fate_neutral Hfate Hl) as (Hai & _ & _ & Hconf & _).
      rewrite Hd in Hai, Hconf. cbn [field] in Hai, Hconf.
      rewrite Ha in Hai. rewrite Hc in Hconf.
      injection Hai as ->. injection Hconf as ->.
      injection Hna as <-. cbn [num_worth].
      split; [exact (half_not_above _ Hhalf) | reflexivity].
  - intros Hnt.
    exists (client_log token w (detector_request token text)).
    eexists. split.
    + unfold ApiExternal.is_ai_generated. rewrite Hrun.
      unfold bind, lift_result, ApiExternal.getitem.
      rewrite Ha, Hc. unfold py_gt. rewrite Hna, Hnt. reflexivity.
    + reflexivity.
Qed.

(** X7 at a model that reports 0.9 under the label AI, with the threshold
    0.7: the text is flagged. *)
Lemma X7_is_ai_generated_witness :
  exists w' conf,
    ApiExternal.is_ai_generated sample_token remote_score_nine_tenths
      sample_text (VFloat seven_tenths) [] = (w', Ok (true, conf)).
Proof.
  destruct (X7_is_ai_generated sample_token remote_score_nine_tenths
              sample_text (VFloat seven_tenths) [])
    as (a & na & conf & Ha & Hna & _ & _ & Hrun & _).
  destruct (Hrun (NumFloat seven_tenths) eq_refl) as (w' & Hw & _).
  vm_compute in Ha. injection Ha as <-. injection Hna as <-.
  exists w', conf. exact Hw.
Defined.

(* --------------------------------------------------------------------- *)
(** ** The orchestrator: the two shapes of a result *)
(* --------------------------------------------------------------------- *)

Module PipelineShape.
Import ApiExternal Index PipelineInvariant PipelineFacts.

(** The statistics while the pipeline runs. *)
Definition running_stats (text : str) (use_enhanced_rewriting : value)
    (used : bool) (model : value) (steps : list string) : dict :=
  [ (py "original_length", VInt (len text));
    (py "paraphrasing_used", VBool used);
    (py "enhanced_rewriting_used", use_enhanced_rewriting);
    (py "model_used", model);
    (py "processing_steps", tags steps) ].

(** The statistics of a completed run whose final text has length [n]. *)
Definition finished_stats (text : str) (use_enhanced_rewriting : value)
    (used : bool) (model : value) (steps : list string) (n : Z) : dict :=
  running_stats text use_enhanced_rewriting used model steps
  ++ [ (py "final_length", VInt n);
       (py "length_change", VInt (n - len text)) ].

(** The statistics of a run that was stopped by the exception [e]. *)
Definition failed_stats (text : str) (use_enhanced_rewriting : value)
    (used : bool) (model : value) (steps : list string) (e : exn) : dict :=
  running_stats text use_enhanced_rewriting used model (steps ++ ["error"%string])
  ++ [ (py "error", VStr (exn_msg e)) ].

(** The tags of the paraphrase phase: none when it is disabled, one
    otherwise, and [paraphrasing_used] says which. *)
Definition paraphrase_tags (use_paraphrasing : value) (used : bool)
    (pre : list string) : Prop :=
  (truthy use_paraphrasing = false /\ used = false /\ pre = []) \/
  (truthy use_paraphrasing = true /\ used = false /\
   pre = ["paraphrasing_failed"%string]) \/
  (truthy use_paraphrasing = true /\ used = true /\
   pre = ["paraphrasing"%string]).

Definition rewrite_tag (r : string) : Prop :=
  r = "rewriting"%string \/ r = "rewriting_failed"%string.

Section Shapes.

Variable paraphrase_text : str -> value -> M world (value * value).
Variable rewrite_text : str -> value -> M world (value * value).
Variable get_current_model : M world value.
Variable text : str.
Variables use_paraphrasing use_enhanced_rewriting paraphrase_model : value.

(** The pipeline after step 1, as [humanize_body] has it. *)
Definition after_paraphrase (current_text : str) : M pstate value :=
  '(final_text, err) <- lift_net (rewrite_text current_text use_enhanced_rewriting) ;;
  final_text <- (if truthy err
                 then append_step "rewriting_failed" ;; ret (VStr current_text)
                 else append_step "rewriting" ;; ret final_text) ;;
  final_text <- lift_result (call_clean_final_text final_text) ;;
  append_step "text_cleaning" ;;
  final_length <- lift_result (py_len final_text) ;;
  set_stat "final_length" (VInt final_length) ;;
  final_length <- get_stat "final_length" ;;
  original_length <- get_stat "original_length" ;;
  length_change <- lift_result (py_sub final_length original_length) ;;
  set_stat "length_change" length_change ;;
  ret final_text.

Definition first_step : M pstate str :=
  if truthy use_paraphrasing
  then paraphrasing_step paraphrase_text get_current_model text paraphrase_model
  else ret text.

Lemma humanize_body_split :
  humanize_body paraphrase_text rewrite_text get_current_model
    text use_paraphrasing use_enhanced_rewriting paraphrase_model
  = bind first_step after_paraphrase.
Proof. reflexivity. Qed.

Ltac evaluate :=
  cbn -[len clean_final_text strip startswith skipn Z.sub without_prefix truthy].

(** Step 1 leaves the statistics in running shape, with the tag of the
    phase when it returns and with no tag when it raises. *)
Lemma first_step_shape w :
  match first_step (start text use_enhanced_rewriting w) with
  | (s, Ok current) =>
      exists used model pre,
        stats s = running_stats text use_enhanced_rewriting used model pre /\
        paraphrase_tags use_paraphrasing used pre
  | (s, Raise _) =>
      exists used,
        stats s = running_stats text use_enhanced_rewriting used VNone []
  end.
Proof.
  unfold first_step.
  destruct (truthy use_paraphrasing) eqn:Hup.
  2:{ exists false, VNone, []. split; [reflexivity|]. left. repeat split; assumption || reflexivity. }
  unfold paraphrasing_step, bind at 1, lift_net at 1. cbn [net stats start].
  destruct (paraphrase_text text paraphrase_model w) as [w1 [[p err]|e]].
  2:{ exists false. reflexivity. }
  destruct (truthy err);
    [evaluate; exists false, VNone, ["paraphrasing_failed"%string];
     split; [reflexivity|]; right; left; repeat split; assumption|].
  destruct (truthy p) eqn:Hp;
    [|evaluate; exists false, VNone, ["paraphrasing_failed"%string];
      split; [reflexivity|]; right; left; repeat split; assumption].
  destruct p as [|b|z|q|s|l|d]; try (evaluate; exists false; reflexivity).
  evaluate.
  destruct (truthy (VStr (strip s)));
    [|evaluate; exists false, VNone, ["paraphrasing_failed"%string];
      split; [reflexivity|]; right; left; repeat split; assumption].
  evaluate. unfold bind at 1, lift_net at 1. cbn [net stats].
  destruct (get_current_model w1) as [w2 [model|e]]; evaluate.
  - exists true, model, ["paraphrasing"%string].
    split; [reflexivity|]. right; right. repeat split; assumption.
  - exists true. reflexivity.
Qed.

Ltac raised_with steps :=
  exists steps; split; [reflexivity | simpl; lia].

Ltac raised :=
  first [ raised_with (@nil string)
        | raised_with ["rewriting"%string]
        | raised_with ["rewriting_failed"%string]
        | raised_with ["rewriting"%string; "text_cleaning"%string]
        | raised_with ["rewriting_failed"%string; "text_cleaning"%string] ].

Ltac returned_with r :=
  exists r; eexists; split; [reflexivity|];
  split; [first [left; reflexivity | right; reflexivity]|];
  split; [reflexivity|];
  split; [first [left; eexists; reflexivity | right; reflexivity]|];
  intros Htag; first [discriminate Htag | reflexivity].

Ltac returned :=
  first [ returned_with "rewriting"%string
        | returned_with "rewriting_failed"%string ].

(** Steps 2 and 3 take running statistics to finished ones, with one tag
    for the rewrite and the tag of the cleaning; when they raise, the
    statistics are still running ones, with at most these two tags more. *)
Lemma after_paraphrase_shape current used model pre w1 :
  paraphrase_tags use_paraphrasing used pre ->
  match after_paraphrase current
          (mk_pstate (running_stats text use_enhanced_rewriting used model pre) w1)
  with
  | (s, Ok v) =>
      exists r n,
        stats s = finished_stats text use_enhanced_rewriting used model
                    (pre ++ [r; "text_cleaning"%string]) n /\
        rewrite_tag r /\
        py_len v = Ok n /\
        textual v /\
        (r = "rewriting_failed"%string -> v = VStr (clean_final_text current))
  | (s, Raise _) =>
      exists steps,
        stats s = running_stats text use_enhanced_rewriting used model
                    (pre ++ steps) /\
        (List.length steps <= 2)%nat
  end.
Proof.
  intros Htags.
  unfold after_paraphrase, bind at 1, lift_net at 1. cbn [net stats].
  destruct (rewrite_text current use_enhanced_rewriting w1)
    as [w2 [[rewritten err]|e]];
    [|destruct Htags as [(_ & _ & ->)|[(_ & _ & ->)|(_ & _ & ->)]]; raised].
  destruct (truthy err).
  - destruct Htags as [(_ & _ & ->)|[(_ & _ & ->)|(_ & _ & ->)]];
      evaluate; returned.
  - destruct rewritten as [|b|z|q|s|l|d].
    + destruct Htags as [(_ & _ & ->)|[(_ & _ & ->)|(_ & _ & ->)]];
        evaluate; raised.
    + destruct b;
        destruct Htags as [(_ & _ & ->)|[(_ & _ & ->)|(_ & _ & ->)]];
        evaluate; raised.
    + destruct (Z.eqb z 0) eqn:Hz;
        destruct Htags as [(_ & _ & ->)|[(_ & _ & ->)|(_ & _ & ->)]];
        evaluate; cbn [truthy]; rewrite Hz; evaluate; raised.
    + destruct (is_zero q) eqn:Hq;
        destruct Htags as [(_ & _ & ->)|[(_ & _ & ->)|(_ & _ & ->)]];
        evaluate; cbn [truthy]; rewrite Hq; evaluate; raised.
    + destruct Htags as [(_ & _ & ->)|[(_ & _ & ->)|(_ & _ & ->)]];
        evaluate; returned.
    + destruct l;
        destruct Htags as [(_ & _ & ->)|[(_ & _ & ->)|(_ & _ & ->)]];
        evaluate; first [returned | raised].
    + destruct d;
        destruct Htags as [(_ & _ & ->)|[(_ & _ & ->)|(_ & _ & ->)]];
        evaluate; first [returned | raised].
Qed.

(** The [except] clause on running statistics. *)
Lemma error_stats_running used model steps e :
  error_stats (running_stats text use_enhanced_rewriting used model steps) e
  = Ok (VDict (failed_stats text use_enhanced_rewriting used model steps e)).
Proof.
  unfold error_stats, failed_stats, running_stats, tags.
  cbn -[len]. rewrite map_app. reflexivity.
Qed.

End Shapes.
End PipelineShape.
Import ApiExternal Index PipelineInvariant PipelineShape.

(** X8.  With the modules available, whatever the imported functions return
    or raise, [humanize_text] hands back statistics of one of two shapes.
    Completed: the five initial entries in their order, then [final_length]
    and [length_change]; the steps are the tag of the paraphrase phase (none
    when it is disabled), the tag of the rewrite and ["text_cleaning"];
    [final_length] is the length of the returned object and [length_change]
    its difference with the length of the input.  Failed: the returned text
    is the input, the five initial entries with ["error"] appended to at
    most three recorded steps, then [error] with the message, and neither
    [final_length] nor [length_change]. *)
Theorem X8_humanize_text_shapes :
  forall (paraphrase_text rewrite_text : str -> value -> M ApiExternal.world (value * value))
         (get_current_model : M ApiExternal.world value)
         (text : str) (use_paraphrasing use_enhanced_rewriting paraphrase_model : value)
         (w : ApiExternal.world),
  exists w' v st,
    Index.humanize_text true paraphrase_text rewrite_text get_current_model
      text use_paraphrasing use_enhanced_rewriting paraphrase_model w
    = (w', Ok (v, VDict st)) /\
    ((exists used model pre r n,
        st = finished_stats text use_enhanced_rewriting used model
               (pre ++ [r; "text_cleaning"%string]) n /\
        paraphrase_tags use_paraphrasing used pre /\
        rewrite_tag r /\
        py_len v = Ok n /\
        PipelineInvariant.textual v)
     \/
     (exists used model steps e,
        st = failed_stats text use_enhanced_rewriting used model steps e /\
        v = VStr text /\
        (List.length steps <= 3)%nat /\
        dict_get (py "final_length") st = None /\
        dict_get (py "length_change") st = None)).
Proof.
  intros paraphrase_text rewrite_text get_current_model text up ue pm w.
  unfold Index.humanize_text. cbn [negb].
  fold (start text ue w).
  rewrite (humanize_body_split paraphrase_text rewrite_text get_current_model
             text up ue pm).
  unfold bind at 1.
  pose proof (first_step_shape paraphrase_text get_current_model text up ue pm w)
    as H1.
  destruct (first_step paraphrase_text get_current_model text up pm
              (start text ue w)) as [[st1 w1] [current|e]].
  - destruct H1 as (used & model & pre & Hst & Htags).
    cbn [stats] in Hst. subst st1.
    pose proof (after_paraphrase_shape rewrite_text text up ue current used model
                  pre w1 Htags) as H2.
    destruct (after_paraphrase rewrite_text ue current _) as [s2 [v|e]].
    + destruct H2 as (r & n & Hst & Hr & Hn & Hv & _).
      exists (net s2), v, (stats s2). split; [reflexivity|].
      left. exists used, model, pre, r, n. repeat split; assumption.
    + destruct H2 as (steps & Hst & Hlen).
      rewrite Hst, error_stats_running.
      eexists _, _, _. split; [reflexivity|].
      right. exists used, model, (pre ++ steps), e.
      split; [reflexivity|]. split; [reflexivity|].
      split.
      * rewrite length_app.
        destruct Htags as [(_ & _ & ->)|[(_ & _ & ->)|(_ & _ & ->)]];
          simpl; lia.
      * split; reflexivity.
  - destruct H1 as (used & Hst). cbn [stats] in Hst. subst st1.
    cbn [stats net]. rewrite error_stats_running.
    eexists _, _, _. split; [reflexivity|].
    right. exists used, VNone, [], e.
    split; [reflexivity|]. split; [reflexivity|].
    split; [simpl; lia|]. split; reflexivity.
Qed.


(* --------------------------------------------------------------------- *)
(** ** The detection routes and the whole handler *)
(* --------------------------------------------------------------------- *)

Module Service.
Import ApiExternal Index.

(** *** The operations of Python the two routes add *)

(** [a == b].  Numbers are compared by what they are worth, whatever their
    types, and a NaN is equal to nothing; two dicts are equal when they have
    the same keys with equal values (the keys of a dict are distinct). *)
Fixpoint py_eq (a b : value) : bool :=
  match a, b with
  | VNone, VNone => true
  | VStr s, VStr t => PyStr.eqb s t
  | VList l, VList l' =>
      (fix items (l l' : list value) : bool :=
         match l, l' with
         | [], [] => true
         | x :: r, y :: r' => py_eq x y && items r r'
         | _, _ => false
         end) l l'
  | VDict d, VDict d' =>
      Nat.eqb (List.length d) (List.length d') &&
      (fix entries (d : dict) : bool :=
         match d with
         | [] => true
         | (k, v) :: r =>
             match dict_get k d' with
             | Some v' => py_eq v v'
             | None => false
             end && entries r
         end) d
  | _, _ =>
      match as_num a, as_num b with
      | Some x, Some y => same (num_worth x) (num_worth y)
      | _, _ => false
      end
  end.

(** [s > t] on two strs: by code points, a proper prefix is the smaller. *)
Fixpoint str_gt (s t : str) : bool :=
  match s, t with
  | [], _ => false
  | _ :: _, [] => true
  | x :: s', y :: t' => if N.eqb x y then str_gt s' t' else N.ltb y x
  end.

Definition not_ordered (a b : value) : exn :=
  TypeError ("'>' not supported between instances of '"
             ++ type_name a ++ "' and '" ++ type_name b ++ "'").

(** [a > b] between any two objects: numbers with numbers, strs with strs,
    lists with lists (the first pair of unequal items decides, then the
    lengths); anything else is a [TypeError].  A value has no identity:
    the items of two lists are compared with [==] alone, where Python also
    takes an item to equal itself, which differs for a NaN that is the same
    object in both lists.  The statements below compare a number. *)
Fixpoint py_gt_any (a b : value) : result bool :=
  match a, b with
  | VStr s, VStr t => Ok (str_gt s t)
  | VList l, VList l' =>
      (fix items (l l' : list value) : result bool :=
         match l, l' with
         | x :: r, y :: r' => if py_eq x y then items r r' else py_gt_any x y
         | _ :: _, [] => Ok true
         | [], _ => Ok false
         end) l l'
  | _, _ =>
      match as_num a, as_num b with
      | Some x, Some y => Ok (above (num_worth x) (num_worth y))
      | _, _ => Raise (not_ordered a b)
      end
  end.

(** [v[k]] for a str key [k].  The handler logs the message of an
    exception and does not answer with it; the wording for a str receiver
    is that of CPython 3.11. *)
Definition py_getitem (v : value) (k : string) : result value :=
  match v with
  | VDict d =>
      match dict_get (py k) d with
      | Some x => Ok x
      | None => Raise (KeyError k)
      end
  | VList _ => Raise (TypeError "list indices must be integers or slices, not str")
  | VStr _ => Raise (TypeError "string indices must be integers, not 'str'")
  | _ => Raise (TypeError ("'" ++ type_name v ++ "' object is not subscriptable"))
  end.

(** [a / b]: true division.  The quotient of two ints is the float
    nearest to it; with a float among the operands, the other one is
    converted first.  The divisor must not be zero; the wording of the
    two messages is that of CPython 3.11. *)
Definition py_truediv (a b : value) : result value :=
  match as_num a, as_num b with
  | Some (NumInt x), Some (NumInt y) =>
      if Z.eqb y 0 then Raise (ZeroDivisionError "division by zero")
      else match int_div x y with
           | Some f => Ok (VFloat f)
           | None =>
               Raise (OverflowError "integer division result too large for a float")
           end
  | Some x, Some y =>
      match to_float x with
      | Raise e => Raise e
      | Ok fx =>
          match to_float y with
          | Raise e => Raise e
          | Ok fy =>
              if is_zero fy then Raise (ZeroDivisionError "float division by zero")
              else Ok (VFloat (fdiv fx fy))
          end
      end
  | _, _ => Raise (binop_error "/" a b)
  end.

(** [a and not b] *)
Definition py_and_not (a b : value) : value :=
  if truthy a then VBool (negb (truthy b)) else a.

(** *** The imported modules

    What [index.py] imports from [paraphraser], [rewriter] and [detector],
    and [json.loads].  Each function may raise and may change the state of
    the world; the objects they return are read as values, which a later
    call does not change.  [is_ai_generated] returns a pair, as
    [paraphrase_text] and [rewrite_text] do.
    [detect_ensemble text] is [AITextDetector().detect_ensemble(text)],
    [detect_ai_text text] is [detect_ai_text(text, method="ensemble")]. *)
Record modules : Type := mk_modules {
  IMPORTS_AVAILABLE : bool;
  paraphrase_text : str -> value -> M world (value * value);
  rewrite_text : str -> value -> M world (value * value);
  get_current_model : M world value;
  get_available_models : M world value;
  get_device_info : M world value;
  time_time : M world value;
  json_loads : str -> result value;
  detect_ensemble : str -> M world value;
  detect_ai_text : value -> M world value;
  is_ai_generated : value -> value -> M world (value * value)
}.

(** [text[:100] + "..." if len(text) > 100 else text] *)
Definition text_preview (text : str) : str :=
  if (len text >? 100)%Z then firstn 100 text ++ py "..." else text.

Section Routes.

Variable m : modules.

(** The [/detect] route, lines 323-382. *)
Definition route_detect (body : value) : M world response :=
  if negb (IMPORTS_AVAILABLE m) then ret (respond 500 modules_unavailable)
  else
    raw <- lift_result (method_get body (py "text") (VStr (py ""))) ;;
    raw <- lift_result (str_method "strip" raw) ;;
    let text := strip raw in
    threshold <- lift_result (method_get body (py "threshold") (VFloat seven_tenths)) ;;
    if negb (truthy (VStr text)) then
      ret (respond 400 (error_body "No text provided"))
    else if (len text <? 20)%Z then
      ret (respond 400 (error_body "Text must be at least 20 characters long"))
    else if (len text >? 50000)%Z then
      ret (respond 400 (error_body "Text must be less than 50,000 characters"))
    else
      (* Default ensemble method *)
      result <- detect_ensemble m text ;;
      ai <- lift_result (py_getitem result "ensemble_ai_probability") ;;
      is_ai <- lift_result (py_gt_any ai threshold) ;;
      ai_probability <- lift_result (py_getitem result "ensemble_ai_probability") ;;
      human_probability <- lift_result (py_getitem result "ensemble_human_probability") ;;
      prediction <- lift_result (py_getitem result "prediction") ;;
      confidence <- lift_result (py_getitem result "confidence") ;;
      models_used <- lift_result (py_getitem result "models_used") ;;
      individual_results <- lift_result (py_getitem result "individual_results") ;;
      ret (respond 200
             [ (py "text_preview", VStr (text_preview text));
               (py "is_ai_generated", VBool is_ai);
               (py "ai_probability", ai_probability);
               (py "human_probability", human_probability);
               (py "prediction", prediction);
               (py "confidence", confidence);
               (py "threshold_used", threshold);
               (py "models_used", models_used);
               (py "individual_results", individual_results);
               (py "text_length", VInt (len text));
               (py "detection_method", VStr (py "default"));
               (py "success", VBool true) ]).

(** [(ai_prob_reduction / original * 100) if original > 0 else 0], where
    [original] is [original_detection['ensemble_ai_probability']]. *)
Definition percentage_improvement (original_detection ai_prob_reduction : value)
  : result value :=
  match py_getitem original_detection "ensemble_ai_probability" with
  | Raise e => Raise e
  | Ok original =>
      match py_gt_any original (VInt 0) with
      | Raise e => Raise e
      | Ok true =>
          match py_getitem original_detection "ensemble_ai_probability" with
          | Raise e => Raise e
          | Ok original =>
              match py_truediv ai_prob_reduction original with
              | Raise e => Raise e
              | Ok quotient => py_mul quotient (VInt 100)
              end
          end
      | Ok false => Ok (VInt 0)
      end
  end.

(** The [/humanize_and_check] route, lines 384-473. *)
Definition route_humanize_and_check (body : value) : M world response :=
  if negb (IMPORTS_AVAILABLE m) then ret (respond 500 modules_unavailable)
  else
    raw <- lift_result (method_get body (py "text") (VStr (py ""))) ;;
    raw <- lift_result (str_method "strip" raw) ;;
    let text := strip raw in
    if negb (truthy (VStr text)) then
      ret (respond 400 (error_body "No text provided"))
    else if (len text <? 10)%Z then
      ret (respond 400 (error_body "Text must be at least 10 characters long"))
    else if (len text >? 50000)%Z then
      ret (respond 400 (error_body "Text must be less than 50000 characters"))
    else
      (* Extract options *)
      use_paraphrasing <- lift_result (method_get body (py "paraphrasing") (VBool true)) ;;
      use_enhanced <- lift_result (method_get body (py "enhanced") (VBool true)) ;;
      paraphrase_model <- lift_result (method_get body (py "model") VNone) ;;
      detection_threshold <-
        lift_result (method_get body (py "detection_threshold") (VFloat seven_tenths)) ;;
      (* Step 1: Check original text *)
      original_detection <- detect_ai_text m (VStr text) ;;
      '(original_is_ai, original_confidence) <-
         is_ai_generated m (VStr text) detection_threshold ;;
      (* Step 2: Humanize the text *)
      '(humanized_text, humanization_stats) <-
         humanize_text (IMPORTS_AVAILABLE m) (paraphrase_text m) (rewrite_text m)
                       (get_current_model m)
                       text use_paraphrasing use_enhanced paraphrase_model ;;
      (* Step 3: Check humanized text *)
      humanized_detection <- detect_ai_text m humanized_text ;;
      '(humanized_is_ai, humanized_confidence) <-
         is_ai_generated m humanized_text detection_threshold ;;
      (* Calculate improvement *)
      original_ai <- lift_result (py_getitem original_detection "ensemble_ai_probability") ;;
      humanized_ai <- lift_result (py_getitem humanized_detection "ensemble_ai_probability") ;;
      ai_prob_reduction <- lift_result (py_sub original_ai humanized_ai) ;;
      let detection_improved := py_and_not original_is_ai humanized_is_ai in
      original_ai <- lift_result (py_getitem original_detection "ensemble_ai_probability") ;;
      original_prediction <- lift_result (py_getitem original_detection "prediction") ;;
      humanized_ai <- lift_result (py_getitem humanized_detection "ensemble_ai_probability") ;;
      humanized_prediction <- lift_result (py_getitem humanized_detection "prediction") ;;
      percentage <- lift_result (percentage_improvement original_detection ai_prob_reduction) ;;
      ret (respond 200
             [ (py "original_text", VStr text);
               (py "humanized_text", humanized_text);
               (py "humanization_stats", humanization_stats);
               (py "original_detection",
                VDict [ (py "is_ai_generated", original_is_ai);
                        (py "ai_probability", original_ai);
                        (py "prediction", original_prediction);
                        (py "confidence", original_confidence) ]);
               (py "humanized_detection",
                VDict [ (py "is_ai_generated", humanized_is_ai);
                        (py "ai_probability", humanized_ai);
                        (py "prediction", humanized_prediction);
                        (py "confidence", humanized_confidence) ]);
               (py "improvement",
                VDict [ (py "detection_improved", detection_improved);
                        (py "ai_probability_reduction", ai_prob_reduction);
                        (py "percentage_improvement", percentage) ]);
               (py "threshold_used", detection_threshold);
               (py "success", VBool true) ]).

(** [handler(event, context)] with all its routes. *)
Definition handler : event -> M world response :=
  Index.handler (IMPORTS_AVAILABLE m) (paraphrase_text m) (rewrite_text m)
    (get_current_model m) (get_available_models m) (get_device_info m)
    (time_time m) (json_loads m) route_detect route_humanize_and_check.

End Routes.
End Service.

(* --------------------------------------------------------------------- *)
(** ** The handler, route by route *)
(* --------------------------------------------------------------------- *)

Module StripFacts.

Lemma lstrip_by_head f s c r : lstrip_by f s = c :: r -> f c = false.
Proof.
  induction s as [|x s IH]; cbn [lstrip_by]; [discriminate|].
  destruct (f x) eqn:E; [exact IH|].
  intros H. injection H as <- _. exact E.
Qed.

Lemma lstrip_by_fixed f s : (forall c r, s = c :: r -> f c = false) ->
  lstrip_by f s = s.
Proof.
  destruct s as [|c r]; [reflexivity|]. intros H. cbn [lstrip_by].
  rewrite (H c r eq_refl). reflexivity.
Qed.

Lemma lstrip_by_idempotent f s : lstrip_by f (lstrip_by f s) = lstrip_by f s.
Proof.
  apply lstrip_by_fixed. intros c r H. exact (lstrip_by_head f s c r H).
Qed.

(** What [rstrip] removes: a run of characters at the end. *)
Lemma rstrip_by_split f s :
  exists tail, s = rstrip_by f s ++ tail /\ forallb f tail = true.
Proof.
  unfold rstrip_by.
  assert (H : forall l, exists h, l = h ++ lstrip_by f l /\ forallb f h = true).
  { induction l as [|x l IH]; [exists []; split; reflexivity|].
    cbn [lstrip_by]. destruct (f x) eqn:E.
    - destruct IH as (h & Hl & Hh). exists (x :: h). split.
      + cbn [app]. rewrite <- Hl. reflexivity.
      + cbn [forallb]. rewrite E, Hh. reflexivity.
    - exists []. split; reflexivity. }
  destruct (H (rev s)) as (h & Hs & Hh).
  exists (rev h). split.
  - rewrite <- rev_app_distr, <- Hs, rev_involutive. reflexivity.
  - rewrite forallb_forall in *. intros x Hx. apply Hh, in_rev. exact Hx.
Qed.

Lemma rstrip_by_idempotent f s : rstrip_by f (rstrip_by f s) = rstrip_by f s.
Proof.
  unfold rstrip_by. rewrite rev_involutive, lstrip_by_idempotent. reflexivity.
Qed.

(** Stripping on the right keeps a first character that stays. *)
Lemma rstrip_by_keeps_head f c r :
  f c = false -> exists r', rstrip_by f (c :: r) = c :: r'.
Proof.
  intros Hc. destruct (rstrip_by_split f (c :: r)) as (tail & Hs & Ht).
  destruct (rstrip_by f (c :: r)) as [|x r'].
  - cbn [app] in Hs. subst tail. cbn [forallb] in Ht. rewrite Hc in Ht. discriminate.
  - injection Hs as <- _. exists r'. reflexivity.
Qed.

(** [s.strip().strip() == s.strip()] *)
Lemma strip_idempotent s : strip (strip s) = strip s.
Proof.
  unfold strip at 1.
  assert (Hl : lstrip_by isspace (strip s) = strip s).
  { apply lstrip_by_fixed. intros c r H. unfold strip in H.
    destruct (lstrip_by isspace s) as [|x l] eqn:El.
    - discriminate H.
    - pose proof (lstrip_by_head _ _ _ _ El) as Hx.
      destruct (rstrip_by_keeps_head isspace x l Hx) as (r' & Hr).
      rewrite Hr in H. injection H as <- _. exact Hx. }
  rewrite Hl. unfold strip. apply rstrip_by_idempotent.
Qed.

(** [rstrip('/')] never leaves a slash at the end. *)
Lemma rstrip_slash_last p q : rstrip_slash p <> q ++ [SLASH].
Proof.
  unfold rstrip_slash, rstrip_by. intros H.
  apply (f_equal (@rev N)) in H. rewrite rev_involutive, rev_app_distr in H.
  cbn [rev app] in H. apply lstrip_by_head in H. discriminate H.
Qed.

Lemma rstrip_slash_not_root p : PyStr.eqb (rstrip_slash p) (py "/") = false.
Proof.
  destruct (PyStr.eqb (rstrip_slash p) (py "/")) eqn:E; [|reflexivity].
  exfalso. apply (rstrip_slash_last p []).
  destruct (rstrip_slash p) as [|c [|c' r]]; cbn [PyStr.eqb py map list_ascii_of_string] in E.
  - discriminate E.
  - rewrite andb_true_r in E. apply N.eqb_eq in E. subst c. reflexivity.
  - rewrite andb_false_r in E. discriminate E.
Qed.

Lemma rstrip_slash_trailing p n :
  rstrip_slash (p ++ repeat SLASH n) = rstrip_slash p.
Proof.
  unfold rstrip_slash, rstrip_by. f_equal.
  rewrite rev_app_distr, rev_repeat.
  induction n as [|n IH]; [reflexivity|].
  cbn [repeat app lstrip_by]. rewrite N.eqb_refl. exact IH.
Qed.

End StripFacts.

Module ServiceFacts.
Import ApiExternal Index StripFacts HandlerFacts.

(** The routes that can be reached.  The branch of the root path is not
    among them, see [handler_dispatch]. *)
Inductive route : Type := Health | Models | Humanize | Detect | HumanizeAndCheck.

Definition is_str (v : value) : bool :=
  match v with VStr _ => true | _ => false end.

(** [event.get('path', '')], [event.get('httpMethod', 'GET')] *)
Definition path_value (ev : event) : value :=
  match ev_path ev with Some p => p | None => VStr (py "") end.

Definition method_of (ev : event) : value :=
  match ev_httpMethod ev with Some m => m | None => VStr (py "GET") end.

(** [event.get('path', '').rstrip('/')], when the path is a str. *)
Definition path_of (ev : event) : option str :=
  match path_value ev with
  | VStr p => Some (rstrip_slash p)
  | _ => None
  end.

Definition is_preflight (ev : event) : bool :=
  opt_eq (ev_httpMethod ev) (py "OPTIONS").

Definition route_of (path : str) (method : value) : option route :=
  if PyStr.eqb path (py "/health") && eq_str method (py "GET") then Some Health
  else if PyStr.eqb path (py "/models") && eq_str method (py "GET") then Some Models
  else if PyStr.eqb path (py "/humanize") && eq_str method (py "POST") then Some Humanize
  else if PyStr.eqb path (py "/detect") && eq_str method (py "POST") then Some Detect
  else if PyStr.eqb path (py "/humanize_and_check") && eq_str method (py "POST")
       then Some HumanizeAndCheck
  else None.

Definition run (m : Service.modules) (r : route) (body : value) : M world response :=
  match r with
  | Health =>
      route_health (Service.IMPORTS_AVAILABLE m) (Service.get_current_model m)
        (Service.get_device_info m) (Service.time_time m)
  | Models =>
      route_models (Service.IMPORTS_AVAILABLE m) (Service.get_current_model m)
        (Service.get_available_models m) (Service.get_device_info m)
  | Humanize =>
      route_humanize (Service.IMPORTS_AVAILABLE m) (Service.paraphrase_text m)
        (Service.rewrite_text m) (Service.get_current_model m) body
  | Detect => Service.route_detect m body
  | HumanizeAndCheck => Service.route_humanize_and_check m body
  end.

Definition preflight : response := mk_response 200 cors_headers (Literal (py "")).

Definition not_found : response := respond 404 (error_body "Endpoint not found").

(** The handler answers a preflight at once.  For any other event it
    strips the path, which raises when the path is not a str, and then is a
    dispatch over five routes: [rstrip('/')] never leaves the path ["/"],
    so the branch of the root path is never taken. *)
Lemma handler_dispatch m ev w :
  Service.handler m ev w
  = if is_preflight ev then (w, Ok preflight)
    else match path_of ev with
         | None => (w, Raise (AttributeError (path_value ev) "rstrip"))
         | Some path =>
             match route_of path (method_of ev) with
             | Some r =>
                 try_except (run m r (parse_body (Service.json_loads m) ev))
                            (fun _ => ret internal_server_error) w
             | None => (w, Ok not_found)
             end
         end.
Proof.
  unfold Service.handler, handler, is_preflight.
  destruct (opt_eq (ev_httpMethod ev) (py "OPTIONS")); [reflexivity|].
  cbn zeta. fold (path_value ev). fold (method_of ev).
  unfold path_of, bind at 1.
  destruct (path_value ev) as [| | | |p| |]; try reflexivity.
  cbn [str_method lift_result].
  rewrite rstrip_slash_not_root. cbn [andb].
  unfold route_of.
  repeat match goal with
         | |- context [PyStr.eqb (rstrip_slash p) ?q && eq_str (method_of ev) ?k] =>
             destruct (PyStr.eqb (rstrip_slash p) q && eq_str (method_of ev) k);
             [reflexivity|]
         end.
  reflexivity.
Qed.

(** [outcome c w Q]: when [c], started in [w], returns, [Q] holds of the
    world it leaves and of what it returns. *)
Definition outcome {A} (c : M world A) (w : world) (Q : world -> A -> Prop) : Prop :=
  match c w with
  | (w', Ok a) => Q w' a
  | (_, Raise _) => True
  end.

Lemma outcome_ret {A} (a : A) w (Q : world -> A -> Prop) :
  Q w a -> outcome (ret a) w Q.
Proof. intros H. exact H. Qed.

(** A statement without effect: the world stays as it is. *)
Lemma outcome_pure {A B} (r : result A) (k : A -> M world B) w Q :
  (forall a, r = Ok a -> outcome (k a) w Q) ->
  outcome (bind (lift_result r) k) w Q.
Proof.
  intros H. unfold outcome, bind, lift_result.
  destruct r as [a|e]; [exact (H a eq_refl) | exact I].
Qed.

(** A call: nothing is known of the world afterwards. *)
Lemma outcome_call {A B} (c : M world A) (k : A -> M world B) w Q :
  (forall a w1, outcome (k a) w1 Q) ->
  outcome (bind c k) w Q.
Proof.
  intros H. unfold outcome, bind.
  destruct (c w) as [w1 [a|e]]; [exact (H a w1) | exact I].
Qed.

(** What a route answers when the modules are available: 200, or 400
    before anything has been called. *)
Definition served (w : world) (w' : world) (resp : response) : Prop :=
  headers resp = cors_headers /\
  (statusCode resp = 200%Z \/ (statusCode resp = 400%Z /\ w' = w)).

Ltac answer :=
  apply outcome_ret; split;
  [reflexivity | first [left; reflexivity | right; split; reflexivity]].

Ltac walk :=
  repeat match goal with
         | |- outcome (ret _) _ _ => answer
         | |- outcome (bind (lift_result _) _) _ _ => apply outcome_pure; intros ? ?
         | |- outcome (bind _ _) _ _ => apply outcome_call; intros ? ?
         | |- outcome (if ?c then _ else _) _ _ => destruct c
         | |- outcome (match ?p with (_, _) => _ end) _ _ => destruct p
         end.

Lemma run_available m r body w :
  Service.IMPORTS_AVAILABLE m = true ->
  outcome (run m r body) w (served w).
Proof.
  intros HI.
  destruct r; unfold run, route_health, route_models, route_humanize,
    Service.route_detect, Service.route_humanize_and_check;
    rewrite HI; cbn [negb]; cbn zeta; walk.
Qed.

Lemma run_unavailable m r body w :
  Service.IMPORTS_AVAILABLE m = false ->
  exists resp,
    run m r body w = (w, Ok resp) /\
    headers resp = cors_headers /\ statusCode resp = 500%Z.
Proof.
  intros HI.
  destruct r; unfold run, route_health, route_models, route_humanize,
    Service.route_detect, Service.route_humanize_and_check;
    rewrite HI; cbn [negb]; eexists; split; reflexivity || (split; reflexivity).
Qed.

(** Every answer of a route: its possible statuses, and that one other than
    200 tells that the state of the world is as before, unless an exception
    was turned into the 500. *)
Lemma run_answers m r body w :
  exists w' resp,
    try_except (run m r body) (fun _ => ret internal_server_error) w = (w', Ok resp) /\
    headers resp = cors_headers /\
    (statusCode resp = 200%Z \/ (statusCode resp = 400%Z /\ w' = w) \/
     statusCode resp = 500%Z) /\
    (Service.IMPORTS_AVAILABLE m = false -> statusCode resp = 500%Z /\ w' = w).
Proof.
  destruct (Service.IMPORTS_AVAILABLE m) eqn:HI.
  - pose proof (run_available m r body w HI) as H.
    unfold outcome in H. unfold try_except.
    destruct (run m r body w) as [w' [resp|e]].
    + destruct H as [Hh Hs]. exists w', resp.
      split; [reflexivity|]. split; [exact Hh|]. split.
      * destruct Hs as [Hs|Hs]; [left; exact Hs | right; left; exact Hs].
      * intros Hf. discriminate Hf.
    + exists w', internal_server_error.
      split; [reflexivity|]. split; [reflexivity|]. split.
      * right; right; reflexivity.
      * intros Hf. discriminate Hf.
  - destruct (run_unavailable m r body w HI) as (resp & Hrun & Hh & Hs).
    unfold try_except. rewrite Hrun. exists w, resp.
    split; [reflexivity|]. split; [exact Hh|]. split.
    + right; right; exact Hs.
    + intros _. split; [exact Hs | reflexivity].
Qed.

End ServiceFacts.

Import StripFacts ServiceFacts.

(** A deployment for the examples: a detector that finds every text likely
    written by a model, and the sample paraphraser and rewriter. *)
Definition sample_detection : value :=
  VDict [ (py "ensemble_ai_probability", VFloat (decimal 9 1));
          (py "ensemble_human_probability", VFloat (decimal 1 1));
          (py "prediction", VStr (py "AI-generated"));
          (py "confidence", VFloat (decimal 8 1));
          (py "models_used", VList [VStr (py "roberta")]);
          (py "individual_results", VList []) ].

Definition sample_modules (available : bool) : Service.modules :=
  Service.mk_modules available
    timing_out_paraphraser working_rewriter no_model
    (ret (VList [])) (ret (VStr (py "cpu"))) (ret (VInt 0))
    strict_json_loads
    (fun _ => ret sample_detection)
    (fun _ => ret sample_detection)
    (fun _ threshold => ret (VBool true, VFloat (decimal 8 1))).

(** An event of which the path is the JSON number 7. *)
Definition numbered_path_event : Index.event :=
  Index.mk_event (Some (VStr (py "GET"))) (Some (VInt 7)) VNone.

(** X9.  The handler raises for one kind of event only: the path is there
    and is not a str, and the method is not OPTIONS.  It then raises the
    AttributeError of [rstrip], outside its [try] blocks, before anything
    is called.  Every other event is answered, whatever the imported
    functions do: the response carries the CORS headers, its status is
    200, 400, 404 or 500, and a 400 or a 404 is given with the state of the
    world as before. *)
Theorem X9_handler_answers :
  forall (m : Service.modules) (ev : Index.event) (w : world),
    if negb (is_preflight ev) && negb (is_str (path_value ev)) then
      Service.handler m ev w
      = (w, Raise (AttributeError (path_value ev) "rstrip"))
    else
      exists w' resp,
        Service.handler m ev w = (w', Ok resp) /\
        headers resp = cors_headers /\
        In (statusCode resp) [200; 400; 404; 500]%Z /\
        (statusCode resp = 400%Z \/ statusCode resp = 404%Z -> w' = w).
Proof.
  intros m ev w. rewrite handler_dispatch. unfold path_of, is_str.
  destruct (is_preflight ev); cbn [negb andb].
  { exists w, preflight. split; [reflexivity|]. split; [reflexivity|].
    split; [left; reflexivity | intros _; reflexivity]. }
  destruct (path_value ev) as [| | | |p| |]; cbn [negb]; try reflexivity.
  destruct (route_of (rstrip_slash p) (method_of ev)) as [r|].
  - destruct (run_answers m r (parse_body (Service.json_loads m) ev) w)
      as (w' & resp & Hrun & Hh & Hs & _).
    exists w', resp. split; [exact Hrun|]. split; [exact Hh|]. split.
    + destruct Hs as [Hs|[[Hs _]|Hs]]; rewrite Hs; cbn; tauto.
    + intros [H|H]; destruct Hs as [Hs|[[Hs Hw]|Hs]];
        try exact Hw; rewrite Hs in H; discriminate H.
  - exists w, not_found. split; [reflexivity|]. split; [reflexivity|].
    split; [cbn; tauto | intros _; reflexivity].
Qed.

(** X9 at an event of which the path is a number: the handler raises. *)
Lemma X9_handler_answers_witness :
  Service.handler (sample_modules true) numbered_path_event []
  = ([], Raise (AttributeError (VInt 7) "rstrip")).
Proof.
  exact (X9_handler_answers (sample_modules true) numbered_path_event []).
Defined.

(** X10.  For an event that is no preflight and of which the path is a str
    or absent, the handler answers 404 exactly when none of the five pairs
    of path and method that [route_of] lists is matched.  The root path is
    not among them: [rstrip('/')] turns it into the empty path, so an event
    whose path is absent or made of slashes only gets 404.  When the path
    is there and is not a str, there is no answer: the handler raises. *)
Theorem X10_not_found :
  forall (m : Service.modules) (ev : Index.event) (w : world),
    is_preflight ev = false ->
    match path_of ev with
    | Some path =>
        exists w' resp,
          Service.handler m ev w = (w', Ok resp) /\
          (statusCode resp = 404%Z <-> route_of path (method_of ev) = None) /\
          (path = [] -> resp = not_found)
    | None =>
        exists e, Service.handler m ev w = (w, Raise e)
    end.
Proof.
  intros m ev w Hpre. rewrite handler_dispatch, Hpre.
  destruct (path_of ev) as [path|]; [|eexists; reflexivity].
  destruct (route_of path (method_of ev)) as [r|] eqn:Hr.
  - destruct (run_answers m r (parse_body (Service.json_loads m) ev) w)
      as (w' & resp & Hrun & _ & Hs & _).
    exists w', resp. split; [exact Hrun|]. split.
    + split.
      * intros H. destruct Hs as [Hs|[[Hs _]|Hs]]; rewrite Hs in H; discriminate H.
      * intros H. discriminate H.
    + intros ->. discriminate Hr.
  - exists w, not_found. split; [reflexivity|]. split.
    + split; intros _; reflexivity.
    + intros _. reflexivity.
Qed.

(** A GET of the root path. *)
Definition root_event : Index.event :=
  Index.mk_event (Some (VStr (py "GET"))) (Some (VStr (py "/"))) VNone.

(** X10 at a GET of the root path: the answer is the 404. *)
Lemma X10_not_found_witness :
  exists w' resp,
    Service.handler (sample_modules true) root_event [] = (w', Ok resp) /\
    resp = not_found.
Proof.
  destruct (X10_not_found (sample_modules true) root_event [] eq_refl)
    as (w' & resp & Hrun & _ & Hroot).
  exists w', resp. split; [exact Hrun | exact (Hroot eq_refl)].
Defined.

(** X11.  Slashes at the end of the path make no difference, and an absent
    path is the empty path. *)
Theorem X11_trailing_slashes :
  forall (m : Service.modules) (method : option value) (p : str) (n : nat)
         (body : value) (w : world),
    Service.handler m (mk_event method (Some (VStr (p ++ repeat SLASH n))) body) w
    = Service.handler m (mk_event method (Some (VStr p)) body) w /\
    Service.handler m (mk_event method None body) w
    = Service.handler m (mk_event method (Some (VStr (py ""))) body) w.
Proof.
  intros m method p n body w. split.
  - rewrite !handler_dispatch.
    unfold path_of, path_value, is_preflight, method_of, parse_body.
    cbn [ev_path ev_httpMethod ev_body].
    rewrite rstrip_slash_trailing. reflexivity.
  - reflexivity.
Qed.

(** X12.  When the modules could not be imported, no request is served: a
    preflight apart, a routed request gets 500 and any other 404, and the
    state of the world is as before; an event of which the path is there
    and is not a str makes the handler raise, as it does with the modules
    available. *)
Theorem X12_modules_unavailable :
  forall (m : Service.modules) (ev : Index.event) (w : world),
    Service.IMPORTS_AVAILABLE m = false ->
    if is_preflight ev then Service.handler m ev w = (w, Ok preflight)
    else
      match path_of ev with
      | Some path =>
          exists resp,
            Service.handler m ev w = (w, Ok resp) /\
            statusCode resp
            = match route_of path (method_of ev) with
              | Some _ => 500
              | None => 404
              end%Z
      | None =>
          Service.handler m ev w
          = (w, Raise (AttributeError (path_value ev) "rstrip"))
      end.
Proof.
  intros m ev w HI. rewrite handler_dispatch.
  destruct (is_preflight ev); [reflexivity|].
  destruct (path_of ev) as [path|]; [|reflexivity].
  destruct (route_of path (method_of ev)) as [r|].
  - destruct (run_answers m r (parse_body (Service.json_loads m) ev) w)
      as (w' & resp & Hrun & _ & _ & Hu).
    destruct (Hu HI) as [Hs ->]. exists resp. split; [exact Hrun | exact Hs].
  - exists not_found. split; reflexivity.
Qed.

Lemma X12_modules_unavailable_witness :
  exists resp,
    Service.handler (sample_modules false) sample_event [] = ([], Ok resp) /\
    statusCode resp = 500%Z.
Proof. exact (X12_modules_unavailable (sample_modules false) sample_event [] eq_refl). Defined.

(* --------------------------------------------------------------------- *)
(** ** The [/humanize] route: which requests are served *)
(* --------------------------------------------------------------------- *)

Module HumanizeRoute.
Import ApiExternal Index PipelineInvariant.

(** The body carries a text that passes validation. *)
Definition acceptable (body : value) : Prop :=
  exists d raw,
    body = VDict d /\
    dict_get (py "text") d = Some (VStr raw) /\
    (10 <= len (strip raw) <= 50000)%Z.

Section Route.

Variable paraphrase_text : str -> value -> M world (value * value).
Variable rewrite_text : str -> value -> M world (value * value).
Variable get_current_model : M world value.

(** A body that does not pass validation is answered 400, or an exception
    is raised; in both cases before anything is called. *)
Lemma route_humanize_cases body w :
  acceptable body \/
  match route_humanize true paraphrase_text rewrite_text get_current_model body w with
  | (w', Ok resp) => statusCode resp = 400%Z /\ w' = w
  | (w', Raise _) => w' = w
  end.
Proof.
  unfold route_humanize. cbn [negb].
  destruct body as [|b|z|q|s|l|d]; try (right; reflexivity).
  - right. unfold bind at 1. cbn [py_in lift_result].
    destruct (contains (py "text") s); cbn [negb]; [reflexivity | split; reflexivity].
  - right. unfold bind at 1. cbn [py_in lift_result].
    destruct (existsb _ l); cbn [negb]; [reflexivity | split; reflexivity].
  - unfold bind at 1. cbn [py_in lift_result].
    destruct (dict_get (py "text") d) as [x|] eqn:Hx; cbn [negb];
      [|right; split; reflexivity].
    unfold bind at 1. cbn [method_get lift_result]. rewrite Hx.
    destruct x as [|b|z|q|raw|l|d']; try (right; reflexivity).
    unfold bind at 1. cbn [str_method lift_result].
    destruct (truthy (VStr (strip raw))); cbn [negb]; [|right; split; reflexivity].
    destruct (len (strip raw) <? 10)%Z eqn:Hlo; [right; split; reflexivity|].
    destruct (len (strip raw) >? 50000)%Z eqn:Hhi; [right; split; reflexivity|].
    left. exists d, raw. split; [reflexivity|]. split; [exact Hx|].
    apply Z.ltb_ge in Hlo. rewrite Z.gtb_ltb in Hhi. apply Z.ltb_ge in Hhi.
    split; assumption.
Qed.

End Route.

(** What the handler delivers is a str that is not blank, when the text of
    the request is not. *)
Lemma delivered_not_blank text v :
  strip text = text -> text <> [] -> textual v ->
  exists s, HandlerFacts.delivered text v = VStr s /\ strip s <> [].
Proof.
  intros Hstrip Hne Hv. unfold HandlerFacts.delivered, HandlerFacts.blank.
  destruct Hv as [[s ->] | Hv].
  - destruct (truthy (VStr s)); cbn [negb orb].
    + destruct (strip s) as [|c r] eqn:Hs; cbn [truthy negb].
      * exists text. split; [reflexivity|]. rewrite Hstrip. exact Hne.
      * exists s. split; [reflexivity|]. rewrite Hs. discriminate.
    + exists text. split; [reflexivity|]. rewrite Hstrip. exact Hne.
  - rewrite Hv. cbn [negb orb]. exists text. split; [reflexivity|].
    rewrite Hstrip. exact Hne.
Qed.

End HumanizeRoute.
Import HumanizeRoute.

(** X13.  With the modules available, a POST to [/humanize] is answered 200
    exactly when the request is valid: the parsed body is an object whose
    [text] is a str of 10 to 50000 characters once stripped.  The
    [humanized_text] of a 200 is then a str that is not blank; any other
    answer is given before an imported function has been called. *)
Theorem X13_humanize_serves_valid_requests :
  forall (m : Service.modules) (ev : Index.event) (w : world),
    Service.IMPORTS_AVAILABLE m = true ->
    posts_to_humanize ev ->
    exists w' resp,
      Service.handler m ev w = (w', Ok resp) /\
      (statusCode resp = 200%Z <->
       exists d text, valid_request (Service.json_loads m) ev d text) /\
      (statusCode resp = 200%Z ->
       exists s st,
         resp = humanize_response (VStr s) st /\ strip s <> []) /\
      (statusCode resp <> 200%Z -> w' = w).
Proof.
  intros m ev w HI Hpost.
  assert (Hh : Service.handler m ev w
               = try_except
                   (route_humanize true (Service.paraphrase_text m)
                      (Service.rewrite_text m) (Service.get_current_model m)
                      (parse_body (Service.json_loads m) ev))
                   (fun _ => ret internal_server_error) w).
  { unfold Service.handler.
    fold (the_handler (Service.IMPORTS_AVAILABLE m)
            (Service.paraphrase_text m) (Service.rewrite_text m)
            (Service.get_current_model m) (Service.get_available_models m)
            (Service.get_device_info m) (Service.time_time m)
            (Service.json_loads m) (Service.route_detect m)
            (Service.route_humanize_and_check m)).
    rewrite (@handler_routes_to_humanize (Service.IMPORTS_AVAILABLE m)
               (Service.paraphrase_text m) (Service.rewrite_text m)
               (Service.get_current_model m) (Service.get_available_models m)
               (Service.get_device_info m) (Service.time_time m)
               (Service.json_loads m) (Service.route_detect m)
               (Service.route_humanize_and_check m) ev Hpost).
    unfold the_route. rewrite HI. reflexivity. }
  rewrite Hh. clear Hh.
  destruct (route_humanize_cases (Service.paraphrase_text m) (Service.rewrite_text m)
              (Service.get_current_model m)
              (parse_body (Service.json_loads m) ev) w)
    as [(d & raw & Hbody & Htext & Hlen) | Hbad].
  - (* a valid request *)
    destruct (@humanize_text_returns (Service.paraphrase_text m)
                (Service.rewrite_text m) (Service.get_current_model m)
                (strip raw) (option_of d "paraphrasing" (VBool true))
                (option_of d "enhanced" (VBool true)) (option_of d "model" VNone)
                true w) as (w' & v & st & Hrun & Hv).
    pose proof (@route_valid true (Service.paraphrase_text m)
                  (Service.rewrite_text m) (Service.get_current_model m)
                  d raw w w' v st eq_refl Htext Hlen Hrun Hv) as Hroute.
    unfold the_route in Hroute. unfold try_except. rewrite Hbody, Hroute.
    exists w', (humanize_response (delivered (strip raw) v) st).
    split; [reflexivity|]. split; [|split].
    + split; [|intros _; reflexivity].
      intros _. exists d, (strip raw).
      split; [exact Hpost|]. split; [exact Hbody|].
      split; [exists raw; split; [exact Htext | reflexivity] | exact Hlen].
    + intros _.
      destruct (delivered_not_blank (strip raw) v (strip_idempotent raw)) as (s & Hs & Hne).
      * intros H. rewrite H in Hlen. cbn in Hlen. lia.
      * exact Hv.
      * exists s, st. rewrite Hs. split; [reflexivity | exact Hne].
    + intros H. exfalso. apply H. reflexivity.
  - (* anything else *)
    assert (Hinvalid : ~ exists d text, valid_request (Service.json_loads m) ev d text).
    { intros (d & text & _ & Hbody & (raw & Htext & Hstrip) & Hlen). subst text.
      destruct (@humanize_text_returns (Service.paraphrase_text m)
                  (Service.rewrite_text m) (Service.get_current_model m)
                  (strip raw) (option_of d "paraphrasing" (VBool true))
                  (option_of d "enhanced" (VBool true)) (option_of d "model" VNone)
                  true w) as (w' & v & st & Hrun & Hv).
      pose proof (@route_valid true (Service.paraphrase_text m)
                    (Service.rewrite_text m) (Service.get_current_model m)
                    d raw w w' v st eq_refl Htext Hlen Hrun Hv) as Hroute.
      unfold the_route in Hroute. rewrite Hbody, Hroute in Hbad.
      destruct Hbad as [Hbad _]. discriminate Hbad. }
    unfold try_except.
    destruct (route_humanize _ _ _ _ _ w) as [w' [resp|e]].
    + destruct Hbad as [Hs ->]. exists w, resp.
      split; [reflexivity|]. split; [|split].
      * split; [intros H; rewrite Hs in H; discriminate H
               | intros H; exfalso; exact (Hinvalid H)].
      * intros H. rewrite Hs in H. discriminate H.
      * intros _. reflexivity.
    + subst w'. exists w, internal_server_error.
      split; [reflexivity|]. split; [|split].
      * split; [intros H; discriminate H | intros H; exfalso; exact (Hinvalid H)].
      * intros H. discriminate H.
      * intros _. reflexivity.
Qed.

Lemma X13_humanize_serves_valid_requests_witness :
  exists w' resp,
    Service.handler (sample_modules true) sample_event [] = (w', Ok resp) /\
    (statusCode resp = 200%Z <->
     exists d text, valid_request strict_json_loads sample_event d text) /\
    (statusCode resp = 200%Z ->
     exists s st, resp = humanize_response (VStr s) st /\ strip s <> []) /\
    (statusCode resp <> 200%Z -> w' = []).
Proof.
  apply (X13_humanize_serves_valid_requests (sample_modules true) sample_event []).
  - reflexivity.
  - split; [reflexivity | eexists; split; reflexivity].
Defined.

(* --------------------------------------------------------------------- *)
(** ** The [/detect] route and the improvement figures *)
(* --------------------------------------------------------------------- *)

Module DetectRoute.
Import ApiExternal Index.

(** A POST request to the path [path]. *)
Definition posts_to (path : string) (ev : event) : Prop :=
  ev_httpMethod ev = Some (VStr (py "POST")) /\ path_of ev = Some (py path).

(** The keys that the route reads in the result of the detector. *)
Definition detection_keys : list string :=
  [ "ensemble_ai_probability"; "ensemble_human_probability"; "prediction";
    "confidence"; "models_used"; "individual_results" ]%string.

(** An entry of the object that the response carries. *)
Definition answer_field (resp : response) (k : string) : option value :=
  match body resp with
  | JsonDumps (VDict d) => dict_get (py k) d
  | _ => None
  end.

Lemma text_preview_length text : (len (Service.text_preview text) <= 103)%Z.
Proof.
  unfold Service.text_preview.
  destruct (len text >? 100)%Z eqn:H.
  - unfold len. rewrite length_app, length_firstn. cbn [py map list_ascii_of_string List.length].
    lia.
  - rewrite Z.gtb_ltb in H. apply Z.ltb_ge in H. lia.
Qed.

Lemma py_gt_any_numbers a b x y :
  as_num a = Some x -> as_num b = Some y ->
  Service.py_gt_any a b = Ok (above (num_worth x) (num_worth y)).
Proof.
  intros Ha Hb.
  destruct a; try discriminate Ha; destruct b; try discriminate Hb;
    cbn [Service.py_gt_any as_num]; cbn [as_num] in Ha, Hb;
    injection Ha as <-; injection Hb as <-; reflexivity.
Qed.

Lemma py_gt_any_not_a_number a b x :
  as_num a = Some x -> as_num b = None ->
  Service.py_gt_any a b = Raise (Service.not_ordered a b).
Proof.
  intros Ha Hb.
  destruct a; try discriminate Ha; destruct b; try discriminate Hb; reflexivity.
Qed.

Lemma handler_posts m ev w path r :
  posts_to path ev ->
  route_of (py path) (VStr (py "POST")) = Some r ->
  Service.handler m ev w
  = try_except (run m r (parse_body (Service.json_loads m) ev))
               (fun _ => ret HandlerFacts.internal_server_error) w.
Proof.
  intros [Hm Hp] Hr. rewrite handler_dispatch.
  unfold is_preflight, method_of. rewrite Hp, Hm. cbn [opt_eq eq_str].
  replace (PyStr.eqb (py "POST") (py "OPTIONS")) with false by reflexivity.
  rewrite Hr. reflexivity.
Qed.

End DetectRoute.
Import DetectRoute.

(** A request for a detection with the default threshold. *)
Definition sample_detect_event : Index.event :=
  Index.mk_event (Some (VStr (py "POST"))) (Some (VStr (py "/detect/")))
    (VDict [ (py "text", VStr sample_request_text) ]).

(** X14.  A POST to [/detect] whose text has 20 to 50000 characters once
    stripped, when the detector returns an object with the six keys that
    the route reads and a number [p] as [ensemble_ai_probability]: with a
    threshold that is a number [t] (0.7 when the request names none) the
    answer is 200 and [is_ai_generated] tells whether [p] is strictly
    above [t], the two compared exactly; with a threshold that is no number
    the answer is the 500.
    The preview of the text has at most 103 characters. *)
Theorem X14_detect_threshold :
  forall (m : Service.modules) (ev : Index.event) (w w1 : world)
         (d result : dict) (raw : str) (ai : value) (p : num),
    Service.IMPORTS_AVAILABLE m = true ->
    posts_to "/detect" ev ->
    parse_body (Service.json_loads m) ev = VDict d ->
    option_of d "text" (VStr (py "")) = VStr raw ->
    (20 <= len (strip raw) <= 50000)%Z ->
    Service.detect_ensemble m (strip raw) w = (w1, Ok (VDict result)) ->
    (forall k, In k detection_keys -> dict_get (py k) result <> None) ->
    dict_get (py "ensemble_ai_probability") result = Some ai ->
    as_num ai = Some p ->
    exists resp,
      Service.handler m ev w = (w1, Ok resp) /\
      match as_num (option_of d "threshold" (VFloat seven_tenths)) with
      | Some t =>
          statusCode resp = 200%Z /\
          answer_field resp "is_ai_generated"
          = Some (VBool (above (num_worth p) (num_worth t))) /\
          answer_field resp "ai_probability" = Some ai /\
          answer_field resp "threshold_used"
          = Some (option_of d "threshold" (VFloat seven_tenths)) /\
          answer_field resp "text_length" = Some (VInt (len (strip raw))) /\
          answer_field resp "text_preview"
          = Some (VStr (Service.text_preview (strip raw))) /\
          (len (Service.text_preview (strip raw)) <= 103)%Z
      | None => resp = internal_server_error
      end.
Proof.
  intros m ev w w1 d result raw ai p HI Hpost Hbody Htext [Hlo Hhi] Hcall Hkeys Hai Hp.
  rewrite (handler_posts m ev w "/detect" Detect Hpost eq_refl).
  unfold try_except, run, Service.route_detect. rewrite HI, Hbody. cbn [negb].
  unfold bind at 1. cbn [method_get lift_result].
  fold (option_of d "text" (VStr (py ""))). rewrite Htext.
  unfold bind at 1. cbn [str_method lift_result].
  unfold bind at 1. cbn [method_get lift_result].
  fold (option_of d "threshold" (VFloat seven_tenths)).
  assert (Hne : truthy (VStr (strip raw)) = true).
  { destruct (strip raw); [cbn in Hlo; lia | reflexivity]. }
  rewrite Hne. cbn [negb].
  apply Z.ltb_ge in Hlo. rewrite Hlo.
  assert (Hgt : (len (strip raw) >? 50000)%Z = false).
  { rewrite Z.gtb_ltb. apply Z.ltb_ge. exact Hhi. }
  rewrite Hgt.
  unfold bind at 1. rewrite Hcall.
  unfold bind at 1. cbn [Service.py_getitem lift_result]. rewrite Hai.
  destruct (as_num (option_of d "threshold" (VFloat seven_tenths))) as [t|] eqn:Ht.
  - unfold bind at 1. rewrite (py_gt_any_numbers _ _ _ _ Hp Ht). cbn [lift_result].
    unfold bind at 1. cbn [lift_result].
    repeat match goal with
           | |- context [dict_get (py ?k) result] =>
               let H := fresh "H" in
               destruct (dict_get (py k) result) eqn:H;
               [| exfalso; apply (Hkeys k); [cbn; tauto | exact H]];
               unfold bind at 1; cbn [lift_result]
           end.
    eexists. split; [reflexivity|].
    split; [reflexivity|]. split; [reflexivity|]. split; [reflexivity|].
    split; [reflexivity|]. split; [reflexivity|]. split; [reflexivity|].
    apply text_preview_length.
  - unfold bind at 1. rewrite (py_gt_any_not_a_number _ _ _ Hp Ht). cbn [lift_result].
    eexists. split; reflexivity.
Qed.

Lemma X14_detect_threshold_witness :
  exists resp,
    Service.handler (sample_modules true) sample_detect_event [] = ([], Ok resp) /\
    statusCode resp = 200%Z /\
    answer_field resp "is_ai_generated" = Some (VBool true).
Proof.
  destruct (X14_detect_threshold (sample_modules true) sample_detect_event [] []
              [ (py "text", VStr sample_request_text) ]
              [ (py "ensemble_ai_probability", VFloat (decimal 9 1));
                (py "ensemble_human_probability", VFloat (decimal 1 1));
                (py "prediction", VStr (py "AI-generated"));
                (py "confidence", VFloat (decimal 8 1));
                (py "models_used", VList [VStr (py "roberta")]);
                (py "individual_results", VList []) ]
              sample_request_text (VFloat (decimal 9 1)) (NumFloat (decimal 9 1)))
    as (resp & Hresp & Hstatus & Hai & _).
  - reflexivity.
  - split; reflexivity.
  - reflexivity.
  - reflexivity.
  - vm_compute. split; discriminate.
  - reflexivity.
  - intros k Hk. cbn in Hk.
    repeat (destruct Hk as [<- | Hk]; [discriminate|]). destruct Hk.
  - reflexivity.
  - reflexivity.
  - exists resp. split; [exact Hresp|]. split; [exact Hstatus | exact Hai].
Defined.

Module DivisionFacts.
Local Open Scope Z_scope.

Lemma shr_1_m (mrs : shr_record) :
  0 <= shr_m mrs -> shr_m (shr_1 mrs) = Z.div2 (shr_m mrs).
Proof.
  destruct mrs as [m r s]. cbn [shr_m shr_1].
  destruct m as [|[p|p|]|p]; intros H; try reflexivity; lia.
Qed.

(** Shifting a mantissa to the right by [n] bits. *)
Lemma shr_iter_m (n : positive) (mrs : shr_record) :
  0 <= shr_m mrs ->
  shr_m (iter_pos shr_1 n mrs) = Z.shiftr (shr_m mrs) (Zpos n).
Proof.
  revert mrs. induction n as [n IH|n IH|]; intros mrs H; cbn [iter_pos].
  - assert (H1 : 0 <= shr_m (shr_1 mrs)).
    { rewrite shr_1_m by exact H. apply Z.div2_nonneg. exact H. }
    assert (H2 : 0 <= shr_m (iter_pos shr_1 n (shr_1 mrs))).
    { rewrite IH by exact H1. apply Z.shiftr_nonneg. exact H1. }
    rewrite IH by exact H2. rewrite IH by exact H1. rewrite shr_1_m by exact H.
    rewrite Z.div2_spec, !Z.shiftr_shiftr by lia. f_equal. lia.
  - assert (H2 : 0 <= shr_m (iter_pos shr_1 n mrs)).
    { rewrite IH by exact H. apply Z.shiftr_nonneg. exact H. }
    rewrite IH by exact H2. rewrite IH by exact H.
    rewrite Z.shiftr_shiftr by lia. f_equal. lia.
  - rewrite shr_1_m by exact H. apply Z.div2_spec.
Qed.

(** A positive mantissa whose exponent is not below the least one keeps a
    positive mantissa when it is brought to the format. *)
Lemma shr_fexp_positive (m e : Z) (l : location) :
  0 < m -> -1074 <= e ->
  0 < shr_m (fst (shr_fexp prec emax m e l)) /\ e <= snd (shr_fexp prec emax m e l).
Proof.
  intros Hm He. unfold shr_fexp, shr.
  destruct m as [|p|p]; try lia.
  cbn [Zdigits2].
  assert (Hr : shr_m (shr_record_of_loc (Zpos p) l) = Zpos p).
  { destruct l as [|[]]; reflexivity. }
  destruct (fexp prec emax (Zpos (digits2_pos p) + e) - e) as [|n|n] eqn:Hn;
    cbn [fst snd]; try (rewrite Hr; lia).
  rewrite shr_iter_m by (rewrite Hr; lia). rewrite Hr. split; [|lia].
  rewrite Z.shiftr_div_pow2 by lia.
  apply Z.div_str_pos. split; [apply Z.pow_pos_nonneg; lia|].
  pose proof (Z.log2_spec (Zpos p) ltac:(lia)) as [Hlog _].
  assert (Hle : Zpos n <= Z.log2 (Zpos p)).
  { rewrite digits2_log2 in Hn. unfold fexp, SpecFloat.emin, prec, emax in Hn. lia. }
  eapply Z.le_trans; [|exact Hlog].
  apply Z.pow_le_mono_r; lia.
Qed.

(** Rounding never turns a positive mantissa into a zero. *)
Lemma round_not_zero (s : bool) (p : positive) (e : Z) (l : location) :
  -1074 <= e -> is_zero (binary_round_aux prec emax s (Zpos p) e l) = false.
Proof.
  intros He. unfold binary_round_aux.
  pose proof (shr_fexp_positive (Zpos p) e l ltac:(lia) He) as [H1 H1e].
  destruct (shr_fexp prec emax (Zpos p) e l) as [mrs' e']. cbn [fst snd] in *.
  assert (Hround : 0 < round_nearest_even (shr_m mrs') (loc_of_shr_record mrs')).
  { unfold round_nearest_even.
    destruct (loc_of_shr_record mrs') as [|[]]; try lia.
    destruct (Z.even (shr_m mrs')); lia. }
  pose proof (shr_fexp_positive _ e' loc_Exact Hround ltac:(lia)) as [H2 _].
  destruct (shr_fexp prec emax _ e' loc_Exact) as [mrs'' e'']. cbn [fst] in H2.
  destruct (shr_m mrs'') as [|q|q]; try lia.
  destruct (Z.leb e'' (emax - prec)); reflexivity.
Qed.

(** [float(z)] is not zero when [z] is not. *)
Lemma of_int_not_zero (z : Z) (f : float) :
  z <> 0 -> of_int z = Some f -> is_zero f = false.
Proof.
  intros Hz Hf. unfold of_int in Hf.
  assert (H : is_zero (binary_normalize prec emax z 0 false) = false).
  { destruct z as [|p|p]; [contradiction| |];
      unfold binary_normalize, binary_round;
      destruct (shl_align p 0 _) as [mz ez] eqn:Ha;
      apply round_not_zero;
      unfold shl_align in Ha;
      set (e' := fexp prec emax (Zpos (digits2_pos p) + 0)) in *;
      assert (He : -1074 <= e') by (unfold e', fexp, SpecFloat.emin, prec, emax; lia);
      destruct (e' - 0) eqn:Hd; injection Ha as _ <-; lia. }
  destruct (is_infinite _); [discriminate Hf|]. injection Hf as <-. exact H.
Qed.

(** A number above 0 is not zero, and stays so as a float. *)
Lemma positive_divisor (x : num) (f : float) :
  above (num_worth x) (Finite 0) = true -> to_float x = Ok f -> is_zero f = false.
Proof.
  intros Hpos Hf. destruct x as [z|g]; cbn [to_float num_worth] in *.
  - destruct (of_int z) as [g|] eqn:Hz; [|discriminate Hf].
    injection Hf as <-. apply (of_int_not_zero z g); [|exact Hz].
    intros ->. discriminate Hpos.
  - injection Hf as <-. destruct g; try reflexivity. discriminate Hpos.
Qed.

Lemma positive_int (z : Z) :
  above (num_worth (NumInt z)) (Finite 0) = true -> Z.eqb z 0 = false.
Proof.
  intros Hpos. destruct z; [discriminate Hpos | reflexivity | reflexivity].
Qed.

(** [100.0] *)
Definition hundred : float := S754_finite false 7036874417766400 (-46).

Lemma hundred_of_int : to_float (NumInt 100) = Ok hundred.
Proof. reflexivity. Qed.

End DivisionFacts.
Import DivisionFacts.

(** X15.  The percentage of improvement never divides by zero.  Once the
    reduction [original - humanized] of the two probabilities has been
    computed, both are numbers.  When the original probability is not above
    0 (a NaN is not), the percentage is the integer 0.  When it is, the
    percentage is [reduction / original * 100], computed in floats: the
    division and the product are each rounded to the nearest float, the only
    exception that can be raised is an [OverflowError] (an int too large
    for a float), and with a float original and a float reduction nothing is
    raised. *)
Theorem X15_percentage_improvement :
  forall (original_detection original humanized reduction : value),
    Service.py_getitem original_detection "ensemble_ai_probability" = Ok original ->
    py_sub original humanized = Ok reduction ->
    exists x y,
      as_num original = Some x /\ as_num reduction = Some y /\
      (above (num_worth x) (Finite 0) = false ->
       Service.percentage_improvement original_detection reduction = Ok (VInt 0)) /\
      (above (num_worth x) (Finite 0) = true ->
       Service.percentage_improvement original_detection reduction
       = match Service.py_truediv reduction original with
         | Ok quotient => py_mul quotient (VInt 100)
         | Raise e => Raise e
         end /\
       (forall e,
          Service.percentage_improvement original_detection reduction = Raise e ->
          exn_class e = "OverflowError"%string) /\
       (forall fx fy,
          x = NumFloat fx -> y = NumFloat fy ->
          Service.percentage_improvement original_detection reduction
          = Ok (VFloat (fmul (fdiv fy fx) hundred)))).
Proof.
  intros od original humanized reduction Hget Hsub.
  assert (Hnum : exists x y, as_num original = Some x /\ as_num reduction = Some y).
  { unfold py_sub in Hsub.
    destruct (as_num original) as [x|]; [|discriminate Hsub].
    destruct (as_num humanized) as [h|]; [|destruct x; discriminate Hsub].
    exists x. unfold float_op in Hsub.
    destruct x as [zx|fx], h as [zh|fh]; cbn [to_float] in Hsub;
      repeat match type of Hsub with
             | context [of_int ?z] => destruct (of_int z); [|discriminate Hsub]
             end;
      injection Hsub as <-; eexists; split; reflexivity. }
  destruct Hnum as (x & y & Hx & Hy). exists x, y.
  split; [exact Hx|]. split; [exact Hy|].
  unfold Service.percentage_improvement. rewrite Hget.
  rewrite (py_gt_any_numbers original (VInt 0) x (NumInt 0) Hx eq_refl).
  change (num_worth (NumInt 0)) with (Finite 0).
  split; intros Hpos; rewrite Hpos; [reflexivity|].
  split; [destruct (Service.py_truediv reduction original); reflexivity|].
  unfold Service.py_truediv. rewrite Hy, Hx.
  split.
  - intros e.
    destruct y as [zy|fy], x as [zx|fx].
    + rewrite (positive_int zx Hpos).
      destruct (int_div zy zx) as [f|]; [discriminate|].
      intros He. injection He as <-. reflexivity.
    + cbn [to_float]. destruct (of_int zy) as [fy|].
      * rewrite (positive_divisor (NumFloat fx) fx Hpos eq_refl). discriminate.
      * intros He. injection He as <-. reflexivity.
    + cbn [to_float]. destruct (of_int zx) as [fx|] eqn:Hzx.
      * rewrite (positive_divisor (NumInt zx) fx Hpos
                   ltac:(cbn [to_float]; rewrite Hzx; reflexivity)).
        discriminate.
      * intros He. injection He as <-. reflexivity.
    + cbn [to_float].
      rewrite (positive_divisor (NumFloat fx) fx Hpos eq_refl). discriminate.
  - intros fx fy -> ->. cbn [to_float].
    rewrite (positive_divisor (NumFloat fx) fx Hpos eq_refl). reflexivity.
Qed.

Lemma X15_percentage_improvement_witness :
  Service.percentage_improvement sample_detection
    (VFloat (decimal 6000000000000001 16))
  = Ok (VFloat (decimal 6666666666666667 14)).
Proof.
  destruct (X15_percentage_improvement sample_detection (VFloat (decimal 9 1))
              (VFloat (decimal 3 1)) (VFloat (decimal 6000000000000001 16)))
    as (x & y & Hx & Hy & _ & Hpos).
  - reflexivity.
  - vm_compute. reflexivity.
  - injection Hx as <-. injection Hy as <-.
    destruct (Hpos eq_refl) as (_ & _ & Hfloat).
    rewrite (Hfloat _ _ eq_refl eq_refl). vm_compute. reflexivity.
Defined.

(* ===================================================================== *)
(** * [netlify/functions/api.py]: the wrapper of the handler *)
(* ===================================================================== *)

Module Netlify.
Import ApiExternal.

(** [s.replace(old, new)] for a non-empty [old]: the occurrences of [old]
    are found from left to right and do not overlap.  [skip] counts the
    characters of an occurrence that are still to be passed over. *)
Fixpoint replace_from (skip : nat) (old new s : str) : str :=
  match s with
  | [] => []
  | c :: r =>
      match skip with
      | S k => replace_from k old new r
      | O =>
          if startswith old s
          then new ++ replace_from (List.length old - 1) old new r
          else c :: replace_from 0 old new r
      end
  end.

Definition replace (old new s : str) : str := replace_from 0 old new s.

(** Lines 20-27: the base path of the function is removed, and the path is
    made to start with a slash. *)
Definition forwarded_path (path : str) : str :=
  let path :=
    if startswith (py "/.netlify/functions/api") path
    then replace (py "/.netlify/functions/api") (py "") path
    else path in
  let path :=
    if startswith (py "/api") path
    then replace (py "/api") (py "") path
    else path in
  (* Ensure path starts with / *)
  if negb (startswith (py "/") path) then py "/" ++ path else path.

Definition default_headers : value :=
  VDict [ (py "Content-Type", VStr (py "application/json"));
          (py "Access-Control-Allow-Origin", VStr (py "*"));
          (py "Access-Control-Allow-Headers", VStr (py "Content-Type"));
          (py "Access-Control-Allow-Methods", VStr (py "GET, POST, OPTIONS")) ].

(** The event prepared for the handler, lines 30-36. *)
Definition handler_event (event : dict) (path : str) : dict :=
  [ (py "httpMethod", option_of event "httpMethod" (VStr (py "GET")));
    (py "path", VStr (forwarded_path path));
    (py "body", option_of event "body" VNone);
    (py "headers", option_of event "headers" (VDict []));
    (py "queryStringParameters", option_of event "queryStringParameters" (VDict [])) ].

Section Wrapper.

(** [handler] is imported from [api.index]; [json.dumps] gives a str. *)
Variable handler : dict -> M world value.
Variable json_dumps : value -> str.

(** The answer of the [except] clause, lines 58-71. *)
Definition error_response (e : exn) : value :=
  VDict [ (py "statusCode", VInt 500);
          (py "headers", default_headers);
          (py "body",
           VStr (json_dumps
                   (VDict [ (py "error", VStr (py "Internal server error"));
                            (py "message", VStr (exn_msg e));
                            (py "success", VBool false) ]))) ].

(** [lambda_handler(event, context)] *)
Definition lambda_handler (event : dict) : M world value :=
  (* [path.startswith]: the path has to be a str *)
  path <- lift_result (str_method "startswith"
                         (option_of event "path" (VStr (py "/")))) ;;
  try_except
    (response <- handler (handler_event event path) ;;
     status <- lift_result (Service.py_getitem response "statusCode") ;;
     headers <- lift_result (method_get response (py "headers") default_headers) ;;
     body <- lift_result (Service.py_getitem response "body") ;;
     ret (VDict [ (py "statusCode", status);
                  (py "headers", headers);
                  (py "body", body) ]))
    (fun e => ret (error_response e)).

End Wrapper.

(** *** The handler of [index.py] behind the wrapper *)

(** The response of [index.py] as the dict that it is. *)
Definition response_value (json_dumps : value -> str) (resp : Index.response) : value :=
  VDict [ (py "statusCode", VInt (Index.statusCode resp));
          (py "headers", VDict (map (fun kv => (fst kv, VStr (snd kv))) (Index.headers resp)));
          (py "body",
           VStr (match Index.body resp with
                 | Index.Literal s => s
                 | Index.JsonDumps v => json_dumps v
                 end)) ].

(** The event of [index.py] for a dict whose [path] is [path] and whose
    [httpMethod] is [method]. *)
Definition index_event (method path : str) (event : dict) : Index.event :=
  Index.mk_event (Some (VStr method)) (Some (VStr path)) (option_of event "body" VNone).

End Netlify.

Module NetlifyFacts.
Import ApiExternal Netlify.

Lemma startswith_app p r : startswith p (p ++ r) = true.
Proof.
  induction p as [|c p IH]; [reflexivity|].
  cbn [app startswith]. rewrite N.eqb_refl. exact IH.
Qed.

Lemma startswith_inv p s : startswith p s = true -> exists rest, s = p ++ rest.
Proof.
  revert s. induction p as [|c p IH]; intros s H.
  - exists s. reflexivity.
  - destruct s as [|x s]; [discriminate H|]. cbn [startswith] in H.
    apply andb_true_iff in H. destruct H as [Hc Hp].
    apply N.eqb_eq in Hc. subst x.
    destruct (IH s Hp) as (rest & ->). exists rest. reflexivity.
Qed.

Lemma contains_cons sub c s :
  Index.contains sub (c :: s) = startswith sub (c :: s) || Index.contains sub s.
Proof. reflexivity. Qed.

Lemma contains_startswith sub s :
  Index.contains sub s = false -> startswith sub s = false.
Proof.
  destruct s as [|c s]; cbn [Index.contains]; intros H;
    apply orb_false_iff in H; exact (proj1 H).
Qed.

Lemma contains_after sub a s :
  Index.contains sub s = true -> Index.contains sub (a ++ s) = true.
Proof.
  intros H. induction a as [|c a IH]; [exact H|].
  cbn [app]. rewrite contains_cons, IH. apply orb_true_r.
Qed.

Lemma contains_prefix sub rest : Index.contains sub (sub ++ rest) = true.
Proof.
  destruct (sub ++ rest) as [|c s] eqn:E.
  - destruct sub; [reflexivity | discriminate E].
  - rewrite contains_cons, <- E, startswith_app. reflexivity.
Qed.

(** A text without [b] is without any [a ++ b]. *)
Lemma contains_longer a b s :
  Index.contains b s = false -> Index.contains (a ++ b) s = false.
Proof.
  intros H. destruct (Index.contains (a ++ b) s) eqn:E; [|reflexivity].
  rewrite <- H. clear H. symmetry.
  induction s as [|c s IH].
  - cbn [Index.contains] in E. rewrite orb_false_r in E.
    apply startswith_inv in E. destruct E as (rest & E).
    destruct a; [|discriminate E]. destruct b; [reflexivity | discriminate E].
  - rewrite contains_cons in E. apply orb_true_iff in E. destruct E as [E|E].
    + apply startswith_inv in E. destruct E as (rest & ->).
      rewrite <- app_assoc. apply contains_after, contains_prefix.
    + rewrite contains_cons, (IH E). apply orb_true_r.
Qed.

(** [replace] leaves a text without [old] as it is. *)
Lemma replace_absent old new s :
  Index.contains old s = false -> replace old new s = s.
Proof.
  unfold replace. induction s as [|c s IH]; [reflexivity|].
  rewrite contains_cons. intros H. apply orb_false_iff in H. destruct H as [Hs Hc].
  cbn [replace_from]. rewrite Hs, (IH Hc). reflexivity.
Qed.

Lemma replace_skip p old new r :
  replace_from (List.length p) old new (p ++ r) = replace_from 0 old new r.
Proof. induction p as [|c p IH]; [reflexivity | exact IH]. Qed.

(** [replace] on a text that starts with [old]. *)
Lemma replace_prefix c old new r :
  replace (c :: old) new ((c :: old) ++ r) = new ++ replace (c :: old) new r.
Proof.
  unfold replace. cbn [app replace_from].
  change (c :: old ++ r) with ((c :: old) ++ r). rewrite startswith_app.
  cbn [List.length]. rewrite Nat.sub_1_r. cbn [Nat.pred].
  rewrite replace_skip. reflexivity.
Qed.

(** The path with a slash in front, unless it has one. *)
Definition slashed (r : str) : str :=
  if startswith (py "/") r then r else py "/" ++ r.

Lemma forwarded_path_plain r :
  Index.contains (py "/api") r = false -> forwarded_path r = slashed r.
Proof.
  intros H. unfold forwarded_path, slashed.
  assert (Hn : startswith (py "/.netlify/functions/api") r = false).
  { apply contains_startswith.
    exact (contains_longer (py "/.netlify/functions") (py "/api") r H). }
  rewrite Hn, (contains_startswith _ _ H).
  destruct (startswith (py "/") r); reflexivity.
Qed.

Lemma replace_api r :
  Index.contains (py "/api") r = false ->
  replace (py "/api") (py "") (py "/api" ++ r) = r.
Proof.
  intros H.
  change (py "/api") with (47%N :: py "api").
  rewrite replace_prefix.
  change (47%N :: py "api") with (py "/api").
  rewrite (replace_absent (py "/api") (py "") r H). reflexivity.
Qed.

Lemma replace_function r :
  Index.contains (py "/.netlify/functions/api") r = false ->
  replace (py "/.netlify/functions/api") (py "") (py "/.netlify/functions/api" ++ r) = r.
Proof.
  intros H.
  change (py "/.netlify/functions/api") with (47%N :: py ".netlify/functions/api").
  rewrite replace_prefix.
  change (47%N :: py ".netlify/functions/api") with (py "/.netlify/functions/api").
  rewrite (replace_absent _ (py "") r H). reflexivity.
Qed.

Lemma forwarded_path_api r :
  Index.contains (py "/api") r = false ->
  forwarded_path (py "/api" ++ r) = slashed r.
Proof.
  intros H. unfold forwarded_path. cbv zeta.
  assert (H1 : startswith (py "/.netlify/functions/api") (py "/api" ++ r) = false)
    by reflexivity.
  rewrite H1, startswith_app, (replace_api r H).
  unfold slashed. destruct (startswith (py "/") r); reflexivity.
Qed.

Lemma forwarded_path_function r :
  Index.contains (py "/api") r = false ->
  forwarded_path (py "/.netlify/functions/api" ++ r) = slashed r.
Proof.
  intros H. unfold forwarded_path. cbv zeta.
  assert (Hc : Index.contains (py "/.netlify/functions/api") r = false).
  { exact (contains_longer (py "/.netlify/functions") (py "/api") r H). }
  rewrite startswith_app, (replace_function r Hc), (contains_startswith _ _ H).
  unfold slashed. destruct (startswith (py "/") r); reflexivity.
Qed.

Lemma forwarded_path_slash p : startswith (py "/") (forwarded_path p) = true.
Proof.
  unfold forwarded_path. cbv zeta.
  match goal with
  | |- context [negb (startswith (py "/") ?q)] =>
      destruct (startswith (py "/") q) eqn:E; cbn [negb]; [exact E | reflexivity]
  end.
Qed.

End NetlifyFacts.
Import Netlify NetlifyFacts.

(** X16.  The path that the wrapper forwards starts with a slash.  For a
    path [r] in which ["/api"] does not occur, the paths
    ["/.netlify/functions/api" + r], ["/api" + r] and [r] itself are all
    forwarded as [r], with a slash in front when it has none. *)
Theorem X16_forwarded_path :
  forall r : str,
    startswith (py "/") (forwarded_path r) = true /\
    (Index.contains (py "/api") r = false ->
     forwarded_path (py "/.netlify/functions/api" ++ r) = slashed r /\
     forwarded_path (py "/api" ++ r) = slashed r /\
     forwarded_path r = slashed r).
Proof.
  intros r. split; [apply forwarded_path_slash|].
  intros H. split; [|split].
  - exact (forwarded_path_function r H).
  - exact (forwarded_path_api r H).
  - exact (forwarded_path_plain r H).
Qed.

Lemma X16_forwarded_path_witness :
  forwarded_path (py "/.netlify/functions/api/humanize") = py "/humanize" /\
  forwarded_path (py "/api/humanize") = py "/humanize" /\
  forwarded_path (py "/humanize") = py "/humanize".
Proof.
  exact (proj2 (X16_forwarded_path (py "/humanize")) eq_refl).
Defined.

Module WrapperFacts.
Import ApiExternal Index.

(** The handler of [index.py] returns a response when the path of the
    event is a str. *)
Lemma handler_returns m ev w :
  is_str (path_value ev) = true ->
  exists w' resp, Service.handler m ev w = (w', Ok resp).
Proof.
  intros Hstr. rewrite handler_dispatch.
  destruct (is_preflight ev); [eexists _, _; reflexivity|].
  unfold path_of. destruct (path_value ev) as [| | | |p| |]; try discriminate Hstr.
  destruct (route_of (rstrip_slash p) (method_of ev)) as [r|];
    [|eexists _, _; reflexivity].
  destruct (run_answers m r (parse_body (Service.json_loads m) ev) w)
    as (w' & resp & Hrun & _).
  exists w', resp. exact Hrun.
Qed.

(** The handler that the wrapper imports is the one of [index.py]: on an
    event whose method and path are strs it answers as [Service.handler]
    does, the response taken as a dict. *)
Definition is_index_handler (m : Service.modules) (json_dumps : value -> str)
    (handler : dict -> M world value) : Prop :=
  forall (d : dict) (method path : str),
    dict_get (py "httpMethod") d = Some (VStr method) ->
    dict_get (py "path") d = Some (VStr path) ->
    handler d
    = (resp <- Service.handler m (index_event method path d) ;;
       ret (response_value json_dumps resp)).

(** What the wrapper makes of a response of the handler. *)
Definition passed_on (response : value) (answer : value) : Prop :=
  exists r status body,
    response = VDict r /\
    dict_get (py "statusCode") r = Some status /\
    dict_get (py "body") r = Some body /\
    answer = VDict [ (py "statusCode", status);
                     (py "headers", option_of r "headers" default_headers);
                     (py "body", body) ].

Definition complete (response : value) : bool :=
  match response with
  | VDict r =>
      match dict_get (py "statusCode") r, dict_get (py "body") r with
      | Some _, Some _ => true
      | _, _ => false
      end
  | _ => false
  end.

Lemma wrap_response json_dumps response w :
  try_except
    (status <- lift_result (Service.py_getitem response "statusCode") ;;
     headers <- lift_result (method_get response (py "headers") default_headers) ;;
     body <- lift_result (Service.py_getitem response "body") ;;
     ret (VDict [ (py "statusCode", status);
                  (py "headers", headers);
                  (py "body", body) ]) : M world value)
    (fun e => ret (error_response json_dumps e)) w
  = (w, Ok match response with
           | VDict r =>
               match dict_get (py "statusCode") r, dict_get (py "body") r with
               | Some status, Some body =>
                   VDict [ (py "statusCode", status);
                           (py "headers", option_of r "headers" default_headers);
                           (py "body", body) ]
               | None, _ => error_response json_dumps (KeyError "statusCode")
               | Some _, None => error_response json_dumps (KeyError "body")
               end
           | _ =>
               error_response json_dumps
                 match Service.py_getitem response "statusCode" with
                 | Raise e => e
                 | Ok _ => Exception ""
                 end
           end).
Proof.
  destruct response as [|b|z|q|s|l|r]; try reflexivity.
  unfold try_except, bind, lift_result. cbn [Service.py_getitem method_get].
  destruct (dict_get (py "statusCode") r); [|reflexivity].
  destruct (dict_get (py "body") r); reflexivity.
Qed.

End WrapperFacts.
Import WrapperFacts.

(** A handler for the examples: the one of [index.py] with the sample
    modules, which is not given events of another form. *)
Definition sample_json_dumps : value -> str := fun _ => py "{...}".

Definition sample_index_handler : dict -> M world value :=
  fun d =>
    match dict_get (py "httpMethod") d, dict_get (py "path") d with
    | Some (VStr method), Some (VStr path) =>
        resp <- Service.handler (sample_modules true) (index_event method path d) ;;
        ret (response_value sample_json_dumps resp)
    | _, _ => raise (Exception "event of another form")
    end.

(** An event as Netlify passes it. *)
Definition sample_netlify_event : dict :=
  [ (py "httpMethod", VStr (py "POST"));
    (py "path", VStr (py "/.netlify/functions/api/humanize"));
    (py "body", VDict [ (py "text", VStr sample_request_text) ]) ].

(** X17.  The wrapper raises only when the [path] of the event is not a
    str.  Otherwise it hands the prepared event to the handler, and
    answers whatever the handler does: a response that is a dict with
    [statusCode] and [body] is passed on, with its [headers] or the
    default ones; when the handler raises, the answer is the 500 of the
    wrapper with the message of the exception; any other response gives
    a 500 of the wrapper as well. *)
Theorem X17_lambda_handler_answers :
  forall (handler : dict -> M world value) (json_dumps : value -> str)
         (event : dict) (w : world),
    match option_of event "path" (VStr (py "/")) with
    | VStr path =>
        match handler (handler_event event path) w with
        | (w', Ok response) =>
            exists answer,
              lambda_handler handler json_dumps event w = (w', Ok answer) /\
              (if complete response then passed_on response answer
               else exists e, answer = error_response json_dumps e)
        | (w', Raise e) =>
            lambda_handler handler json_dumps event w
            = (w', Ok (error_response json_dumps e))
        end
    | other =>
        lambda_handler handler json_dumps event w
        = (w, Raise (AttributeError other "startswith"))
    end.
Proof.
  intros handler json_dumps event w. unfold lambda_handler.
  destruct (option_of event "path" (VStr (py "/"))) as [|b|z|q|path|l|d];
    try reflexivity.
  destruct (handler (handler_event event path) w) as [w' [response|e]] eqn:Hcall.
  - pose proof (wrap_response json_dumps response w') as Hwrap.
    unfold bind at 1. cbn [str_method lift_result].
    unfold try_except in *. unfold bind at 1. rewrite Hcall.
    destruct response as [|b|z|q|s|l|r]; cbn [complete];
      try (eexists; split; [exact Hwrap | eexists; reflexivity]).
    destruct (dict_get (py "statusCode") r) as [status|] eqn:Hs;
      [|eexists; split; [exact Hwrap | eexists; reflexivity]].
    destruct (dict_get (py "body") r) as [body|] eqn:Hb;
      [|eexists; split; [exact Hwrap | eexists; reflexivity]].
    eexists. split; [exact Hwrap|].
    exists r, status, body. repeat split; assumption.
  - unfold bind at 1. cbn [str_method lift_result].
    unfold try_except. unfold bind at 1. rewrite Hcall. reflexivity.
Qed.

(** X18.  Behind the wrapper, the handler of [index.py] sees the request
    without the base path of the function: for a path [r] in which
    ["/api"] does not occur, an event for ["/.netlify/functions/api" + r],
    ["/api" + r] or [r] is answered with the response of the handler for
    [r] (with a slash in front when it has none), passed on as it is; the
    500 of the wrapper is never given.  The base path alone is forwarded
    as ["/"], which the handler answers with 404. *)
Theorem X18_wrapper_reaches_index :
  forall (m : Service.modules) (json_dumps : value -> str)
         (handler : dict -> M world value)
         (event : dict) (method r : str) (w : world),
    is_index_handler m json_dumps handler ->
    option_of event "httpMethod" (VStr (py "GET")) = VStr method ->
    Index.contains (py "/api") r = false ->
    option_of event "path" (VStr (py "/")) = VStr (py "/.netlify/functions/api" ++ r) \/
    option_of event "path" (VStr (py "/")) = VStr (py "/api" ++ r) \/
    option_of event "path" (VStr (py "/")) = VStr r ->
    exists w' resp,
      Service.handler m (index_event method (slashed r) event) w = (w', Ok resp) /\
      lambda_handler handler json_dumps event w
      = (w', Ok (response_value json_dumps resp)) /\
      (r = [] -> PyStr.eqb method (py "OPTIONS") = false -> resp = not_found).
Proof.
  intros m json_dumps handler event method r w Hindex Hmethod Hr Hpath.
  destruct (handler_returns m (index_event method (slashed r) event) w eq_refl)
    as (w' & resp & Hrun).
  exists w', resp. split; [exact Hrun|]. split.
  - assert (Hforward : exists path,
              option_of event "path" (VStr (py "/")) = VStr path /\
              forwarded_path path = slashed r).
    { destruct Hpath as [H|[H|H]]; eexists; (split; [exact H|]).
      - exact (forwarded_path_function r Hr).
      - exact (forwarded_path_api r Hr).
      - exact (forwarded_path_plain r Hr). }
    destruct Hforward as (path & Hp & Hf).
    unfold lambda_handler. rewrite Hp.
    unfold bind at 1. cbn [str_method lift_result].
    unfold try_except. unfold bind at 1.
    rewrite (Hindex (handler_event event path) method (slashed r)).
    + assert (He : index_event method (slashed r) (handler_event event path)
                   = index_event method (slashed r) event) by reflexivity.
      rewrite He. unfold bind at 1. rewrite Hrun. reflexivity.
    + unfold handler_event. rewrite Hmethod. reflexivity.
    + unfold handler_event. rewrite Hf. reflexivity.
  - intros -> Hopt. revert Hrun. rewrite handler_dispatch.
    unfold is_preflight, index_event. cbn [Index.ev_httpMethod Index.opt_eq eq_str].
    rewrite Hopt. intros H. injection H as _ <-. reflexivity.
Qed.

Lemma X18_wrapper_reaches_index_witness :
  exists w' resp,
    Service.handler (sample_modules true)
      (index_event (py "POST") (py "/humanize") sample_netlify_event) [] = (w', Ok resp) /\
    lambda_handler sample_index_handler sample_json_dumps sample_netlify_event []
    = (w', Ok (response_value sample_json_dumps resp)).
Proof.
  destruct (X18_wrapper_reaches_index (sample_modules true) sample_json_dumps
              sample_index_handler sample_netlify_event (py "POST") (py "/humanize") [])
    as (w' & resp & Hrun & Hwrap & _).
  - intros d method path Hm Hp. unfold sample_index_handler. rewrite Hm, Hp. reflexivity.
  - reflexivity.
  - reflexivity.
  - left. reflexivity.
  - exists w', resp. split; [exact Hrun | exact Hwrap].
Defined.

(* --------------------------------------------------------------------- *)
(** ** The detection routes: which texts are rejected *)
(* --------------------------------------------------------------------- *)

Module Rejections.
Import ApiExternal Index.

(** The least number of characters that a route accepts. *)
Definition minimum_length (r : route) : Z :=
  match r with
  | Detect => 20
  | _ => 10
  end.

Definition path_name (r : route) : string :=
  match r with
  | Health => "/health"
  | Models => "/models"
  | Humanize => "/humanize"
  | Detect => "/detect"
  | HumanizeAndCheck => "/humanize_and_check"
  end.

(** The text of the body is a str that is too short or too long, once
    stripped; a body without text counts as the empty text. *)
Definition out_of_bounds (r : route) (body : value) : Prop :=
  exists d raw,
    body = VDict d /\
    option_of d "text" (VStr (py "")) = VStr raw /\
    (len (strip raw) < minimum_length r \/ 50000 < len (strip raw))%Z.

Definition accepted : world -> response -> Prop :=
  fun _ resp => statusCode resp = 200%Z.

Ltac proceed :=
  repeat match goal with
         | |- outcome (ret _) _ _ => apply outcome_ret; reflexivity
         | |- outcome (bind (lift_result _) _) _ _ => apply outcome_pure; intros ? ?
         | |- outcome (bind _ _) _ _ => apply outcome_call; intros ? ?
         | |- outcome (match ?p with (_, _) => _ end) _ _ => destruct p
         end.

Lemma empty_is_short (s : str) (n : Z) :
  truthy (VStr s) = false -> (0 < n)%Z -> (len s < n)%Z.
Proof. destruct s; [intros _ H; exact H | discriminate]. Qed.

(** The validation of the two routes, for a body whose text is the str
    [raw]: three tests, each answered 400, then the part that answers 200
    when no exception is raised. *)
Lemma detection_route_validation m r d raw :
  Service.IMPORTS_AVAILABLE m = true ->
  r = Detect \/ r = HumanizeAndCheck ->
  option_of d "text" (VStr (py "")) = VStr raw ->
  exists r1 r2 r3 rest,
    (forall w,
       run m r (VDict d) w
       = (if negb (truthy (VStr (strip raw))) then ret r1
          else if (len (strip raw) <? minimum_length r)%Z then ret r2
          else if (len (strip raw) >? 50000)%Z then ret r3
          else rest) w) /\
    statusCode r1 = 400%Z /\ statusCode r2 = 400%Z /\ statusCode r3 = 400%Z /\
    (forall w, outcome rest w accepted).
Proof.
  intros HI Hr Ht.
  destruct Hr as [-> | ->]; do 4 eexists; (split; [intros w|]).
  - unfold run, Service.route_detect. rewrite HI. cbn [negb minimum_length].
    unfold bind at 1. cbn [method_get lift_result].
    fold (option_of d "text" (VStr (py ""))). rewrite Ht.
    unfold bind at 1. cbn [str_method lift_result].
    unfold bind at 1. cbn [method_get lift_result].
    reflexivity.
  - split; [reflexivity|]. split; [reflexivity|]. split; [reflexivity|].
    intros w. proceed.
  - unfold run, Service.route_humanize_and_check. rewrite HI. cbn [negb minimum_length].
    unfold bind at 1. cbn [method_get lift_result].
    fold (option_of d "text" (VStr (py ""))). rewrite Ht.
    unfold bind at 1. cbn [str_method lift_result].
    reflexivity.
  - split; [reflexivity|]. split; [reflexivity|]. split; [reflexivity|].
    intros w. proceed.
Qed.

(** The two routes reject a text that is out of bounds before anything is
    called; for any other body they answer 200, unless an exception is
    raised. *)
Lemma detection_route_cases m r body w :
  Service.IMPORTS_AVAILABLE m = true ->
  r = Detect \/ r = HumanizeAndCheck ->
  (out_of_bounds r body /\
   exists resp, run m r body w = (w, Ok resp) /\ statusCode resp = 400%Z)
  \/
  (~ out_of_bounds r body /\ outcome (run m r body) w accepted).
Proof.
  intros HI Hr.
  assert (Hnot : forall v, (forall d, v <> VDict d) -> ~ out_of_bounds r v).
  { intros v Hv (d & raw & Hd & _). exact (Hv d Hd). }
  assert (Htext : forall d, (forall raw, option_of d "text" (VStr (py "")) <> VStr raw) ->
                            ~ out_of_bounds r (VDict d)).
  { intros d Hd (d' & raw & Heq & Ht & _). injection Heq as <-. exact (Hd raw Ht). }
  destruct body as [|b|z|q|s|l|d];
    try (right; split; [apply Hnot; intros d' H; discriminate H|];
         destruct Hr as [-> | ->]; unfold run, Service.route_detect,
           Service.route_humanize_and_check; rewrite HI; cbn [negb]; exact I).
  destruct (option_of d "text" (VStr (py ""))) as [|b|z|q|raw|l|d'] eqn:Ht;
    try (right; split; [apply Htext; intros raw H; rewrite Ht in H; discriminate H|];
         destruct Hr as [-> | ->]; unfold run, Service.route_detect,
           Service.route_humanize_and_check; rewrite HI; cbn [negb];
         unfold outcome, bind at 1; cbn [method_get lift_result];
         fold (option_of d "text" (VStr (py ""))); rewrite Ht; exact I).
  destruct (detection_route_validation m r d raw HI Hr Ht)
    as (r1 & r2 & r3 & rest & Heq & H1 & H2 & H3 & Hrest).
  assert (Hmin : (0 < minimum_length r)%Z).
  { destruct Hr as [-> | ->]; reflexivity. }
  unfold outcome. rewrite Heq.
  destruct (truthy (VStr (strip raw))) eqn:Hne; cbn [negb].
  2:{ left. split; [|exists r1; split; [reflexivity | exact H1]].
      exists d, raw. split; [reflexivity|]. split; [exact Ht|].
      left. exact (empty_is_short _ _ Hne Hmin). }
  destruct (len (strip raw) <? minimum_length r)%Z eqn:Hlo.
  { left. split; [|exists r2; split; [reflexivity | exact H2]].
    exists d, raw. split; [reflexivity|]. split; [exact Ht|].
    left. apply Z.ltb_lt. exact Hlo. }
  destruct (len (strip raw) >? 50000)%Z eqn:Hhi.
  { left. split; [|exists r3; split; [reflexivity | exact H3]].
    exists d, raw. split; [reflexivity|]. split; [exact Ht|].
    right. rewrite Z.gtb_ltb in Hhi. apply Z.ltb_lt. exact Hhi. }
  right. split; [|exact (Hrest w)].
  intros (d' & raw' & Hd & Ht' & Hb). injection Hd as <-.
  rewrite Ht in Ht'. injection Ht' as <-.
  apply Z.ltb_ge in Hlo. rewrite Z.gtb_ltb in Hhi. apply Z.ltb_ge in Hhi.
  lia.
Qed.

End Rejections.
Import Rejections.

(** A request for a detection whose text is too short. *)
Definition short_detect_event : Index.event :=
  Index.mk_event (Some (VStr (py "POST"))) (Some (VStr (py "/detect")))
    (VDict [ (py "text", VStr (py "  too short  ")) ]).

(** X19.  With the modules available, a POST to [/detect] or to
    [/humanize_and_check] is answered 400 exactly when the parsed body is
    an object whose [text] (the empty text when there is none) is a str
    that, once stripped, has fewer characters than the minimum of the
    route, 20 for [/detect] and 10 for [/humanize_and_check], or more than
    50000. *)
Theorem X19_detection_routes_reject :
  forall (m : Service.modules) (ev : Index.event) (w : world) (r : route),
    Service.IMPORTS_AVAILABLE m = true ->
    r = Detect \/ r = HumanizeAndCheck ->
    posts_to (path_name r) ev ->
    exists w' resp,
      Service.handler m ev w = (w', Ok resp) /\
      (statusCode resp = 400%Z <->
       out_of_bounds r (parse_body (Service.json_loads m) ev)).
Proof.
  intros m ev w r HI Hr Hpost.
  assert (Hroute : route_of (py (path_name r)) (VStr (py "POST")) = Some r).
  { destruct Hr as [-> | ->]; reflexivity. }
  rewrite (handler_posts m ev w (path_name r) r Hpost Hroute).
  unfold try_except.
  destruct (detection_route_cases m r (parse_body (Service.json_loads m) ev) w HI Hr)
    as [[Hout (resp & Hrun & Hs)] | [Hin Hok]].
  - rewrite Hrun. exists w, resp. split; [reflexivity|].
    split; [intros _; exact Hout | intros _; exact Hs].
  - unfold outcome, accepted in Hok.
    destruct (run m r _ w) as [w' [resp|e]].
    + exists w', resp. split; [reflexivity|]. split.
      * intros H. rewrite Hok in H. discriminate H.
      * intros H. exfalso. exact (Hin H).
    + exists w', internal_server_error. split; [reflexivity|]. split.
      * intros H. discriminate H.
      * intros H. exfalso. exact (Hin H).
Qed.

Lemma X19_detection_routes_reject_witness :
  exists w' resp,
    Service.handler (sample_modules true) short_detect_event [] = (w', Ok resp) /\
    (statusCode resp = 400%Z <->
     out_of_bounds Detect (VDict [ (py "text", VStr (py "  too short  ")) ])).
Proof.
  apply (X19_detection_routes_reject (sample_modules true) short_detect_event [] Detect).
  - reflexivity.
  - left. reflexivity.
  - split; reflexivity.
Defined.
